(** * quack: task runner and module vendoring -- a shallow embedding

    This development embeds [quack/quack.py] in Rocq and proves (or refutes)
    statements of its specification.

    Modelling decisions, all visible in the definitions below:

    - Values loaded from the YAML configuration are dynamically typed; they
      are the inhabitants of [pyval].  Mappings are association lists in
      document order with string keys.
    - The interpreter is Python 3: [print a b] joins with one space, captured
      process output is [bytes].
    - Side effects are threaded through the state-and-exception monad [M]
      over [World]: the file system (a tree rooted at [/]), the two output
      streams and the log of calls made to the external collaborators.  The
      program never changes directory; the directory it runs in is a
      parameter [wd] of every function.
    - Paths are resolved lexically against the current directory, the way
      [os.path.normpath] does: empty and [.] components are dropped, [..]
      removes the component before it; the empty name refers to nothing.
      This is what the system does for a name made of plain components.
      For a name with a trailing [/], with [.] or with [..] the system also
      wants every directory on the way to exist (a regular file named with
      a trailing [/] does not exist for it), which the lexical resolution
      does not check: statements about what is at a name are made for plain
      names, and for the one name with a trailing [/] the program itself
      uses, [.git/modules/], for worlds with no regular file in that place.
      Symbolic links and permissions are not modelled.
    - Files are read in text mode: line endings are translated.
    - GitPython and the process runner are not part of the repository; they
      are the fields of the record [Ext], functions of their arguments and
      of the file system they run in.  Theorems that need a property of them
      state it as a hypothesis.  The program hands its command lines to the
      process runner as one string, without a shell: the string is the name
      of the program, so a command line with arguments names a program only
      where one of that whole name is installed. *)

From Stdlib Require Import String Ascii List ZArith Bool Lia DecimalString.
Import ListNotations.
Open Scope string_scope.
Open Scope Z_scope.

Set Warnings "-register-all".

(* ================================================================== *)
(** * Python strings *)

Module PyStr.

Definition len (s : string) : Z := Z.of_nat (String.length s).

(** [s.find(sub)]: index of the first occurrence, [-1] when there is none. *)
Fixpoint find_from (sub s : string) (i : Z) : Z :=
  if prefix sub s then i
  else match s with
       | EmptyString => -1
       | String _ s' => find_from sub s' (i + 1)
       end.

Definition find (s sub : string) : Z := find_from sub s 0.

(** [s.rfind(sub)]: index of the last occurrence, [-1] when there is none. *)
Fixpoint rfind_from (sub s : string) (i last : Z) : Z :=
  let last' := if prefix sub s then i else last in
  match s with
  | EmptyString => last'
  | String _ s' => rfind_from sub s' (i + 1) last'
  end.

Definition rfind (s sub : string) : Z := rfind_from sub s 0 (-1).

(** [s.replace(old, new)] for a non-empty [old]: every occurrence, scanning
    from the left, occurrences do not overlap.  [skip] counts the characters
    of the occurrence just replaced that are still to be dropped. *)
Fixpoint replace_from (old new s : string) (skip : nat) : string :=
  match skip with
  | S k =>
      match s with
      | EmptyString => EmptyString
      | String _ s' => replace_from old new s' k
      end
  | O =>
      match s with
      | EmptyString => EmptyString
      | String c s' =>
          if prefix old s
          then new ++ replace_from old new s' (Nat.pred (String.length old))
          else String c (replace_from old new s' O)
      end
  end.

Definition replace (s old new : string) : string := replace_from old new s O.

Fixpoint drop (n : nat) (s : string) : string :=
  match n, s with
  | O, _ => s
  | S k, String _ s' => drop k s'
  | S _, EmptyString => EmptyString
  end.

Fixpoint take (n : nat) (s : string) : string :=
  match n, s with
  | S k, String c s' => String c (take k s')
  | _, _ => EmptyString
  end.

(** A slice bound: negative bounds count from the end, then clamp. *)
Definition clamp (n i : Z) : Z :=
  let j := if i <? 0 then i + n else i in
  Z.max 0 (Z.min n j).

(** [s[i:j]] *)
Definition slice (s : string) (i j : Z) : string :=
  let n := len s in
  let a := clamp n i in
  let b := clamp n j in
  take (Z.to_nat (b - a)) (drop (Z.to_nat a) s).

(** [s[i:]] *)
Definition slice_from (s : string) (i : Z) : string := slice s i (len s).

(** [s[:j]] *)
Definition slice_to (s : string) (j : Z) : string := slice s 0 j.

(** [s.split(sep)] for a one-character separator. *)
Fixpoint split (sep : ascii) (s : string) : list string :=
  match s with
  | EmptyString => [EmptyString]
  | String c s' =>
      if Ascii.eqb c sep then EmptyString :: split sep s'
      else match split sep s' with
           | [] => [String c EmptyString]
           | h :: t => String c h :: t
           end
  end.

(** [sep.join(l)] *)
Definition join (sep : string) (l : list string) : string := String.concat sep l.

(** [x in l] for a list of strings. *)
Definition mem (x : string) (l : list string) : bool :=
  existsb (String.eqb x) l.

Definition of_Z (z : Z) : string := NilZero.string_of_int (Z.to_int z).

Definition dquote : ascii := ascii_of_nat 34.
Definition squote : ascii := ascii_of_nat 39.
Definition backslash : ascii := ascii_of_nat 92.
Definition newline : ascii := ascii_of_nat 10.
Definition cr : ascii := ascii_of_nat 13.
Definition tab : ascii := ascii_of_nat 9.
Definition nl : string := String newline EmptyString.

(** What reading a file in text mode makes of its content: each line
    ending, [\r\n] or [\r] alone, becomes [\n] (universal newlines). *)
Fixpoint universal_newlines (s : string) : string :=
  match s with
  | EmptyString => EmptyString
  | String c s' =>
      if Ascii.eqb c cr then
        String newline
          match s' with
          | EmptyString => EmptyString
          | String c' s'' =>
              if Ascii.eqb c' newline then universal_newlines s''
              else universal_newlines s'
          end
      else String c (universal_newlines s')
  end.

(** [list(set(l))] for a list of strings: every element once.  The order
    Python gives the result is not specified; the program only tests
    membership in it and appends to it. *)
Definition distinct (l : list string) : list string := nodup string_dec l.

Fixpoint has_char (c : ascii) (s : string) : bool :=
  match s with
  | EmptyString => false
  | String d s' => Ascii.eqb c d || has_char c s'
  end.

Fixpoint escape (q : ascii) (s : string) : string :=
  match s with
  | EmptyString => EmptyString
  | String c s' =>
      let rest := escape q s' in
      if Ascii.eqb c backslash then String backslash (String backslash rest)
      else if Ascii.eqb c q then String backslash (String q rest)
      else if Ascii.eqb c newline then String backslash (String "n" rest)
      else if Ascii.eqb c cr then String backslash (String "r" rest)
      else if Ascii.eqb c tab then String backslash (String "t" rest)
      else String c rest
  end.

(** [repr(s)] for printable text: single quotes unless the text has a
    single quote and no double quote. *)
Definition repr (s : string) : string :=
  let q := if has_char squote s && negb (has_char dquote s)
           then dquote else squote in
  String q (escape q s ++ String q EmptyString).

End PyStr.

(* ================================================================== *)
(** * Python values and exceptions *)

Inductive pyval : Type :=
| PNone
| PBool (b : bool)
| PInt (z : Z)
| PStr (s : string)
| PBytes (s : string)
| PList (l : list pyval)
| PDict (d : list (string * pyval)).

Inductive exn : Type :=
| SystemExit (code : Z)
| NameError (name : string)
| TypeError
| ValueError
| AttributeError
| IndexError
| KeyError (key : string)
| OSError (kind : string)
| GitError (what : string).

Inductive result (A : Type) : Type :=
| Ok (a : A)
| Raise (e : exn).

Arguments Ok {A} a.
Arguments Raise {A} e.

(** Truth value of an object, as tested by [if], [and], [or], [not]. *)
Definition truthy (v : pyval) : bool :=
  match v with
  | PNone => false
  | PBool b => b
  | PInt z => negb (z =? 0)
  | PStr s => negb (String.eqb s EmptyString)
  | PBytes s => negb (String.eqb s EmptyString)
  | PList l => match l with [] => false | _ => true end
  | PDict d => match d with [] => false | _ => true end
  end.

Fixpoint assoc {A : Type} (k : string) (d : list (string * A)) : option A :=
  match d with
  | [] => None
  | (k', v) :: d' => if String.eqb k k' then Some v else assoc k d'
  end.

Fixpoint py_repr (v : pyval) : string :=
  match v with
  | PNone => "None"
  | PBool true => "True"
  | PBool false => "False"
  | PInt z => PyStr.of_Z z
  | PStr s => PyStr.repr s
  | PBytes s => "b" ++ PyStr.repr s
  | PList l => "[" ++ PyStr.join ", " (map py_repr l) ++ "]"
  | PDict d =>
      "{" ++ PyStr.join ", "
        (map (fun kv => PyStr.repr (fst kv) ++ ": " ++ py_repr (snd kv)) d) ++ "}"
  end.

(** [str(v)] *)
Definition py_str (v : pyval) : string :=
  match v with
  | PStr s => s
  | _ => py_repr v
  end.

(** [d.get(k, default)]; only mappings have [get]. *)
Definition py_get (d : pyval) (k : string) (default : pyval) : result pyval :=
  match d with
  | PDict l => Ok (match assoc k l with Some v => v | None => default end)
  | _ => Raise AttributeError
  end.

(** [d.items()]; only mappings have [items]. *)
Definition py_items (d : pyval) : result (list (string * pyval)) :=
  match d with
  | PDict l => Ok l
  | _ => Raise AttributeError
  end.

(** The values a [for] loop draws from an object. *)
Definition py_iter (v : pyval) : result (list pyval) :=
  match v with
  | PList l => Ok l
  | PDict d => Ok (map (fun kv => PStr (fst kv)) d)
  | PStr s => Ok (map (fun c => PStr (String c EmptyString)) (list_ascii_of_string s))
  | PBytes s => Ok (map (fun c => PInt (Z.of_nat (nat_of_ascii c))) (list_ascii_of_string s))
  | PNone | PBool _ | PInt _ => Raise TypeError
  end.

(** The [%] operator on a format with the conversions [%s], [%r], [%d] and
    [%%], the ones the program uses; [args] is the right operand as a tuple
    (a right operand that is no tuple counts as a tuple of one).  Too few
    arguments, arguments left over and a [%d] given no number are
    [TypeError]; any other conversion character and a [%] at the very end are
    [ValueError]. *)
Fixpoint py_format (fmt : string) (args : list pyval) : result string :=
  match fmt with
  | String "%" (String c rest) =>
      if Ascii.eqb c "%" then
        match py_format rest args with
        | Ok s => Ok (String "%" s)
        | Raise e => Raise e
        end
      else
        match args with
        | [] => Raise TypeError
        | a :: args' =>
            let conv :=
              if Ascii.eqb c "s" then Ok (py_str a)
              else if Ascii.eqb c "r" then Ok (py_repr a)
              else if Ascii.eqb c "d" then
                match a with
                | PInt z => Ok (PyStr.of_Z z)
                | PBool b => Ok (if b then "1" else "0")
                | _ => Raise TypeError
                end
              else Raise ValueError in
            match conv with
            | Raise e => Raise e
            | Ok piece =>
                match py_format rest args' with
                | Ok s => Ok (piece ++ s)
                | Raise e => Raise e
                end
            end
        end
  | String c rest =>
      if Ascii.eqb c "%" then Raise ValueError
      else
        match py_format rest args with
        | Ok s => Ok (String c s)
        | Raise e => Raise e
        end
  | EmptyString =>
      match args with
      | [] => Ok EmptyString
      | _ :: _ => Raise TypeError
      end
  end.

(* ================================================================== *)
(** * The file system *)

Module FS.

Inductive node : Type :=
| File (content : string)
| Dir (entries : list (string * node)).

(** A path from the root, one component per element. *)
Definition path : Type := list string.

Fixpoint set_entry {A : Type} (k : string) (v : A) (d : list (string * A))
  : list (string * A) :=
  match d with
  | [] => [(k, v)]
  | (k', v') :: d' =>
      if String.eqb k k' then (k, v) :: d' else (k', v') :: set_entry k v d'
  end.

Fixpoint del_entry {A : Type} (k : string) (d : list (string * A))
  : list (string * A) :=
  match d with
  | [] => []
  | (k', v') :: d' =>
      if String.eqb k k' then del_entry k d' else (k', v') :: del_entry k d'
  end.

Fixpoint lookup (p : path) (n : node) : option node :=
  match p with
  | [] => Some n
  | c :: p' =>
      match n with
      | File _ => None
      | Dir es =>
          match assoc c es with
          | Some sub => lookup p' sub
          | None => None
          end
      end
  end.

(** Unlink whatever is at [p]; the root stays. *)
Fixpoint remove (p : path) (n : node) : node :=
  match p with
  | [] => n
  | c :: p' =>
      match n with
      | File _ => n
      | Dir es =>
          match p' with
          | [] => Dir (del_entry c es)
          | _ :: _ =>
              match assoc c es with
              | Some sub => Dir (set_entry c (remove p' sub) es)
              | None => n
              end
          end
      end
  end.

(** [leaf] below a chain of fresh directories. *)
Fixpoint wrap (p : path) (leaf : node) : node :=
  match p with
  | [] => leaf
  | c :: p' => Dir [(c, wrap p' leaf)]
  end.

(** Create [p] as [leaf], with the missing parents ([os.makedirs]). *)
Fixpoint install (p : path) (leaf : node) (n : node) : result node :=
  match p with
  | [] => Raise (OSError "FileExistsError")
  | c :: p' =>
      match n with
      | File _ => Raise (OSError "NotADirectoryError")
      | Dir es =>
          match assoc c es with
          | None => Ok (Dir (set_entry c (wrap p' leaf) es))
          | Some sub =>
              match install p' leaf sub with
              | Ok sub' => Ok (Dir (set_entry c sub' es))
              | Raise e => Raise e
              end
          end
      end
  end.

(** Create or truncate the regular file [p]; the parent must exist. *)
Fixpoint write_file (p : path) (content : string) (n : node) : result node :=
  match p with
  | [] => Raise (OSError "IsADirectoryError")
  | c :: p' =>
      match n with
      | File _ => Raise (OSError "NotADirectoryError")
      | Dir es =>
          match p' with
          | [] =>
              match assoc c es with
              | Some (Dir _) => Raise (OSError "IsADirectoryError")
              | _ => Ok (Dir (set_entry c (File content) es))
              end
          | _ :: _ =>
              match assoc c es with
              | None => Raise (OSError "FileNotFoundError")
              | Some sub =>
                  match write_file p' content sub with
                  | Ok sub' => Ok (Dir (set_entry c sub' es))
                  | Raise e => Raise e
                  end
              end
          end
      end
  end.

Definition exists_ (p : path) (n : node) : bool :=
  match lookup p n with Some _ => true | None => false end.

Definition isfile (p : path) (n : node) : bool :=
  match lookup p n with Some (File _) => true | _ => false end.

Definition isdir (p : path) (n : node) : bool :=
  match lookup p n with Some (Dir _) => true | _ => false end.

(** [os.makedirs(p)] *)
Definition makedirs (p : path) (n : node) : result node :=
  install p (Dir []) n.

(** [shutil.rmtree(p)]: only a directory can be removed; on a regular file
    listing it fails and nothing is deleted. *)
Definition rmtree (p : path) (n : node) : result node :=
  match lookup p n with
  | None => Raise (OSError "FileNotFoundError")
  | Some (File _) => Raise (OSError "NotADirectoryError")
  | Some (Dir _) =>
      match p with
      | [] => Raise (OSError "OSError")
      | _ :: _ => Ok (remove p n)
      end
  end.

(** [os.remove(p)] *)
Definition unlink (p : path) (n : node) : result node :=
  match lookup p n with
  | None => Raise (OSError "FileNotFoundError")
  | Some (Dir _) => Raise (OSError "IsADirectoryError")
  | Some (File _) => Ok (remove p n)
  end.

Definition path_eqb (p q : path) : bool :=
  if list_eq_dec string_dec p q then true else false.

(** [shutil.copyfile(src, dst)] *)
Definition copyfile (src dst : path) (n : node) : result node :=
  match lookup src n with
  | None => Raise (OSError "FileNotFoundError")
  | Some (Dir _) => Raise (OSError "IsADirectoryError")
  | Some (File c) =>
      if path_eqb src dst then Raise (OSError "SameFileError")
      else write_file dst c n
  end.

(** What [shutil.ignore_patterns('.git*')] leaves of a tree: at every
    level the entries whose name starts with [.git] are dropped. *)
Fixpoint strip_git (n : node) : node :=
  match n with
  | File c => File c
  | Dir es =>
      Dir ((fix go (l : list (string * node)) : list (string * node) :=
              match l with
              | [] => []
              | (k, v) :: t =>
                  if prefix ".git" k then go t else (k, strip_git v) :: go t
              end) es)
  end.

(** [shutil.copytree(src, dst, ignore=shutil.ignore_patterns('.git*'))]:
    the source is listed first, then [dst] is created with [os.makedirs]
    and filled. *)
Definition copytree (src dst : path) (n : node) : result node :=
  match lookup src n with
  | None => Raise (OSError "FileNotFoundError")
  | Some (File _) => Raise (OSError "NotADirectoryError")
  | Some (Dir es) => install dst (strip_git (Dir es)) n
  end.

(** [open(p, 'a')]: the file is created when it is missing. *)
Definition open_append (p : path) (n : node) : result node :=
  match lookup p n with
  | Some (File _) => Ok n
  | Some (Dir _) => Raise (OSError "IsADirectoryError")
  | None => write_file p EmptyString n
  end.

(** [file_pointer.write(text)] on a file opened for appending. *)
Definition append (p : path) (text : string) (n : node) : result node :=
  match lookup p n with
  | Some (File c) => write_file p (c ++ text) n
  | Some (Dir _) => Raise (OSError "IsADirectoryError")
  | None => Raise (OSError "FileNotFoundError")
  end.

(** Whether [os.makedirs(p)] can create [p]: the walk along [p] reaches a
    directory that lacks the next component before it meets a regular file
    or the end of [p]. *)
Fixpoint creatable (p : path) (n : node) : bool :=
  match p with
  | [] => false
  | c :: p' =>
      match n with
      | File _ => false
      | Dir es =>
          match assoc c es with
          | None => true
          | Some sub => creatable p' sub
          end
      end
  end.

(** Lexical resolution of the components of a path on a stack of the
    components walked so far (innermost first).  Empty components and [.]
    are dropped and [..] cancels the component before it, without looking
    at the file system.  For a name made of plain components ([plain_name]
    below) this is the path the system walks; for a name with a trailing
    [/], with [.] or with [..] the system also requires every directory on
    the way to exist, which the lexical resolution does not check. *)
Fixpoint walk (stack : list string) (comps : list string) : path :=
  match comps with
  | [] => rev stack
  | c :: cs =>
      if String.eqb c EmptyString || String.eqb c "." then walk stack cs
      else if String.eqb c ".." then walk (tl stack) cs
      else walk (c :: stack) cs
  end.

(** The path a string names, relative names against [cwd]. *)
Definition resolve (cwd : path) (p : string) : path :=
  walk (if prefix "/" p then [] else rev cwd) (PyStr.split "/" p).

(** Two paths part ways: at the first component where they differ neither
    has ended, so neither names something inside the other. *)
Fixpoint apart (p q : path) : bool :=
  match p, q with
  | a :: p', b :: q' => if String.eqb a b then apart p' q' else true
  | _, _ => false
  end.

End FS.

(* ================================================================== *)
(** * External collaborators, the world and the monad *)

(** The calls made to GitPython and to the process runner, in order. *)
Inductive call : Type :=
| GitRepo (path : string)
| GitRepoInit (path : string)
| CreateSubmodule (name path url : string) (branch : pyval)
| SubmoduleRemove (name : string)
| Popen (command : string) (cwd : option string).

(** GitPython and [subprocess.Popen].  Each takes the current directory and
    the file system and answers with an exception or with its result and the
    file system it leaves.
    - [git_Repo path]: [git.Repo(path)];
    - [git_Repo_init path]: [git.Repo.init(path)];
    - [create_submodule name path url branch]: [repo.create_submodule], whose
      result carries the [hexsha] the checkout is at;
    - [submodule_remove name path]: [sub_module.remove()];
    - [popen command cwd]: [subprocess.Popen(command, ...)] for a string and
      without [shell=True], then [wait] and [communicate].  The string is
      not split: it is, whole, the name of the program to start, with no
      arguments; where no program has that name the call raises
      [FileNotFoundError].  Otherwise the answer carries the exit status and
      the captured standard output and standard error. *)
Record Ext : Type := mkExt {
  git_Repo : string -> FS.path -> FS.node -> result unit;
  git_Repo_init : string -> FS.path -> FS.node -> result FS.node;
  create_submodule :
    string -> string -> string -> pyval -> FS.path -> FS.node ->
    result (string * FS.node);
  submodule_remove : string -> string -> FS.path -> FS.node -> result FS.node;
  popen :
    string -> option string -> FS.path -> FS.node ->
    result (Z * string * string * FS.node)
}.

(** What a run changes.  The current directory is not part of it: the
    program never changes directory, so it is a parameter of the run. *)
Record World : Type := mkWorld {
  fs : FS.node;
  stdout : list string;
  stderr : list string;
  calls : list call
}.

Definition set_fs (w : World) (n : FS.node) : World :=
  mkWorld n (stdout w) (stderr w) (calls w).

Definition log_call (c : call) (w : World) : World :=
  mkWorld (fs w) (stdout w) (stderr w) (calls w ++ [c]).

Definition M (A : Type) : Type := World -> result A * World.

Definition ret {A : Type} (a : A) : M A := fun w => (Ok a, w).

Definition raise {A : Type} (e : exn) : M A := fun w => (Raise e, w).

Definition bind {A B : Type} (m : M A) (k : A -> M B) : M B :=
  fun w =>
    match m w with
    | (Ok a, w') => k a w'
    | (Raise e, w') => (Raise e, w')
    end.

Definition lift {A : Type} (r : result A) : M A := fun w => (r, w).

Declare Scope py_scope.
Delimit Scope py_scope with py.
Notation "x <- m ;; k" := (bind m (fun x => k))
  (at level 61, m at next level, right associativity) : py_scope.
Notation "m ;; k" := (bind m (fun _ => k))
  (at level 61, right associativity) : py_scope.
Open Scope py_scope.

(** [print(s)] *)
Definition print (s : string) : M unit :=
  fun w => (Ok tt, mkWorld (fs w) (stdout w ++ [s]) (stderr w) (calls w)).

(** [sys.stderr.write(s)] *)
Definition sys_stderr_write (s : string) : M unit :=
  fun w => (Ok tt, mkWorld (fs w) (stdout w) (stderr w ++ [s]) (calls w)).

(** [sys.exit(code)] *)
Definition sys_exit {A : Type} (code : Z) : M A := raise (SystemExit code).

(* ================================================================== *)
(** * The program: [quack/quack.py] *)

(** ** [class Module] *)

Module PyModule.

Record t : Type := mk {
  name : string;
  repository : pyval;
  path : pyval;
  branch : pyval;
  hexsha : pyval;
  tag : pyval;
  isfile : pyval
}.

(** The keyword parameters of [Module.__init__] after [name]. *)
Definition keywords : list string :=
  ["repository"; "path"; "branch"; "hexsha"; "tag"; "isfile"].

Definition field (d : list (string * pyval)) (k : string) (default : pyval) : pyval :=
  match assoc k d with Some v => v | None => default end.

(** The object [Module(name, **config)] builds: the keywords that are
    missing take the defaults of the signature. *)
Definition of_dict (name : string) (d : list (string * pyval)) : t :=
  mk name
    (field d "repository" PNone)
    (field d "path" (PStr EmptyString))
    (field d "branch" (PStr "master"))
    (field d "hexsha" PNone)
    (field d "tag" PNone)
    (field d "isfile" (PBool false)).

(** [Module(name, **config)]: a key that is no keyword parameter of
    [__init__] (or is [name] again) is a [TypeError]. *)
Definition init (name : string) (d : list (string * pyval)) : M t :=
  if forallb (fun kv => PyStr.mem (fst kv) keywords) d then ret (of_dict name d)
  else raise TypeError.

(** [Module.from_config(name, config)] *)
Definition from_config (name : string) (config : pyval) : M t :=
  match config with
  | PDict d =>
      match assoc "repository" d with
      | None =>
          sys_stderr_write ("Module does not specify a 'repository'" ++ PyStr.nl) ;;
          sys_exit 1
      | Some _ => init name d
      end
  | _ => raise TypeError
  end.

End PyModule.

(** [_iter_modules(config)] is a generator: its body starts at the first
    request of the loop that drives it; [Module.from_config] runs once per
    request, on the next item (in [fetch_loop] below). *)
Definition _iter_modules (config : pyval) : M (list (string * pyval)) :=
  module_list <- lift (py_get config "modules" (PDict [])) ;;
  lift (py_items module_list).

(** The names bound at module level, and those bound in [_fetch_modules]. *)
Definition module_globals : list string :=
  ["argparse"; "git"; "os"; "shutil"; "subprocess"; "sys"; "textwrap"; "yaml";
   "_ARGS"; "Module"; "_setup"; "_remove_dir"; "_create_dir"; "_get_config";
   "_iter_modules"; "_nice_call"; "_fetch_modules"; "_clean_modules";
   "_run_nested_quack"; "_run_tasks"; "_prompt_to_create"; "main"].

Definition fetch_locals : list string :=
  ["config"; "specific_module"; "module_list"; "modules"; "ignore_list";
   "file_pointer"; "repo"; "module"; "sub_module"; "checkout_target";
   "from_path"; "is_exists"].

(** Reading a name that is bound neither in the function, nor at module
    level, nor among the builtins: lines 154 and 159 read [tag] and [hexsha],
    which are in neither list above. *)
Definition load_unbound_name (x : string) : M pyval := raise (NameError x).

Section Program.

(** The collaborators and the directory the process runs in. *)
Variable E : Ext.
Variable wd : FS.path.

(** ** Library calls *)

(** [os.getcwd()] *)
Definition os_getcwd : M string :=
  ret ("/" ++ PyStr.join "/" wd).

(** The empty name refers to nothing. *)
Definition no_name (p : string) : bool := String.eqb p EmptyString.

(** A file-system operation on the path a string names. *)
Definition fs_do (op : FS.path -> FS.node -> result FS.node) (p : string) : M unit :=
  fun w =>
    if no_name p then (Raise (OSError "FileNotFoundError"), w)
    else
      match op (FS.resolve wd p) (fs w) with
      | Ok n => (Ok tt, set_fs w n)
      | Raise e => (Raise e, w)
      end.

Definition os_path_exists (p : string) : M bool :=
  fun w => (Ok (negb (no_name p) && FS.exists_ (FS.resolve wd p) (fs w)), w).

Definition os_path_isfile (p : string) : M bool :=
  fun w => (Ok (negb (no_name p) && FS.isfile (FS.resolve wd p) (fs w)), w).

Definition os_makedirs : string -> M unit := fs_do FS.makedirs.
Definition os_remove : string -> M unit := fs_do FS.unlink.
Definition shutil_rmtree : string -> M unit := fs_do FS.rmtree.

Definition shutil_copyfile (src dst : string) : M unit :=
  if no_name src then raise (OSError "FileNotFoundError")
  else fs_do (FS.copyfile (FS.resolve wd src)) dst.

Definition shutil_copytree_ignore_git (src dst : string) : M unit :=
  if no_name src then raise (OSError "FileNotFoundError")
  else fs_do (FS.copytree (FS.resolve wd src)) dst.

(** [open(p, 'r').read()]: text mode, so line endings are translated. *)
Definition read_file (p : string) : M string :=
  fun w =>
    if no_name p then (Raise (OSError "FileNotFoundError"), w)
    else
      match FS.lookup (FS.resolve wd p) (fs w) with
      | Some (FS.File c) => (Ok (PyStr.universal_newlines c), w)
      | Some (FS.Dir _) => (Raise (OSError "IsADirectoryError"), w)
      | None => (Raise (OSError "FileNotFoundError"), w)
      end.

Definition open_append : string -> M unit := fs_do FS.open_append.

Definition file_write (p text : string) : M unit :=
  fs_do (fun q => FS.append q text) p.

(** ** File-system helpers *)

Definition _remove_dir (directory : string) : M bool :=
  e <- os_path_exists directory ;;
  if e then shutil_rmtree directory ;; ret true
  else ret false.

Definition _create_dir (directory : string) : M unit :=
  e <- os_path_exists directory ;;
  if negb e then os_makedirs directory else ret tt.

(** ** GitPython and [subprocess] *)

Definition git_Repo_ (p : string) : M unit :=
  fun w =>
    let w1 := log_call (GitRepo p) w in
    (git_Repo E p wd (fs w), w1).

Definition git_Repo_init_ (p : string) : M unit :=
  fun w =>
    let w1 := log_call (GitRepoInit p) w in
    match git_Repo_init E p wd (fs w) with
    | Ok n => (Ok tt, set_fs w1 n)
    | Raise e => (Raise e, w1)
    end.

Definition repo_create_submodule (name path url : string) (branch : pyval) : M string :=
  fun w =>
    let w1 := log_call (CreateSubmodule name path url branch) w in
    match create_submodule E name path url branch wd (fs w) with
    | Ok (sha, n) => (Ok sha, set_fs w1 n)
    | Raise e => (Raise e, w1)
    end.

Definition sub_module_remove (name path : string) : M unit :=
  fun w =>
    let w1 := log_call (SubmoduleRemove name) w in
    match submodule_remove E name path wd (fs w) with
    | Ok n => (Ok tt, set_fs w1 n)
    | Raise e => (Raise e, w1)
    end.

(** [p = subprocess.Popen(...); ret = p.wait(); stdout, stderr = p.communicate()] *)
Definition subprocess_run (command : string) (dir : option string)
  : M (Z * string * string) :=
  fun w =>
    let w1 := log_call (Popen command dir) w in
    match popen E command dir wd (fs w) with
    | Ok (status, out, err, n) => (Ok (status, out, err), set_fs w1 n)
    | Raise e => (Raise e, w1)
    end.

(** ** [_nice_call] *)

Definition _nice_call (command : string) (dir : option string) : M unit :=
  here <- os_getcwd ;;
  let workdir := match dir with Some d => d | None => here end in
  line <- lift (py_format "Executing %r in %s..." [PStr command; PStr workdir]) ;;
  print line ;;
  p <- subprocess_run command dir ;;
  let '(status, out, err) := p in
  if status =? 0 then
    line <- lift (py_format ("Got stdout:" ++ PyStr.nl ++ "%s") [PBytes out]) ;;
    print line
  else
    text <- lift (py_format
                    ("Command failed with status %d, stderr=" ++ PyStr.nl ++ "%s")
                    [PBytes err]) ;;
    sys_stderr_write text ;;
    sys_exit 1.

(** ** [_fetch_modules] *)

Definition modules : string := ".quack/modules".

(** [specific_module and specific_module != module.name] *)
Definition filtered_out (specific_module : option string) (name : string) : bool :=
  match specific_module with
  | Some s => negb (String.eqb s EmptyString) && negb (String.eqb s name)
  | None => false
  end.

(** Lines 152-163: the checkout and the target that is reported. *)
Definition checkout (module : PyModule.t) (sub_module_hexsha : string) : M pyval :=
  if truthy (PyModule.tag module) then
    tag <- load_unbound_name "tag" ;;
    command <- lift (py_format "git checkout --quiet tags/%s" [tag]) ;;
    _nice_call command (Some (modules ++ "/" ++ PyModule.name module)) ;;
    ret (PyModule.tag module)
  else if truthy (PyModule.hexsha module) then
    hexsha <- load_unbound_name "hexsha" ;;
    command <- lift (py_format "git checkout --quiet %s" [hexsha]) ;;
    _nice_call command (Some (modules ++ "/" ++ PyModule.name module)) ;;
    ret (PyModule.hexsha module)
  else ret (PStr sub_module_hexsha).

(** Line 165: [from_path]. *)
Definition from_path_of (module : PyModule.t) : result string :=
  py_format "%s/%s/%s" [PStr modules; PStr (PyModule.name module); PyModule.path module].

(** Lines 165-178: copy the checkout (or one file of it) to the project. *)
Definition materialize (module : PyModule.t) : M unit :=
  from_path <- lift (from_path_of module) ;;
  is_exists <- os_path_exists from_path ;;
  if (truthy (PyModule.path module) && is_exists) || negb (truthy (PyModule.path module))
  then
    if truthy (PyModule.isfile module) then
      f <- os_path_isfile (PyModule.name module) ;;
      (if f then os_remove (PyModule.name module) else ret tt) ;;
      shutil_copyfile from_path (PyModule.name module)
    else
      _remove_dir (PyModule.name module) ;;
      shutil_copytree_ignore_git from_path (PyModule.name module)
  else if negb is_exists then
    line <- lift (py_format "%s folder does not exists. Skipped." [PyModule.path module]) ;;
    print line
  else ret tt.

(** Lines 180-184: drop the submodule registration. *)
Definition detach (module : PyModule.t) : M unit :=
  sub_module_remove (PyModule.name module) (modules ++ "/" ++ PyModule.name module) ;;
  g <- os_path_isfile ".gitmodules" ;;
  if g then
    _nice_call "rm .gitmodules" None ;;
    _nice_call "git rm --quiet --cached .gitmodules" None
  else ret tt.

(** Lines 188-192: the ignore file; the result is [ignore_list] afterwards. *)
Definition ignore (config : pyval) (module : PyModule.t) (ignore_list : list string)
  : M (list string) :=
  gitignore <- lift (py_get config "gitignore" PNone) ;;
  if truthy gitignore then
    open_append ".gitignore" ;;
    if negb (PyStr.mem (PyModule.name module) ignore_list) then
      file_write ".gitignore" (PyStr.nl ++ PyModule.name module) ;;
      ret (ignore_list ++ [PyModule.name module])%list
    else ret ignore_list
  else ret ignore_list.

(** One turn of the loop of [_fetch_modules], from the request of the next
    module to the end of the body; the result is [ignore_list] afterwards.
    ['Cloning: ' + module.repository] needs a string on the right, anything
    else is a [TypeError]. *)
Definition fetch_module (config : pyval) (specific_module : option string)
  (ignore_list : list string) (item : string * pyval) : M (list string) :=
  module <- PyModule.from_config (fst item) (snd item) ;;
  if filtered_out specific_module (PyModule.name module) then ret ignore_list
  else if truthy (PyModule.tag module) && truthy (PyModule.hexsha module) then
    line <- lift (py_format "%s: Cannot be both tag & hexsha." [PStr (PyModule.name module)]) ;;
    print line ;;
    ret ignore_list
  else
    match PyModule.repository module with
    | PStr url =>
        print ("Cloning: " ++ url) ;;
        sub_module_hexsha <-
          repo_create_submodule (PyModule.name module)
            (modules ++ "/" ++ PyModule.name module) url (PyModule.branch module) ;;
        checkout_target <- checkout module sub_module_hexsha ;;
        materialize module ;;
        detach module ;;
        line <- lift (py_format "Cloned: %s (%s)"
                        [PStr (PyModule.name module); checkout_target]) ;;
        print line ;;
        ignore config module ignore_list
    | _ => raise TypeError
    end.

Fixpoint fetch_loop (config : pyval) (specific_module : option string)
  (ignore_list : list string) (items : list (string * pyval)) : M unit :=
  match items with
  | [] => ret tt
  | item :: rest =>
      ignore_list' <- fetch_module config specific_module ignore_list item ;;
      fetch_loop config specific_module ignore_list' rest
  end.

(** Lines 131-138: what a pass does before the first module. *)
Definition fetch_prologue (config : pyval) : M (list string) :=
  _remove_dir ".git/modules/" ;;
  _create_dir modules ;;
  gitignore <- lift (py_get config "gitignore" PNone) ;;
  f <- os_path_isfile ".gitignore" ;;
  ignore_list <-
    (if truthy gitignore && f then
       text <- read_file ".gitignore" ;;
       ret (PyStr.distinct (PyStr.split PyStr.newline text))
     else ret []) ;;
  git_Repo_ "." ;;
  ret ignore_list.

Definition _fetch_modules (config : pyval) (specific_module : option string) : M unit :=
  module_list <- lift (py_get config "modules" PNone) ;;
  if negb (truthy module_list) then print "No modules found."
  else
    ignore_list <- fetch_prologue config ;;
    items <- _iter_modules config ;;
    fetch_loop config specific_module ignore_list items.

(** ** [_clean_modules] *)

Definition clean_module (specific_module : option string) (module : string * pyval) : M unit :=
  if filtered_out specific_module (fst module) then ret tt
  else
    removed <- _remove_dir (fst module) ;;
    if removed then print ("Cleaned " ++ fst module) else ret tt.

Fixpoint clean_loop (specific_module : option string) (items : list (string * pyval)) : M unit :=
  match items with
  | [] => ret tt
  | module :: rest => clean_module specific_module module ;; clean_loop specific_module rest
  end.

Definition _clean_modules (config : pyval) (specific_module : option string) : M unit :=
  module_list <- lift (py_get config "modules" PNone) ;;
  items <- lift (py_items module_list) ;;
  clean_loop specific_module items.

(** ** [_run_nested_quack] *)

(** The argument list built from the reference [quack] (lines 209-220). *)
Definition nested_command (quack : string) : list string :=
  let slash_index := PyStr.rfind quack "/" in
  let command := ["quack"] in
  let colon_index := PyStr.find quack ":" in
  let command :=
    if PyStr.len quack >? colon_index + 1
    then (command ++ ["-p"; PyStr.slice quack (colon_index + 1) (PyStr.len quack)])%list
    else command in
  let command :=
    if colon_index >? 0
    then (command ++ ["-y"; PyStr.slice quack (slash_index + 1) colon_index])%list
    else command in
  command.

(** The directory the nested run is rooted at (lines 211-213). *)
Definition nested_module (here quack : string) : string :=
  let slash_index := PyStr.rfind quack "/" in
  if slash_index >? 0 then PyStr.slice_to quack slash_index else here.

Definition _run_nested_quack (dependency : string * pyval) : M pyval :=
  if negb (String.eqb (fst dependency) "quack") then ret PNone
  else
    match snd dependency with
    | PStr quack =>
        here <- os_getcwd ;;
        let module := nested_module here quack in
        let command := nested_command quack in
        print ("Quack.." ++ module) ;;
        git_Repo_init_ module ;;
        _create_dir module ;;
        _nice_call (PyStr.join " " command) (Some module) ;;
        _remove_dir (module ++ "/.git") ;;
        ret (PBool true)
    | PBytes _ => raise TypeError
    | _ => raise AttributeError
    end.

(** ** [_run_tasks] *)

Record Stats : Type := mkStats {
  tasks : Z;
  dependencies : Z
}.

Fixpoint dependencies_loop (items : list (string * pyval)) (stats : Stats) : M Stats :=
  match items with
  | [] => ret stats
  | dependency :: rest =>
      _run_nested_quack dependency ;;
      dependencies_loop rest (mkStats (tasks stats) (dependencies stats + 1))
  end.

(** The body of the task loop after the counter is incremented
    (lines 243-262), for a task that is a string. *)
Definition run_command (config : pyval) (command : string) : M unit :=
  match command with
  | EmptyString => raise IndexError
  | String first _ =>
      let is_negate := Ascii.eqb first "-" in
      let command := if is_negate then PyStr.slice_from command 1 else command in
      let is_modules :=
        (PyStr.find command "modules:" =? 0) || String.eqb "modules" command in
      let is_quack := PyStr.find command "quack:" =? 0 in
      let is_cmd := PyStr.find command "cmd:" =? 0 in
      module <-
        (if is_modules && negb (String.eqb command "modules") then
           ret (Some (PyStr.replace command "modules:" EmptyString))
         else if is_quack then
           _run_nested_quack ("quack", PStr (PyStr.replace command "quack:" EmptyString)) ;;
           ret None
         else if is_cmd then
           _nice_call (PyStr.replace command "cmd:" EmptyString) None ;;
           ret None
         else ret None) ;;
      if is_modules && negb is_negate then _fetch_modules config module
      else if is_modules && is_negate then _clean_modules config module
      else ret tt
  end.

(** The same body for whatever the task list holds: an object that is no
    string fails at [command[0]] or at [command.find]. *)
Definition run_task (config : pyval) (command : pyval) : M unit :=
  match command with
  | PStr s => run_command config s
  | PList [] => raise IndexError
  | PList (_ :: _) => raise AttributeError
  | PBytes s => if String.eqb s EmptyString then raise IndexError else raise TypeError
  | PDict _ => raise (KeyError "0")
  | PNone | PBool _ | PInt _ => raise TypeError
  end.

Fixpoint tasks_loop (config : pyval) (commands : list pyval) (stats : Stats) : M Stats :=
  match commands with
  | [] => ret stats
  | command :: rest =>
      let stats := mkStats (tasks stats + 1) (dependencies stats) in
      run_task config command ;;
      tasks_loop config rest stats
  end.

(** Lines 231-236: the dependencies of the profile. *)
Definition run_dependencies (profile : pyval) : M Stats :=
  dependencies_ <- lift (py_get profile "dependencies" (PDict [])) ;;
  let stats := mkStats 0 0 in
  match dependencies_ with
  | PDict items => dependencies_loop items stats
  | _ => ret stats
  end.

Definition _run_tasks (config profile : pyval) : M Stats :=
  stats <- run_dependencies profile ;;
  tasks_ <- lift (py_get profile "tasks" (PList [])) ;;
  if negb (truthy tasks_) then
    print "No tasks found." ;;
    ret stats
  else
    commands <- lift (py_iter tasks_) ;;
    tasks_loop config commands stats.

(** ** [main], from the loaded configuration on

    [loaded] is what [_get_config()] returned and [prompted] what
    [_prompt_to_create()] would return; [profile_arg] is [_ARGS.profile],
    [None] when the option was given without a value (no key of a mapping
    equals it). *)
Definition main (profile_arg : option string) (loaded prompted : pyval) : M unit :=
  _create_dir ".quack" ;;
  let config := if truthy loaded then loaded else prompted in
  if negb (truthy config) then ret tt
  else
    profiles <- lift (py_get config "profiles" (PDict [])) ;;
    profile <-
      lift (match profile_arg, profiles with
            | Some k, _ => py_get profiles k (PDict [])
            | None, PDict _ => Ok (PDict [])
            | None, _ => Raise AttributeError
            end) ;;
    stats <- _run_tasks config profile ;;
    line <- lift (py_format "%s task(s) completed with %s dependencies."
                    [PInt (tasks stats); PInt (dependencies stats)]) ;;
    print line.

End Program.

(** The exit status of the interpreter for the way [main] ended: an
    exception nobody caught ends the process with status 1. *)
Definition exit_status {A : Type} (r : result A) : Z :=
  match r with
  | Ok _ => 0
  | Raise (SystemExit code) => code
  | Raise _ => 1
  end.

(* ================================================================== *)
(** * A small concrete world

    One remote repository, a host project at [/proj], and collaborators that
    do the least their interface promises.  Adding a submodule clones the
    remote tree into the checkout directory and writes [.gitmodules];
    removing it deletes the checkout and rewrites [.gitmodules] without the
    entry, so the file stays.  The
    process runner knows the programs whose name is one word: [false] exits
    with status 1, every other one with status 0; a string with a space in
    it names no program.  It is used to run the program on concrete
    inputs. *)

Module Toy.

Definition remote_entries : list (string * FS.node) :=
  [(".git", FS.Dir [("HEAD", FS.File "ref: refs/heads/main")]);
   (".gitignore", FS.File "*.pyc");
   ("README", FS.File "hello");
   ("src", FS.Dir [("a.py", FS.File "print(1)");
                   (".gitkeep", FS.File EmptyString)])].

Definition remote_tree : FS.node := FS.Dir remote_entries.

Definition remote_url : string := "https://x/lib.git".
Definition remote_hexsha : string := "0123abc".

Definition ext : Ext :=
  mkExt
    (fun p cwd n =>
       if FS.isdir (FS.resolve cwd (p ++ "/.git")) n then Ok tt
       else Raise (GitError "InvalidGitRepositoryError"))
    (fun p cwd n =>
       if FS.exists_ (FS.resolve cwd (p ++ "/.git")) n then Ok n
       else FS.makedirs (FS.resolve cwd (p ++ "/.git")) n)
    (fun name path url branch cwd n =>
       if String.eqb url remote_url then
         match FS.install (FS.resolve cwd path) remote_tree n with
         | Ok n1 =>
             match FS.write_file (FS.resolve cwd ".gitmodules") name n1 with
             | Ok n2 => Ok (remote_hexsha, n2)
             | Raise e => Raise e
             end
         | Raise e => Raise e
         end
       else Raise (GitError "GitCommandError"))
    (fun name path cwd n =>
       match FS.rmtree (FS.resolve cwd path) n with
       | Ok n1 => FS.write_file (FS.resolve cwd ".gitmodules") EmptyString n1
       | Raise e => Raise e
       end)
    (fun command dir cwd n =>
       if PyStr.has_char " " command
       then Raise (OSError "FileNotFoundError")
       else if String.eqb command "false"
       then Ok (1, EmptyString, "boom", n)
       else Ok (0, EmptyString, EmptyString, n)).

Definition root : FS.node :=
  FS.Dir [("proj", FS.Dir [(".git", FS.Dir [("modules", FS.Dir [("old", FS.Dir [])])]);
                           ("quack.yaml", FS.File "name: demo")])].

Definition wd : FS.path := ["proj"].

Definition world : World := mkWorld root [] [] [].

(** [modules: {lib: {repository: https://x/lib.git, branch: main}}] *)
Definition lib : pyval :=
  PDict [("repository", PStr remote_url); ("branch", PStr "main")].

Definition config : pyval :=
  PDict [("name", PStr "demo");
         ("modules", PDict [("lib", lib)]);
         ("profiles", PDict [("init", PDict [("tasks", PList [PStr "modules"])])])].

(** The project with a stale copy of [lib] from an earlier run, and the
    worlds one and two fetches of [lib] leave (each fetch ends where
    [rm .gitmodules] cannot be started, after the copy). *)
Definition stale_world : World :=
  mkWorld
    (FS.Dir [("proj", FS.Dir [(".git", FS.Dir [("modules", FS.Dir [("old", FS.Dir [])])]);
                              ("quack.yaml", FS.File "name: demo");
                              ("lib", FS.Dir [("stale.txt", FS.File "old")])])])
    [] [] [].

Definition fetched_once : World :=
  snd (run_task ext wd config (PStr "modules:lib") stale_world).

Definition fetched_twice : World :=
  snd (run_task ext wd config (PStr "modules:lib") fetched_once).

(** The world the preparation of a pass leaves, and the file system the
    clone of [lib] leaves after it. *)
Definition prepared (w : World) : World := snd (fetch_prologue ext wd config w).

Definition cloned (w : World) : FS.node :=
  fs (snd (repo_create_submodule ext wd "lib" (modules ++ "/" ++ "lib") remote_url
             (PStr "main") (prepared w))).

End Toy.

(** A configuration whose only module pins a tag, and one that pins a
    commit. *)
Module ToyPinned.

Definition config_tag : pyval :=
  PDict [("modules",
          PDict [("lib", PDict [("repository", PStr Toy.remote_url);
                                ("tag", PStr "v1")])])].

Definition config_hexsha : pyval :=
  PDict [("modules",
          PDict [("lib", PDict [("repository", PStr Toy.remote_url);
                                ("hexsha", PStr "0123abc")])])].

End ToyPinned.

(** A configuration whose module is vendored as a single file, and the
    world a fetch of it leaves. *)
Module ToyFile.

Definition config : pyval :=
  PDict [("modules",
          PDict [("readme", PDict [("repository", PStr Toy.remote_url);
                                   ("path", PStr "README");
                                   ("isfile", PBool true)])])].

Definition fetched : World :=
  snd (_fetch_modules Toy.ext Toy.wd config (Some "readme") Toy.world).

End ToyFile.

(** A configuration whose module is vendored below a directory, [vendor],
    that the project does not have yet; the world a fetch of the module
    leaves, and the world a clean of it leaves after that. *)
Module ToyNested.

Definition config : pyval :=
  PDict [("modules",
          PDict [("vendor/lib", PDict [("repository", PStr Toy.remote_url)])])].

Definition fetched : World :=
  snd (run_task Toy.ext Toy.wd config (PStr "modules:vendor/lib") Toy.world).

Definition cleaned : World :=
  snd (run_task Toy.ext Toy.wd config (PStr "-modules:vendor/lib") fetched).

End ToyNested.

(** A configuration that keeps the ignore file, and a project whose ignore
    file has a line twice and one line ending in [\r\n]. *)
Module ToyIgnore.

Definition config : pyval :=
  PDict [("gitignore", PBool true); ("modules", PDict [("lib", Toy.lib)])].

Definition world : World :=
  mkWorld
    (FS.Dir [("proj",
              FS.Dir [(".git", FS.Dir []);
                      (".gitignore",
                       FS.File ("build" ++ String PyStr.cr PyStr.nl
                                ++ "lib" ++ PyStr.nl ++ "build"))])])
    [] [] [].

End ToyIgnore.

(* ================================================================== *)
(** * Notions used in the statements *)

(** The text of [from_path] for a module. *)
Definition source_path (module : PyModule.t) : string :=
  modules ++ "/" ++ PyModule.name module ++ "/" ++ py_str (PyModule.path module).

(** The paths a vendoring pass manages for itself besides the destination:
    the submodule metadata, the private working area, the ignore file and
    the place the module is copied from. *)
Definition managed_paths (wd : FS.path) (module : PyModule.t) : list FS.path :=
  [FS.resolve wd ".git/modules/";
   FS.resolve wd modules;
   FS.resolve wd ".gitignore";
   FS.resolve wd (source_path module)].

(** The destination of a module lies apart from all of them. *)
Definition destination_clear (wd : FS.path) (module : PyModule.t) : bool :=
  forallb (FS.apart (FS.resolve wd (PyModule.name module))) (managed_paths wd module).

(** A collaborator call that leaves whatever is at [q] as it was. *)
Definition untouched (q : FS.path) (n n' : FS.node) : Prop :=
  FS.lookup q n' = FS.lookup q n.

(** Whether the copy step of a module runs, given what the clone left at
    the source path (line 167). *)
Definition copies (module : PyModule.t) (source : option FS.node) : bool :=
  let is_exists := match source with Some _ => true | None => false end in
  (truthy (PyModule.path module) && is_exists) || negb (truthy (PyModule.path module)).

(** What the copy step puts at the destination: the file itself, or the
    tree without its [.git*] entries. *)
Definition vendored (module : PyModule.t) (source : option FS.node) : option FS.node :=
  match source with
  | Some (FS.File c) =>
      if truthy (PyModule.isfile module) then Some (FS.File c) else None
  | Some (FS.Dir es) =>
      if truthy (PyModule.isfile module) then None
      else Some (FS.strip_git (FS.Dir es))
  | None => None
  end.

(** Whether a pass copies the module at all: it is not rejected for pinning
    both a tag and a commit, and its copy step runs. *)
Definition pass_copies (module : PyModule.t) (source : option FS.node) : bool :=
  negb (truthy (PyModule.tag module) && truthy (PyModule.hexsha module))
  && copies module source.

(** A task that matches none of the forms: after the optional [-], it is
    neither [modules], nor starts with [modules:], [quack:] or [cmd:]. *)
Definition inert (task : string) : bool :=
  match task with
  | EmptyString => false
  | String first _ =>
      let command := if Ascii.eqb first "-" then PyStr.slice_from task 1 else task in
      negb ((PyStr.find command "modules:" =? 0) || String.eqb "modules" command)
      && negb (PyStr.find command "quack:" =? 0)
      && negb (PyStr.find command "cmd:" =? 0)
  end.

(** The argument list of a nested invocation leaves the configuration file
    name at its default when it has no [-y] option. *)
Definition default_config_name (command : list string) : bool :=
  negb (PyStr.mem "-y" command).

Definition is_popen (c : call) : bool :=
  match c with Popen _ _ => true | _ => false end.


(** A directory name as it appears in a resolved path: no [/] inside, and
    none of the three names path resolution treats specially. *)
Definition plain_component (c : string) : bool :=
  negb (PyStr.has_char "/" c)
  && negb (String.eqb c EmptyString || String.eqb c ".")
  && negb (String.eqb c "..").

(** A relative name made of plain components: no leading or trailing [/],
    no empty component, no [.] and no [..].  For such a name the lexical
    resolution is the path the system walks. *)
Definition plain_name (p : string) : bool :=
  forallb plain_component (PyStr.split "/" p).

(** A module description [Module.from_config] accepts: a mapping with the
    key [repository] and no key that [Module.__init__] does not take. *)
Definition well_formed (c : pyval) : bool :=
  match c with
  | PDict d =>
      match assoc "repository" d with Some _ => true | None => false end
      && forallb (fun kv => PyStr.mem (fst kv) PyModule.keywords) d
  | _ => false
  end.

(** An entry [shutil.ignore_patterns('.git*')] leaves out. *)
Definition git_entry (k : string) : bool := prefix ".git" k.

(** [is_modules] of the task loop, for the task text after the optional [-]. *)
Definition modules_form (command : string) : bool :=
  (PyStr.find command "modules:" =? 0) || String.eqb "modules" command.

(** The lines of the ignore file as it is stored; nothing when the file is
    missing. *)
Definition ignored_lines (wd : FS.path) (n : FS.node) : list string :=
  match FS.lookup (FS.resolve wd ".gitignore") n with
  | Some (FS.File c) => PyStr.split PyStr.newline c
  | _ => []
  end.

(** The lines a pass reads from the ignore file (lines 136-137), line
    endings translated; nothing when the file is missing. *)
Definition read_lines (wd : FS.path) (n : FS.node) : list string :=
  match FS.lookup (FS.resolve wd ".gitignore") n with
  | Some (FS.File c) => PyStr.split PyStr.newline (PyStr.universal_newlines c)
  | _ => []
  end.

(* ================================================================== *)
(** * Lemmas: strings *)

Lemma append_empty_r : forall s : string, s ++ EmptyString = s.
Proof.
  induction s as [|c s IH]; simpl; [reflexivity | now rewrite IH].
Qed.

Lemma take_length : forall s : string, PyStr.take (String.length s) s = s.
Proof.
  induction s as [|c s IH]; simpl; [reflexivity | now rewrite IH].
Qed.

(** [("-" + s)[1:]] is [s]. *)
Lemma slice_from_1 : forall (c : ascii) (s : string),
  PyStr.slice_from (String c s) 1 = s.
Proof.
  intros c s.
  unfold PyStr.slice_from, PyStr.slice, PyStr.clamp, PyStr.len.
  simpl String.length.
  set (n := String.length s).
  assert (H1 : (Z.of_nat (S n) <? 0) = false) by (apply Z.ltb_ge; lia).
  rewrite H1.
  change (1 <? 0) with false. cbv iota.
  replace (Z.max 0 (Z.min (Z.of_nat (S n)) 1)) with 1 by lia.
  replace (Z.max 0 (Z.min (Z.of_nat (S n)) (Z.of_nat (S n)))) with (Z.of_nat (S n)) by lia.
  replace (Z.to_nat (Z.of_nat (S n) - 1)) with n by lia.
  change (Z.to_nat 1) with 1%nat. simpl PyStr.drop.
  apply take_length.
Qed.

(** A text without an occurrence of [old] is left alone by [replace]. *)
Lemma find_from_absent : forall (sub s : string) (i : Z),
  PyStr.find_from sub s i = -1 -> 0 <= i ->
  prefix sub s = false /\
  match s with
  | EmptyString => True
  | String _ s' => PyStr.find_from sub s' (i + 1) = -1
  end.
Proof.
  intros sub s i H Hi. destruct s as [|c s'].
  - cbn [PyStr.find_from] in H. destruct (prefix sub EmptyString) eqn:P.
    + lia.
    + split; [reflexivity | exact I].
  - cbn [PyStr.find_from] in H. destruct (prefix sub (String c s')) eqn:P.
    + lia.
    + split; [reflexivity | exact H].
Qed.

Lemma replace_absent : forall (old new s : string) (i : Z),
  0 <= i -> PyStr.find_from old s i = -1 ->
  PyStr.replace_from old new s 0 = s.
Proof.
  intros old new s. induction s as [|c s IH]; intros i Hi H.
  - reflexivity.
  - destruct (find_from_absent old (String c s) i H Hi) as [P R].
    cbn [PyStr.replace_from]. rewrite P. f_equal.
    apply (IH (i + 1)); [lia | exact R].
Qed.

Lemma split_no_sep : forall (sep : ascii) (s : string),
  PyStr.has_char sep s = false -> PyStr.split sep s = [s].
Proof.
  intros sep s. induction s as [|c s IH]; intros H.
  - reflexivity.
  - simpl in H. apply orb_false_iff in H. destruct H as [H1 H2].
    simpl. rewrite Ascii.eqb_sym, H1. rewrite (IH H2). reflexivity.
Qed.

(* ================================================================== *)
(** * Lemmas: association lists and the file system *)

Lemma assoc_set_same : forall (A : Type) (k : string) (v : A) d,
  assoc k (FS.set_entry k v d) = Some v.
Proof.
  intros A k v d. induction d as [|[k' v'] d IH]; simpl.
  - now rewrite String.eqb_refl.
  - destruct (String.eqb k k') eqn:Q; simpl.
    + now rewrite String.eqb_refl.
    + now rewrite Q.
Qed.

Lemma assoc_set_other : forall (A : Type) (k k' : string) (v : A) d,
  String.eqb k' k = false ->
  assoc k' (FS.set_entry k v d) = assoc k' d.
Proof.
  intros A k k' v d N. induction d as [|[k0 v0] d IH]; simpl.
  - now rewrite N.
  - destruct (String.eqb k k0) eqn:Q; simpl.
    + apply String.eqb_eq in Q. subst k0. now rewrite N.
    + destruct (String.eqb k' k0); [reflexivity | exact IH].
Qed.

Lemma assoc_del_same : forall (A : Type) (k : string) (d : list (string * A)),
  assoc k (FS.del_entry k d) = None.
Proof.
  intros A k d. induction d as [|[k' v'] d IH]; simpl.
  - reflexivity.
  - destruct (String.eqb k k') eqn:Q; simpl; [exact IH | now rewrite Q].
Qed.

Lemma assoc_del_other : forall (A : Type) (k k' : string) (d : list (string * A)),
  String.eqb k' k = false ->
  assoc k' (FS.del_entry k d) = assoc k' d.
Proof.
  intros A k k' d N. induction d as [|[k0 v0] d IH]; simpl.
  - reflexivity.
  - destruct (String.eqb k k0) eqn:Q; simpl.
    + apply String.eqb_eq in Q. subst k0. now rewrite N.
    + destruct (String.eqb k' k0); [reflexivity | exact IH].
Qed.

Lemma apart_sym : forall p q, FS.apart p q = FS.apart q p.
Proof.
  induction p as [|a p IH]; intros [|b q]; simpl; try reflexivity.
  rewrite (String.eqb_sym b a). destruct (String.eqb a b); [apply IH | reflexivity].
Qed.

Lemma apart_irrefl : forall p, FS.apart p p = false.
Proof.
  induction p as [|a p IH]; simpl; [reflexivity | now rewrite String.eqb_refl].
Qed.

Lemma apart_app : forall pre p q : FS.path,
  FS.apart (pre ++ p)%list (pre ++ q)%list = FS.apart p q.
Proof.
  induction pre as [|a pre IH]; intros p q; simpl;
    [reflexivity | now rewrite String.eqb_refl].
Qed.

Lemma lookup_app : forall (p q : FS.path) n,
  FS.lookup (p ++ q)%list n =
  match FS.lookup p n with Some m => FS.lookup q m | None => None end.
Proof.
  induction p as [|c p IH]; intros q n; simpl.
  - reflexivity.
  - destruct n as [x|es]; [reflexivity|].
    destruct (assoc c es) as [sub|]; [apply IH | reflexivity].
Qed.

Lemma lookup_remove_same : forall p n,
  p <> [] -> FS.lookup p (FS.remove p n) = None.
Proof.
  induction p as [|c p IH]; intros n Hp; [congruence|].
  destruct n as [x|es]; [reflexivity|].
  destruct p as [|c' p'].
  - simpl. now rewrite assoc_del_same.
  - cbn [FS.remove]. destruct (assoc c es) as [sub|] eqn:A.
    + cbn [FS.lookup]. rewrite assoc_set_same. apply IH. discriminate.
    + cbn [FS.lookup]. now rewrite A.
Qed.

Lemma lookup_remove_apart : forall p q n,
  FS.apart p q = true -> FS.lookup q (FS.remove p n) = FS.lookup q n.
Proof.
  induction p as [|c p IH]; intros q n H; [discriminate|].
  destruct q as [|b q]; [discriminate|].
  simpl in H.
  destruct n as [x|es]; [reflexivity|].
  destruct p as [|c' p'].
  - rewrite String.eqb_refl || idtac.
    destruct (String.eqb c b) eqn:Q; [discriminate|].
    simpl. rewrite assoc_del_other; [reflexivity | now rewrite String.eqb_sym].
  - cbn [FS.remove]. destruct (assoc c es) as [sub|] eqn:A; [|reflexivity].
    cbn [FS.lookup].
    destruct (String.eqb c b) eqn:Q.
    + apply String.eqb_eq in Q. subst b. rewrite assoc_set_same, A. now apply IH.
    + rewrite assoc_set_other; [reflexivity | now rewrite String.eqb_sym].
Qed.

Lemma lookup_wrap_same : forall p leaf, FS.lookup p (FS.wrap p leaf) = Some leaf.
Proof.
  induction p as [|c p IH]; intros leaf; simpl;
    [reflexivity | now rewrite String.eqb_refl].
Qed.

Lemma lookup_wrap_apart : forall p q leaf,
  FS.apart p q = true -> FS.lookup q (FS.wrap p leaf) = None.
Proof.
  induction p as [|c p IH]; intros q leaf H; [discriminate|].
  destruct q as [|b q]; [discriminate|].
  simpl in *. rewrite (String.eqb_sym b c).
  destruct (String.eqb c b); [now apply IH | reflexivity].
Qed.

Lemma lookup_install_same : forall p leaf n n',
  FS.install p leaf n = Ok n' -> FS.lookup p n' = Some leaf.
Proof.
  induction p as [|c p IH]; intros leaf n n' H; [discriminate|].
  simpl in H. destruct n as [x|es]; [discriminate|].
  destruct (assoc c es) as [sub|] eqn:A.
  - destruct (FS.install p leaf sub) as [sub'|e] eqn:I; [|discriminate].
    injection H as <-. simpl. rewrite assoc_set_same. now apply (IH leaf sub).
  - injection H as <-. simpl. rewrite assoc_set_same. apply lookup_wrap_same.
Qed.

Lemma lookup_install_apart : forall p q leaf n n',
  FS.apart p q = true -> FS.install p leaf n = Ok n' ->
  FS.lookup q n' = FS.lookup q n.
Proof.
  induction p as [|c p IH]; intros q leaf n n' H I; [discriminate|].
  destruct q as [|b q]; [discriminate|].
  simpl in H, I. destruct n as [x|es]; [discriminate|].
  destruct (assoc c es) as [sub|] eqn:A.
  - destruct (FS.install p leaf sub) as [sub'|e] eqn:I'; [|discriminate].
    injection I as <-. simpl.
    destruct (String.eqb c b) eqn:Q.
    + apply String.eqb_eq in Q. subst b. rewrite assoc_set_same, A.
      now apply (IH q leaf sub).
    + rewrite assoc_set_other; [reflexivity | now rewrite String.eqb_sym].
  - injection I as <-. simpl.
    destruct (String.eqb c b) eqn:Q.
    + apply String.eqb_eq in Q. subst b. rewrite assoc_set_same, A.
      now apply lookup_wrap_apart.
    + rewrite assoc_set_other; [reflexivity | now rewrite String.eqb_sym].
Qed.

Lemma lookup_write_file_same : forall p c n n',
  FS.write_file p c n = Ok n' -> FS.lookup p n' = Some (FS.File c).
Proof.
  induction p as [|k p IH]; intros c n n' H; [discriminate|].
  simpl in H. destruct n as [x|es]; [discriminate|].
  destruct p as [|k' p'].
  - destruct (assoc k es) as [[y|ds]|]; try discriminate;
      injection H as <-; simpl; now rewrite assoc_set_same.
  - destruct (assoc k es) as [sub|] eqn:A; [|discriminate].
    destruct (FS.write_file (k' :: p') c sub) as [sub'|e] eqn:W; [|discriminate].
    injection H as <-. cbn [FS.lookup]. rewrite assoc_set_same.
    now apply (IH c sub).
Qed.

Lemma lookup_write_file_apart : forall p q c n n',
  FS.apart p q = true -> FS.write_file p c n = Ok n' ->
  FS.lookup q n' = FS.lookup q n.
Proof.
  induction p as [|k p IH]; intros q c n n' H W; [discriminate|].
  destruct q as [|b q]; [discriminate|].
  simpl in H, W. destruct n as [x|es]; [discriminate|].
  destruct p as [|k' p'].
  - destruct (String.eqb k b) eqn:Q; [discriminate|].
    assert (N : String.eqb b k = false) by now rewrite String.eqb_sym.
    destruct (assoc k es) as [[y|ds]|]; try discriminate;
      injection W as <-; simpl; now rewrite assoc_set_other.
  - destruct (assoc k es) as [sub|] eqn:A; [|discriminate].
    destruct (FS.write_file (k' :: p') c sub) as [sub'|e] eqn:W'; [|discriminate].
    injection W as <-. cbn [FS.lookup].
    destruct (String.eqb k b) eqn:Q.
    + apply String.eqb_eq in Q. subst b. rewrite assoc_set_same, A.
      now apply (IH q c sub).
    + rewrite assoc_set_other; [reflexivity | now rewrite String.eqb_sym].
Qed.

Lemma rmtree_gone : forall p n n',
  FS.rmtree p n = Ok n' -> FS.lookup p n' = None.
Proof.
  intros p n n' H. unfold FS.rmtree in H.
  destruct (FS.lookup p n) as [[x|es]|]; try discriminate.
  destruct p as [|c p]; [discriminate|].
  replace n' with (FS.remove (c :: p) n) by congruence.
  apply lookup_remove_same. discriminate.
Qed.

Lemma rmtree_apart : forall p q n n',
  FS.apart p q = true -> FS.rmtree p n = Ok n' ->
  FS.lookup q n' = FS.lookup q n.
Proof.
  intros p q n n' A H. unfold FS.rmtree in H.
  destruct (FS.lookup p n) as [[x|es]|]; try discriminate.
  destruct p as [|c p]; [discriminate|].
  replace n' with (FS.remove (c :: p) n) by congruence.
  now apply lookup_remove_apart.
Qed.

Lemma unlink_apart : forall p q n n',
  FS.apart p q = true -> FS.unlink p n = Ok n' ->
  FS.lookup q n' = FS.lookup q n.
Proof.
  intros p q n n' A H. unfold FS.unlink in H.
  destruct (FS.lookup p n) as [[x|es]|]; try discriminate.
  replace n' with (FS.remove p n) by congruence.
  now apply lookup_remove_apart.
Qed.

Lemma makedirs_apart : forall p q n n',
  FS.apart p q = true -> FS.makedirs p n = Ok n' ->
  FS.lookup q n' = FS.lookup q n.
Proof.
  intros p q n n' A H. now apply (lookup_install_apart p q (FS.Dir []) n n').
Qed.

Lemma copyfile_same : forall src dst n n',
  FS.copyfile src dst n = Ok n' ->
  exists c, FS.lookup src n = Some (FS.File c) /\ FS.lookup dst n' = Some (FS.File c).
Proof.
  intros src dst n n' H. unfold FS.copyfile in H.
  destruct (FS.lookup src n) as [[c|es]|]; try discriminate.
  destruct (FS.path_eqb src dst); [discriminate|].
  exists c. split; [reflexivity | now apply (lookup_write_file_same dst c n)].
Qed.

Lemma copyfile_apart : forall src dst q n n',
  FS.apart dst q = true -> FS.copyfile src dst n = Ok n' ->
  FS.lookup q n' = FS.lookup q n.
Proof.
  intros src dst q n n' A H. unfold FS.copyfile in H.
  destruct (FS.lookup src n) as [[c|es]|]; try discriminate.
  destruct (FS.path_eqb src dst); [discriminate|].
  now apply (lookup_write_file_apart dst q c n).
Qed.

Lemma copytree_same : forall src dst n n',
  FS.copytree src dst n = Ok n' ->
  exists es, FS.lookup src n = Some (FS.Dir es) /\
             FS.lookup dst n' = Some (FS.strip_git (FS.Dir es)).
Proof.
  intros src dst n n' H. unfold FS.copytree in H.
  destruct (FS.lookup src n) as [[c|es]|]; try discriminate.
  exists es. split; [reflexivity|].
  now apply (lookup_install_same dst (FS.strip_git (FS.Dir es)) n).
Qed.

Lemma copytree_apart : forall src dst q n n',
  FS.apart dst q = true -> FS.copytree src dst n = Ok n' ->
  FS.lookup q n' = FS.lookup q n.
Proof.
  intros src dst q n n' A H. unfold FS.copytree in H.
  destruct (FS.lookup src n) as [[c|es]|]; try discriminate.
  now apply (lookup_install_apart dst q (FS.strip_git (FS.Dir es)) n).
Qed.

Lemma open_append_apart : forall p q n n',
  FS.apart p q = true -> FS.open_append p n = Ok n' ->
  FS.lookup q n' = FS.lookup q n.
Proof.
  intros p q n n' A H. unfold FS.open_append in H.
  destruct (FS.lookup p n) as [[c|es]|]; try discriminate.
  - now injection H as <-.
  - now apply (lookup_write_file_apart p q EmptyString n).
Qed.

Lemma append_apart : forall p q text n n',
  FS.apart p q = true -> FS.append p text n = Ok n' ->
  FS.lookup q n' = FS.lookup q n.
Proof.
  intros p q text n n' A H. unfold FS.append in H.
  destruct (FS.lookup p n) as [[c|es]|]; try discriminate.
  now apply (lookup_write_file_apart p q (c ++ text) n).
Qed.

(** Relative names resolve below the working directory. *)
Lemma walk_push : forall comps stack,
  Forall (fun c => (String.eqb c EmptyString || String.eqb c ".") = false
                   /\ String.eqb c ".." = false) comps ->
  FS.walk stack comps = (rev stack ++ comps)%list.
Proof.
  induction comps as [|c cs IH]; intros stack H.
  - simpl. now rewrite app_nil_r.
  - inversion H as [|? ? [H1 H2] H3]; subst.
    simpl. rewrite H1, H2. rewrite (IH _ H3). simpl.
    now rewrite <- app_assoc.
Qed.

Lemma plain_components_walk : forall cs : list string,
  forallb plain_component cs = true ->
  Forall (fun c => (String.eqb c EmptyString || String.eqb c ".") = false
                   /\ String.eqb c ".." = false) cs.
Proof.
  induction cs as [|c cs IH]; intros H; [constructor|].
  cbn [forallb] in H. apply andb_true_iff in H. destruct H as [Hc H].
  constructor; [|now apply IH].
  unfold plain_component in Hc.
  apply andb_true_iff in Hc. destruct Hc as [Hc H3].
  apply andb_true_iff in Hc. destruct Hc as [_ H2].
  apply negb_true_iff in H2, H3. now split.
Qed.

Lemma split_not_nil : forall (sep : ascii) (s : string), PyStr.split sep s <> [].
Proof.
  intros sep s. destruct s as [|c s]; cbn [PyStr.split]; [discriminate|].
  destruct (Ascii.eqb c sep); [discriminate|].
  destruct (PyStr.split sep s); discriminate.
Qed.

(** ** Plain names *)

Lemma plain_name_relative : forall p : string,
  plain_name p = true -> prefix "/" p = false.
Proof.
  intros [|c p] H; [reflexivity|].
  unfold plain_name in H. cbn [PyStr.split] in H.
  cbn [prefix]. destruct (ascii_dec "/" c) as [<-|N]; [|reflexivity].
  change (Ascii.eqb "/" "/") with true in H. cbv iota in H.
  cbn [forallb] in H. discriminate H.
Qed.

Lemma plain_name_named : forall p : string,
  plain_name p = true -> p <> EmptyString.
Proof. intros p H ->. discriminate H. Qed.

(** A plain name resolves to its components below the current directory. *)
Lemma resolve_plain : forall (wd : FS.path) (p : string),
  plain_name p = true ->
  FS.resolve wd p = (wd ++ PyStr.split "/" p)%list.
Proof.
  intros wd p H. unfold FS.resolve. rewrite (plain_name_relative p H).
  rewrite walk_push by (apply plain_components_walk; exact H).
  now rewrite rev_involutive.
Qed.

Lemma resolve_plain_not_root : forall (wd : FS.path) (p : string),
  plain_name p = true -> FS.resolve wd p <> [].
Proof.
  intros wd p H E. rewrite (resolve_plain wd p H) in E.
  apply app_eq_nil in E. destruct E as [_ E].
  exact (split_not_nil "/" p E).
Qed.

(** ** What unlinking leaves *)

(** The directories on the way to what is unlinked stay. *)
Lemma remove_keeps_parents : forall (p : FS.path) (n : FS.node) (k : nat),
  FS.exists_ p n = true -> (k < length p)%nat ->
  FS.isdir (firstn k p) (FS.remove p n) = true.
Proof.
  induction p as [|c p IH]; intros n k H K; [simpl in K; lia|].
  unfold FS.exists_ in H. destruct n as [x|es]; [discriminate H|].
  cbn [FS.lookup] in H. destruct (assoc c es) as [sub|] eqn:A; [|discriminate H].
  destruct k as [|k].
  - cbn [firstn]. unfold FS.isdir. cbn [FS.lookup FS.remove].
    destruct p; [reflexivity|]. now rewrite A.
  - cbn [firstn]. simpl in K. destruct p as [|c' p']; [simpl in K; lia|].
    unfold FS.isdir. cbn [FS.remove]. rewrite A. cbn [FS.lookup].
    rewrite assoc_set_same.
    apply (IH sub k); [exact H | simpl in *; lia].
Qed.

(* ================================================================== *)
(** * Lemmas: the monad *)

Lemma bind_ok : forall (A B : Type) (m : M A) (k : A -> M B) w b w',
  bind m k w = (Ok b, w') ->
  exists a w1, m w = (Ok a, w1) /\ k a w1 = (Ok b, w').
Proof.
  intros A B m k w b w' H. unfold bind in H.
  destruct (m w) as [[a|e] w1]; [|discriminate].
  now exists a, w1.
Qed.

Lemma bind_step : forall (A B : Type) (m : M A) (k : A -> M B) w a w1,
  m w = (Ok a, w1) -> bind m k w = k a w1.
Proof.
  intros A B m k w a w1 H. unfold bind. now rewrite H.
Qed.

Lemma bind_fail : forall (A B : Type) (m : M A) (k : A -> M B) w e w1,
  m w = (Raise e, w1) -> bind m k w = (Raise e, w1).
Proof.
  intros A B m k w e w1 H. unfold bind. now rewrite H.
Qed.

Arguments bind_step {A B m} k {w a w1} _.
Arguments bind_fail {A B m} k {w e w1} _.

Ltac bind_inv H :=
  let a := fresh "a" in
  let w := fresh "w" in
  let H1 := fresh H in
  apply bind_ok in H; destruct H as (a & w & H1 & H).

(* ================================================================== *)
(** * Lemmas: the program *)

Lemma from_config_ok : forall name c w m w',
  PyModule.from_config name c w = (Ok m, w') ->
  exists d, c = PDict d /\ m = PyModule.of_dict name d /\ w' = w.
Proof.
  intros name c w m w' H. destruct c as [| | | | | |d]; try discriminate.
  exists d. simpl in H. destruct (assoc "repository" d); [|discriminate].
  unfold PyModule.init in H.
  destruct (forallb _ d); [|discriminate].
  unfold ret in H. split; [reflexivity|]. split; congruence.
Qed.

Lemma tasks_loop_app : forall E wd config pre post stats w,
  tasks_loop E wd config (pre ++ post) stats w =
  match tasks_loop E wd config pre stats w with
  | (Ok stats1, w1) => tasks_loop E wd config post stats1 w1
  | (Raise e, w1) => (Raise e, w1)
  end.
Proof.
  intros E wd config pre post. induction pre as [|c pre IH]; intros stats w.
  - reflexivity.
  - cbn [tasks_loop app]. unfold bind.
    destruct (run_task E wd config c w) as [[[]|e] w1]; [apply IH | reflexivity].
Qed.

(* ================================================================== *)
(** * The claims *)

(** C9: when the configuration has no [modules] mapping (the key is missing
    or null), a fetch prints "No modules found." and returns normally with
    nothing else changed, while a clean fails: it asks the missing mapping
    for its items, which raises [AttributeError]. *)
Theorem fetch_and_clean_without_modules :
  forall E wd config specific_module w,
    py_get config "modules" PNone = Ok PNone ->
    _fetch_modules E wd config specific_module w =
      (Ok tt, mkWorld (fs w) (stdout w ++ ["No modules found."]) (stderr w) (calls w))
    /\ _clean_modules wd config specific_module w = (Raise AttributeError, w).
Proof.
  intros E wd config specific_module w H. split.
  - unfold _fetch_modules, bind, lift. rewrite H. reflexivity.
  - unfold _clean_modules, bind, lift. rewrite H. reflexivity.
Qed.

Lemma fetch_and_clean_without_modules_witness :
  _fetch_modules Toy.ext Toy.wd (PDict [("name", PStr "demo")]) None Toy.world =
    (Ok tt, mkWorld (fs Toy.world) (stdout Toy.world ++ ["No modules found."])
              (stderr Toy.world) (calls Toy.world))
  /\ _clean_modules Toy.wd (PDict [("name", PStr "demo")]) None Toy.world =
       (Raise AttributeError, Toy.world).
Proof.
  apply (fetch_and_clean_without_modules Toy.ext Toy.wd
           (PDict [("name", PStr "demo")]) None Toy.world).
  reflexivity.
Defined.

(** C8: the task loop reads [command[0]] of every task, so a profile whose
    task list holds the empty string fails at that task with [IndexError]:
    once the dependencies and the tasks before it have completed, the run
    ends there, in the state those left, and no later task is started. *)
Theorem empty_task_raises_IndexError :
  forall E wd config profile pre rest w stats0 w0 stats1 w1,
    py_get profile "tasks" (PList []) = Ok (PList (pre ++ PStr EmptyString :: rest)) ->
    run_dependencies E wd profile w = (Ok stats0, w0) ->
    tasks_loop E wd config pre stats0 w0 = (Ok stats1, w1) ->
    _run_tasks E wd config profile w = (Raise IndexError, w1).
Proof.
  intros E wd config profile pre rest w stats0 w0 stats1 w1 Ht Hd Hp.
  unfold _run_tasks. rewrite (bind_step _ Hd).
  unfold bind at 1. unfold lift at 1. rewrite Ht.
  assert (T : truthy (PList (pre ++ PStr EmptyString :: rest)) = true)
    by (destruct pre; reflexivity).
  rewrite T. cbn [negb]. unfold bind at 1. unfold lift at 1. cbn [py_iter].
  rewrite tasks_loop_app, Hp. reflexivity.
Qed.

Lemma empty_task_raises_IndexError_witness :
  _run_tasks Toy.ext Toy.wd Toy.config
    (PDict [("tasks", PList [PStr "noop"; PStr EmptyString; PStr "modules"])])
    Toy.world
  = (Raise IndexError, Toy.world).
Proof.
  apply (empty_task_raises_IndexError Toy.ext Toy.wd Toy.config
           (PDict [("tasks", PList [PStr "noop"; PStr EmptyString; PStr "modules"])])
           [PStr "noop"] [PStr "modules"] Toy.world (mkStats 0 0) Toy.world
           (mkStats 1 0) Toy.world); reflexivity.
Defined.

(** ** Skipping a module that pins both a tag and a commit *)

Lemma format_both_pinned : forall name : string,
  py_format "%s: Cannot be both tag & hexsha." [PStr name]
  = Ok (name ++ ": Cannot be both tag & hexsha.").
Proof. reflexivity. Qed.

(** C2: when the turn of a module with both [tag] and [hexsha] set comes in
    a vendoring pass, the pass prints the diagnostic and goes on with the
    remaining modules: the only difference the module makes is that one line
    on standard output; no collaborator is called for it (no submodule, no
    checkout) and the file system is as before (no copy). *)
Theorem module_with_tag_and_hexsha_is_skipped :
  forall E wd config specific_module ignore_list name c module rest w,
    PyModule.from_config name c w = (Ok module, w) ->
    filtered_out specific_module name = false ->
    truthy (PyModule.tag module) = true ->
    truthy (PyModule.hexsha module) = true ->
    fetch_loop E wd config specific_module ignore_list ((name, c) :: rest) w
    = fetch_loop E wd config specific_module ignore_list rest
        (mkWorld (fs w)
           (stdout w ++ [name ++ ": Cannot be both tag & hexsha."])
           (stderr w) (calls w)).
Proof.
  intros E wd config specific_module ignore_list name c module rest w Hc Hf Ht Hh.
  destruct (from_config_ok _ _ _ _ _ Hc) as (d & -> & Hm & _).
  assert (Hn : PyModule.name module = name) by (subst module; reflexivity).
  cbn [fetch_loop]. unfold fetch_module. cbn [fst snd].
  unfold bind at 1. rewrite (bind_step _ Hc).
  rewrite Hn, Hf, Ht, Hh. cbn [andb].
  rewrite format_both_pinned. reflexivity.
Qed.

Lemma module_with_tag_and_hexsha_is_skipped_witness :
  fetch_loop Toy.ext Toy.wd Toy.config None []
    [("both", PDict [("repository", PStr Toy.remote_url);
                     ("tag", PStr "v1"); ("hexsha", PStr "0123abc")]);
     ("lib", Toy.lib)]
    Toy.world
  = fetch_loop Toy.ext Toy.wd Toy.config None [] [("lib", Toy.lib)]
      (mkWorld (fs Toy.world)
         (stdout Toy.world ++ ["both" ++ ": Cannot be both tag & hexsha."])
         (stderr Toy.world) (calls Toy.world)).
Proof.
  apply (module_with_tag_and_hexsha_is_skipped Toy.ext Toy.wd Toy.config None []
           "both"
           (PDict [("repository", PStr Toy.remote_url);
                   ("tag", PStr "v1"); ("hexsha", PStr "0123abc")])
           (PyModule.of_dict "both"
              [("repository", PStr Toy.remote_url);
               ("tag", PStr "v1"); ("hexsha", PStr "0123abc")])
           [("lib", Toy.lib)] Toy.world); reflexivity.
Defined.

(** ** The checkout target *)

(** With a tag set, the command text is built from the name [tag], which
    nothing binds: the checkout raises before any command is run. *)
Lemma checkout_tag_unbound : forall E wd module sha w,
  truthy (PyModule.tag module) = true ->
  checkout E wd module sha w = (Raise (NameError "tag"), w).
Proof.
  intros E wd module sha w H. unfold checkout. rewrite H. reflexivity.
Qed.

Lemma checkout_hexsha_unbound : forall E wd module sha w,
  truthy (PyModule.tag module) = false ->
  truthy (PyModule.hexsha module) = true ->
  checkout E wd module sha w = (Raise (NameError "hexsha"), w).
Proof.
  intros E wd module sha w H1 H2. unfold checkout. rewrite H1, H2. reflexivity.
Qed.

(** With neither set, the target is the revision the clone landed on. *)
Lemma checkout_unpinned : forall E wd module sha w,
  truthy (PyModule.tag module) = false ->
  truthy (PyModule.hexsha module) = false ->
  checkout E wd module sha w = (Ok (PStr sha), w).
Proof.
  intros E wd module sha w H1 H2. unfold checkout. rewrite H1, H2. reflexivity.
Qed.

Lemma pinned_names_unbound :
  PyStr.mem "tag" (fetch_locals ++ module_globals)%list = false
  /\ PyStr.mem "hexsha" (fetch_locals ++ module_globals)%list = false.
Proof. split; reflexivity. Qed.

(** C1 (the code departs from it): vendoring a module that pins a tag, or a
    commit, stops with [NameError] at the checkout: the command is built
    from the unbound names [tag] and [hexsha], not from the fields of the
    module.  The clone has been made, no checkout command is run and no
    "Cloned: ..." line is printed. *)
Theorem pinned_module_fetch_raises_NameError :
  (let run := _fetch_modules Toy.ext Toy.wd ToyPinned.config_tag None Toy.world in
   fst run = Raise (NameError "tag")
   /\ existsb is_popen (calls (snd run)) = false
   /\ stdout (snd run) = ["Cloning: https://x/lib.git"])
  /\
  (let run := _fetch_modules Toy.ext Toy.wd ToyPinned.config_hexsha None Toy.world in
   fst run = Raise (NameError "hexsha")
   /\ existsb is_popen (calls (snd run)) = false
   /\ stdout (snd run) = ["Cloning: https://x/lib.git"]).
Proof.
  split; vm_compute; repeat split; reflexivity.
Qed.

(** ** A command that fails *)

Lemma format_command_failed : forall err : string,
  py_format ("Command failed with status %d, stderr=" ++ PyStr.nl ++ "%s") [PBytes err]
  = Raise TypeError.
Proof. reflexivity. Qed.

(** Whatever the command and its non-zero status: building the message
    raises [TypeError]; nothing reaches standard error and [sys.exit] is not
    reached. *)
Lemma nice_call_nonzero : forall E wd command dir w status out err n,
  popen E command dir wd (fs w) = Ok (status, out, err, n) ->
  status <> 0 ->
  exists w',
    _nice_call E wd command dir w = (Raise TypeError, w')
    /\ stderr w' = stderr w /\ fs w' = n
    /\ calls w' = (calls w ++ [Popen command dir])%list.
Proof.
  intros E wd command dir w status out err n Hp Hs.
  unfold _nice_call. unfold bind at 1. unfold os_getcwd, ret at 1.
  unfold bind at 1. unfold lift at 1.
  destruct (py_format "Executing %r in %s..." _) as [line|e] eqn:F;
    [|simpl in F; discriminate].
  unfold bind at 1. unfold print at 1.
  unfold bind at 1. unfold subprocess_run at 1. cbn [fs log_call].
  rewrite Hp.
  assert (Z : (status =? 0) = false) by (apply Z.eqb_neq; exact Hs).
  rewrite Z. unfold bind at 1. unfold lift at 1.
  rewrite format_command_failed.
  eexists. split; [reflexivity|]. cbn. repeat split; reflexivity.
Qed.

(** C5 (the code departs from it): the task [cmd:false] runs a command that
    exits with status 1 and writes to its standard error.  The run ends
    there and the later task is not started, but with [TypeError]: the
    message has two conversions and one argument, so the captured error
    output is never printed and [sys.exit(1)] is not reached. *)
Theorem failing_command_raises_TypeError :
  let run := _run_tasks Toy.ext Toy.wd Toy.config
               (PDict [("tasks", PList [PStr "cmd:false"; PStr "cmd:echo hi"])])
               Toy.world in
  fst run = Raise TypeError
  /\ stderr (snd run) = []
  /\ calls (snd run) = [Popen "false" None]
  /\ exit_status (fst run) = 1.
Proof.
  vm_compute. repeat split; reflexivity.
Qed.

(** ** Nested invocations *)

Lemma nice_call_zero : forall E wd command dir w out err n,
  popen E command dir wd (fs w) = Ok (0, out, err, n) ->
  exists w',
    _nice_call E wd command dir w = (Ok tt, w')
    /\ fs w' = n /\ stderr w' = stderr w
    /\ calls w' = (calls w ++ [Popen command dir])%list.
Proof.
  intros E wd command dir w out err n Hp.
  unfold _nice_call. unfold bind at 1. unfold os_getcwd, ret at 1.
  unfold bind at 1. unfold lift at 1.
  destruct (py_format "Executing %r in %s..." _) as [line|e] eqn:F;
    [|simpl in F; discriminate].
  unfold bind at 1. unfold print at 1.
  unfold bind at 1. unfold subprocess_run at 1. cbn [fs log_call].
  rewrite Hp. cbn [Z.eqb]. unfold bind at 1. unfold lift at 1.
  destruct (py_format _ [PBytes out]) as [line2|e] eqn:F2;
    [|simpl in F2; discriminate].
  eexists. split; [reflexivity|]. cbn. repeat split; reflexivity.
Qed.

(** What [_remove_dir] leaves when it returns. *)
Lemma remove_dir_ok : forall wd p w b w',
  p <> EmptyString ->
  _remove_dir wd p w = (Ok b, w') ->
  FS.exists_ (FS.resolve wd p) (fs w') = false
  /\ (forall q, FS.apart (FS.resolve wd p) q = true ->
                FS.lookup q (fs w') = FS.lookup q (fs w))
  /\ (b = false -> w' = w)
  /\ (b = true -> FS.isdir (FS.resolve wd p) (fs w) = true
                  /\ w' = set_fs w (FS.remove (FS.resolve wd p) (fs w)))
  /\ stdout w' = stdout w /\ stderr w' = stderr w /\ calls w' = calls w.
Proof.
  intros wd p w b w' Hp H. unfold _remove_dir in H.
  unfold bind at 1 in H. unfold os_path_exists at 1 in H.
  assert (N : no_name p = false) by (apply String.eqb_neq; exact Hp).
  rewrite N in H. cbn [negb andb] in H.
  destruct (FS.exists_ (FS.resolve wd p) (fs w)) eqn:X.
  - unfold bind at 1 in H. unfold shutil_rmtree, fs_do in H. rewrite N in H.
    destruct (FS.rmtree (FS.resolve wd p) (fs w)) as [n|e] eqn:R; [|discriminate].
    unfold ret in H. injection H as <- <-. cbn [fs set_fs stdout stderr calls].
    split; [unfold FS.exists_; now rewrite (rmtree_gone _ _ _ R)|].
    split; [intros q A; now apply (rmtree_apart _ _ _ _ A R)|].
    split; [discriminate|].
    split; [|repeat split; reflexivity].
    intros _. unfold FS.rmtree in R. unfold FS.isdir.
    destruct (FS.lookup (FS.resolve wd p) (fs w)) as [[x|es]|]; try discriminate.
    destruct (FS.resolve wd p); [discriminate|].
    split; [reflexivity | congruence].
  - unfold ret in H. injection H as <- <-.
    split; [exact X|]. split; [reflexivity|]. split; [reflexivity|].
    split; [discriminate | repeat split; reflexivity].
Qed.

(** What [_create_dir] leaves when it returns. *)
Lemma create_dir_ok : forall wd p w w',
  p <> EmptyString ->
  _create_dir wd p w = (Ok tt, w') ->
  FS.exists_ (FS.resolve wd p) (fs w') = true
  /\ (forall q, FS.apart (FS.resolve wd p) q = true ->
                FS.lookup q (fs w') = FS.lookup q (fs w))
  /\ (FS.exists_ (FS.resolve wd p) (fs w) = true -> w' = w)
  /\ stdout w' = stdout w /\ stderr w' = stderr w /\ calls w' = calls w.
Proof.
  intros wd p w w' Hp H. unfold _create_dir in H.
  unfold bind at 1 in H. unfold os_path_exists at 1 in H.
  assert (N : no_name p = false) by (apply String.eqb_neq; exact Hp).
  rewrite N in H. cbn [negb andb] in H.
  destruct (FS.exists_ (FS.resolve wd p) (fs w)) eqn:X; cbn [negb] in H.
  - unfold ret in H. injection H as <-.
    split; [exact X|]. split; [reflexivity|]. split; [reflexivity|].
    repeat split; reflexivity.
  - unfold os_makedirs, fs_do in H. rewrite N in H.
    destruct (FS.makedirs (FS.resolve wd p) (fs w)) as [n|e] eqn:R; [|discriminate].
    injection H as <-. cbn [fs set_fs stdout stderr calls].
    split; [unfold FS.exists_; now rewrite (lookup_install_same _ _ _ _ R)|].
    split; [intros q A; now apply (makedirs_apart _ _ _ _ A R)|].
    split; [discriminate | repeat split; reflexivity].
Qed.

Lemma scenario_command_line :
  PyStr.join " " (nested_command "sub/quack:build") = "quack -p build -y quack".
Proof. reflexivity. Qed.

Lemma scenario_directory : forall here : string,
  nested_module here "sub/quack:build" = "sub".
Proof. reflexivity. Qed.

Lemma resolve_sub_git : forall wd : FS.path,
  FS.resolve wd "sub/.git" = (wd ++ ["sub"; ".git"])%list.
Proof.
  intros wd. unfold FS.resolve.
  change (prefix "/" "sub/.git") with false. cbv iota.
  change (PyStr.split "/" "sub/.git") with ["sub"; ".git"].
  rewrite walk_push; [now rewrite rev_involutive|].
  repeat constructor.
Qed.




(** ** The counters *)

Lemma dependencies_loop_count : forall E wd items stats w stats' w',
  dependencies_loop E wd items stats w = (Ok stats', w') ->
  tasks stats' = tasks stats
  /\ dependencies stats' = dependencies stats + Z.of_nat (length items).
Proof.
  intros E wd items. induction items as [|d items IH]; intros stats w stats' w' H.
  - unfold dependencies_loop, ret in H. injection H as <- <-.
    split; [reflexivity | simpl; lia].
  - cbn [dependencies_loop] in H. bind_inv H.
    apply IH in H. cbn [tasks dependencies] in H. destruct H as [H1 H2].
    split; [exact H1 | rewrite H2; cbn [length]; lia].
Qed.

Lemma tasks_loop_count : forall E wd config commands stats w stats' w',
  tasks_loop E wd config commands stats w = (Ok stats', w') ->
  tasks stats' = tasks stats + Z.of_nat (length commands)
  /\ dependencies stats' = dependencies stats.
Proof.
  intros E wd config commands.
  induction commands as [|c commands IH]; intros stats w stats' w' H.
  - unfold tasks_loop, ret in H. injection H as <- <-.
    split; [simpl; lia | reflexivity].
  - cbn [tasks_loop] in H. bind_inv H.
    apply IH in H. cbn [tasks dependencies] in H. destruct H as [H1 H2].
    split; [rewrite H1; cbn [length]; lia | exact H2].
Qed.

Lemma run_dependencies_count : forall E wd profile items w stats w',
  py_get profile "dependencies" (PDict []) = Ok (PDict items) ->
  run_dependencies E wd profile w = (Ok stats, w') ->
  tasks stats = 0 /\ dependencies stats = Z.of_nat (length items).
Proof.
  intros E wd profile items w stats w' Hd H.
  unfold run_dependencies in H. unfold bind at 1 in H. unfold lift at 1 in H.
  rewrite Hd in H. apply dependencies_loop_count in H. exact H.
Qed.

(** A dependency of another kind is counted and nothing else. *)
Lemma dependencies_loop_other_kinds : forall E wd items stats w,
  Forall (fun d : string * pyval => fst d <> "quack") items ->
  dependencies_loop E wd items stats w
  = (Ok (mkStats (tasks stats) (dependencies stats + Z.of_nat (length items))), w).
Proof.
  intros E wd items. induction items as [|d items IH]; intros stats w F.
  - cbn. unfold ret. destruct stats as [t k]. cbn. do 2 f_equal. f_equal. lia.
  - inversion F as [|? ? Hd Hr]; subst.
    cbn [dependencies_loop]. unfold bind at 1. unfold _run_nested_quack.
    apply String.eqb_neq in Hd. rewrite Hd. cbn [negb]. unfold ret at 1.
    rewrite (IH _ _ Hr). cbn [tasks dependencies length]. do 3 f_equal. lia.
Qed.

(** An inert task is counted and nothing else. *)
Lemma run_command_inert : forall E wd config task w,
  inert task = true -> run_command E wd config task w = (Ok tt, w).
Proof.
  intros E wd config task w H. destruct task as [|first rest]; [discriminate|].
  unfold inert in H. unfold run_command.
  set (command := if Ascii.eqb first "-"
                  then PyStr.slice_from (String first rest) 1
                  else String first rest) in *.
  apply andb_true_iff in H. destruct H as [H H3].
  apply andb_true_iff in H. destruct H as [H1 H2].
  apply negb_true_iff in H1, H2, H3.
  rewrite H1, H2, H3. reflexivity.
Qed.

Lemma tasks_loop_inert : forall E wd config commands stats w,
  Forall (fun c => exists s, c = PStr s /\ inert s = true) commands ->
  tasks_loop E wd config commands stats w
  = (Ok (mkStats (tasks stats + Z.of_nat (length commands)) (dependencies stats)), w).
Proof.
  intros E wd config commands.
  induction commands as [|c commands IH]; intros stats w F.
  - cbn. unfold ret. destruct stats as [t k]. cbn. do 2 f_equal. f_equal. lia.
  - inversion F as [|? ? (s & -> & Hs) Hr]; subst.
    cbn [tasks_loop run_task]. unfold bind at 1.
    rewrite (run_command_inert E wd config s w Hs).
    rewrite (IH _ _ Hr). cbn [tasks dependencies length]. do 3 f_equal. lia.
Qed.

(** C3: for a profile whose [dependencies] is a mapping with [k] entries
    and whose [tasks] is a list of [n] tasks, the statistics a run returns
    are [tasks = n] and [dependencies = k], whatever the entries did; with an
    empty task list the run prints "No tasks found." after the dependencies
    and returns [tasks = 0].  And a run whose dependencies are of another
    kind than [quack] and whose tasks are all inert does return, with these
    counts, having touched neither the file system nor a collaborator. *)
Theorem run_tasks_counts :
  forall E wd config profile items commands w,
    py_get profile "dependencies" (PDict []) = Ok (PDict items) ->
    py_get profile "tasks" (PList []) = Ok (PList commands) ->
    (forall stats w',
        _run_tasks E wd config profile w = (Ok stats, w') ->
        tasks stats = Z.of_nat (length commands)
        /\ dependencies stats = Z.of_nat (length items)
        /\ (commands = [] ->
            exists w0,
              run_dependencies E wd profile w = (Ok stats, w0)
              /\ w' = mkWorld (fs w0) (stdout w0 ++ ["No tasks found."])
                        (stderr w0) (calls w0)))
    /\ (Forall (fun d : string * pyval => fst d <> "quack") items ->
        Forall (fun c => exists s, c = PStr s /\ inert s = true) commands ->
        exists w',
          _run_tasks E wd config profile w
          = (Ok (mkStats (Z.of_nat (length commands)) (Z.of_nat (length items))), w')
          /\ fs w' = fs w /\ calls w' = calls w).
Proof.
  intros E wd config profile items commands w Hd Ht. split.
  - intros stats w' H. unfold _run_tasks in H. bind_inv H.
    destruct (run_dependencies_count _ _ _ _ _ _ _ Hd H0) as [T0 D0].
    unfold bind at 1 in H. unfold lift at 1 in H. rewrite Ht in H.
    destruct commands as [|c commands].
    + cbn [truthy negb] in H. unfold bind, print, ret in H.
      injection H as <- <-. split; [exact T0|]. split; [exact D0|].
      intros _. exists w0. split; [exact H0 | reflexivity].
    + cbn [truthy negb] in H. unfold bind at 1 in H. unfold lift at 1 in H.
      cbn [py_iter] in H. apply tasks_loop_count in H. destruct H as [T1 D1].
      split; [rewrite T1, T0; lia|]. split; [rewrite D1; exact D0 | discriminate].
  - intros Fd Ft. unfold _run_tasks.
    assert (R : run_dependencies E wd profile w
                = (Ok (mkStats 0 (Z.of_nat (length items))), w)).
    { unfold run_dependencies. unfold bind at 1. unfold lift at 1. rewrite Hd.
      rewrite (dependencies_loop_other_kinds E wd items _ w Fd). reflexivity. }
    rewrite (bind_step _ R). unfold bind at 1. unfold lift at 1. rewrite Ht.
    destruct commands as [|c commands].
    + cbn [truthy negb]. unfold bind, print, ret. eexists.
      split; [reflexivity | split; reflexivity].
    + cbn [truthy negb]. unfold bind at 1. unfold lift at 1. cbn [py_iter].
      rewrite (tasks_loop_inert E wd config _ _ w Ft). cbn [tasks dependencies].
      exists w. split; [|split; reflexivity]. do 2 f_equal.
Qed.

Lemma run_tasks_counts_witness :
  (forall stats w',
      _run_tasks Toy.ext Toy.wd Toy.config
        (PDict [("dependencies", PDict [("other", PStr "x")]);
                ("tasks", PList [PStr "noop"; PStr "-also"])])
        Toy.world = (Ok stats, w') ->
      tasks stats = 2
      /\ dependencies stats = 1
      /\ ([PStr "noop"; PStr "-also"] = [] ->
          exists w0,
            run_dependencies Toy.ext Toy.wd
              (PDict [("dependencies", PDict [("other", PStr "x")]);
                      ("tasks", PList [PStr "noop"; PStr "-also"])])
              Toy.world = (Ok stats, w0)
            /\ w' = mkWorld (fs w0) (stdout w0 ++ ["No tasks found."])
                      (stderr w0) (calls w0)))
  /\ (Forall (fun d : string * pyval => fst d <> "quack") [("other", PStr "x")] ->
      Forall (fun c => exists s, c = PStr s /\ inert s = true)
        [PStr "noop"; PStr "-also"] ->
      exists w',
        _run_tasks Toy.ext Toy.wd Toy.config
          (PDict [("dependencies", PDict [("other", PStr "x")]);
                  ("tasks", PList [PStr "noop"; PStr "-also"])])
          Toy.world
        = (Ok (mkStats 2 1), w')
        /\ fs w' = fs Toy.world /\ calls w' = calls Toy.world).
Proof.
  apply (run_tasks_counts Toy.ext Toy.wd Toy.config
           (PDict [("dependencies", PDict [("other", PStr "x")]);
                   ("tasks", PList [PStr "noop"; PStr "-also"])])
           [("other", PStr "x")] [PStr "noop"; PStr "-also"] Toy.world);
    reflexivity.
Defined.

(** ** Cleaning *)

Lemma filtered_out_self : forall X : string,
  filtered_out (Some X) X = false.
Proof.
  intros X. unfold filtered_out. rewrite String.eqb_refl.
  now rewrite andb_false_r.
Qed.

Lemma filtered_out_other : forall X k : string,
  X <> EmptyString -> String.eqb X k = false ->
  filtered_out (Some X) k = true.
Proof.
  intros X k HX Hk. unfold filtered_out. rewrite Hk.
  apply String.eqb_neq in HX. now rewrite HX.
Qed.

(** The turn of a module whose name refers to a regular file. *)
Lemma clean_module_regular_file : forall wd specific_module X c content w,
  X <> EmptyString ->
  filtered_out specific_module X = false ->
  FS.lookup (FS.resolve wd X) (fs w) = Some (FS.File content) ->
  clean_module wd specific_module (X, c) w
  = (Raise (OSError "NotADirectoryError"), w).
Proof.
  intros wd specific_module X c content w HX Hf Hl.
  assert (N : no_name X = false) by (apply String.eqb_neq; exact HX).
  unfold clean_module. cbn [fst]. rewrite Hf.
  unfold bind at 1. unfold _remove_dir. unfold bind at 1.
  unfold os_path_exists at 1. unfold FS.exists_. rewrite N, Hl. cbn [negb andb].
  unfold bind at 1. unfold shutil_rmtree, fs_do, FS.rmtree. rewrite N, Hl.
  reflexivity.
Qed.

(** With a filter, the modules of another name are passed over. *)
Lemma clean_loop_finds : forall wd X items c w,
  X <> EmptyString ->
  assoc X items = Some c ->
  exists c' rest,
    clean_loop wd (Some X) items w
    = bind (clean_module wd (Some X) (X, c')) (fun _ => clean_loop wd (Some X) rest) w.
Proof.
  intros wd X items c w HX. induction items as [|[k v] items IH]; intros H.
  - discriminate.
  - cbn [assoc] in H. destruct (String.eqb X k) eqn:Q.
    + apply String.eqb_eq in Q. subst k. exists v, items. reflexivity.
    + destruct (IH H) as (c' & rest & R). exists c', rest.
      cbn [clean_loop]. unfold bind at 1. unfold clean_module at 1. cbn [fst].
      rewrite (filtered_out_other X k HX Q). unfold ret at 1. exact R.
Qed.

(** A file materialized by the single-file copy is a regular file. *)
Lemma materialize_isfile_leaves_file : forall wd module w w',
  truthy (PyModule.isfile module) = true ->
  materialize wd module w = (Ok tt, w') ->
  FS.isfile (FS.resolve wd (PyModule.name module)) (fs w') = true
  \/ fs w' = fs w.
Proof.
  intros wd module w w' Hi H. unfold materialize in H.
  unfold bind at 1 in H. unfold lift at 1 in H.
  destruct (from_path_of module) as [from_path|e]; [|discriminate].
  unfold bind at 1 in H. unfold os_path_exists at 1 in H.
  destruct (truthy (PyModule.path module) && _ || _).
  - rewrite Hi in H. left. bind_inv H. bind_inv H.
    unfold shutil_copyfile in H.
    destruct (no_name from_path); [discriminate|].
    unfold fs_do in H.
    destruct (no_name (PyModule.name module)); [discriminate|].
    destruct (FS.copyfile _ _ _) as [n|e] eqn:C; [|discriminate].
    injection H as <-. cbn [fs set_fs].
    destruct (copyfile_same _ _ _ _ C) as (c & _ & L).
    unfold FS.isfile. now rewrite L.
  - right. destruct (negb _).
    + unfold bind at 1 in H. unfold lift at 1 in H.
      destruct (py_format _ _); [|discriminate].
      unfold print in H. now injection H as <-.
    + unfold ret in H. now injection H as <-.
Qed.

(** C10: cleaning deletes a directory named after the module and nothing
    else.  When the name of the module refers to a regular file, as it does
    after vendoring with [isfile] true, the turn of that module raises
    [NotADirectoryError] and leaves everything as it was: the file is not
    removed, and a clean of that module ends with the error. *)
Theorem clean_fails_on_vendored_file :
  forall wd config items X c content w,
    py_get config "modules" PNone = Ok (PDict items) ->
    assoc X items = Some c ->
    X <> EmptyString ->
    FS.lookup (FS.resolve wd X) (fs w) = Some (FS.File content) ->
    (forall specific_module,
        filtered_out specific_module X = false ->
        clean_module wd specific_module (X, c) w
        = (Raise (OSError "NotADirectoryError"), w))
    /\ _clean_modules wd config (Some X) w = (Raise (OSError "NotADirectoryError"), w).
Proof.
  intros wd config items X c content w Hm Ha HX Hl. split.
  - intros specific_module Hf.
    apply (clean_module_regular_file wd specific_module X c content w HX Hf Hl).
  - unfold _clean_modules. unfold bind at 1. unfold lift at 1. rewrite Hm.
    unfold bind at 1. unfold lift at 1. cbn [py_items].
    destruct (clean_loop_finds wd X items c w HX Ha) as (c' & rest & R).
    rewrite R. unfold bind at 1.
    rewrite (clean_module_regular_file wd (Some X) X c' content w HX
               (filtered_out_self X) Hl).
    reflexivity.
Qed.

Lemma clean_fails_on_vendored_file_witness :
  (forall specific_module,
      filtered_out specific_module "readme" = false ->
      clean_module Toy.wd specific_module
        ("readme", PDict [("repository", PStr Toy.remote_url);
                          ("path", PStr "README"); ("isfile", PBool true)])
        ToyFile.fetched
      = (Raise (OSError "NotADirectoryError"), ToyFile.fetched))
  /\ _clean_modules Toy.wd ToyFile.config (Some "readme") ToyFile.fetched
     = (Raise (OSError "NotADirectoryError"), ToyFile.fetched).
Proof.
  apply (clean_fails_on_vendored_file Toy.wd ToyFile.config
           [("readme", PDict [("repository", PStr Toy.remote_url);
                              ("path", PStr "README"); ("isfile", PBool true)])]
           "readme"
           (PDict [("repository", PStr Toy.remote_url);
                   ("path", PStr "README"); ("isfile", PBool true)])
           "hello" ToyFile.fetched).
  - reflexivity.
  - reflexivity.
  - discriminate.
  - vm_compute. reflexivity.
Defined.

(** ** The forms [modules:<name>] and [-modules:<name>] *)

Lemma prefix_empty : forall s : string, prefix EmptyString s = true.
Proof. destruct s; reflexivity. Qed.

Lemma modules_prefix_found : forall X : string,
  PyStr.find ("modules:" ++ X) "modules:" = 0.
Proof.
  intros X. unfold PyStr.find.
  change ("modules:" ++ X) with
    (String "m" (String "o" (String "d" (String "u" (String "l"
      (String "e" (String "s" (String ":" X)))))))).
  cbn [PyStr.find_from].
  assert (P : prefix "modules:"
                (String "m" (String "o" (String "d" (String "u" (String "l"
                  (String "e" (String "s" (String ":" X)))))))) = true).
  { cbn. apply prefix_empty. }
  now rewrite P.
Qed.

Lemma modules_prefix_not_bare : forall X : string,
  String.eqb "modules" ("modules:" ++ X) = false
  /\ String.eqb ("modules:" ++ X) "modules" = false.
Proof. intros X. split; reflexivity. Qed.

(** The filter a task names is the text after [modules:] when that text has
    no further [modules:] in it. *)
Lemma replace_modules_prefix : forall X : string,
  PyStr.find X "modules:" = -1 ->
  PyStr.replace ("modules:" ++ X) "modules:" EmptyString = X.
Proof.
  intros X H. unfold PyStr.replace.
  change ("modules:" ++ X) with
    (String "m" (String "o" (String "d" (String "u" (String "l"
      (String "e" (String "s" (String ":" X)))))))).
  cbn [PyStr.replace_from].
  assert (P : prefix "modules:"
                (String "m" (String "o" (String "d" (String "u" (String "l"
                  (String "e" (String "s" (String ":" X)))))))) = true).
  { cbn. apply prefix_empty. }
  rewrite P. cbn [String.length Nat.pred PyStr.replace_from append].
  apply (replace_absent "modules:" EmptyString X 0); [lia | exact H].
Qed.

Lemma run_command_fetch_form : forall E wd config X w,
  PyStr.find X "modules:" = -1 ->
  run_command E wd config ("modules:" ++ X) w = _fetch_modules E wd config (Some X) w.
Proof.
  intros E wd config X w H.
  change ("modules:" ++ X) with (String "m" ("odules:" ++ X)).
  unfold run_command. change (Ascii.eqb "m" "-") with false. cbv iota.
  change (String "m" ("odules:" ++ X)) with ("modules:" ++ X).
  rewrite modules_prefix_found.
  destruct (modules_prefix_not_bare X) as [B1 B2]. rewrite B1, B2.
  change (0 =? 0) with true. cbn [orb andb negb].
  unfold bind at 1. unfold ret at 1.
  now rewrite (replace_modules_prefix X H).
Qed.

Lemma run_command_clean_form : forall E wd config X w,
  PyStr.find X "modules:" = -1 ->
  run_command E wd config ("-modules:" ++ X) w = _clean_modules wd config (Some X) w.
Proof.
  intros E wd config X w H.
  change ("-modules:" ++ X) with (String "-" ("modules:" ++ X)).
  unfold run_command. change (Ascii.eqb "-" "-") with true. cbv iota.
  rewrite slice_from_1.
  rewrite modules_prefix_found.
  destruct (modules_prefix_not_bare X) as [B1 B2]. rewrite B1, B2.
  change (0 =? 0) with true. cbn [orb andb negb].
  unfold bind at 1. unfold ret at 1.
  now rewrite (replace_modules_prefix X H).
Qed.

(** Once nothing is at [X], the modules named [X] have nothing to remove. *)
Lemma clean_loop_absent : forall wd X items w,
  X <> EmptyString ->
  FS.exists_ (FS.resolve wd X) (fs w) = false ->
  clean_loop wd (Some X) items w = (Ok tt, w).
Proof.
  intros wd X items w HX Hn. induction items as [|[k v] items IH].
  - reflexivity.
  - cbn [clean_loop]. unfold bind at 1. unfold clean_module at 1. cbn [fst].
    destruct (String.eqb X k) eqn:Q.
    + apply String.eqb_eq in Q. subst k. rewrite filtered_out_self.
      unfold bind at 1. unfold _remove_dir. unfold bind at 1.
      unfold os_path_exists at 1. rewrite Hn, andb_false_r.
      unfold ret at 1 2. exact IH.
    + rewrite (filtered_out_other X k HX Q). unfold ret at 1. exact IH.
Qed.

(** A clean of the module [X] when a directory is at [X]. *)
Lemma clean_modules_directory : forall wd config items X c w,
  py_get config "modules" PNone = Ok (PDict items) ->
  assoc X items = Some c ->
  X <> EmptyString ->
  FS.isdir (FS.resolve wd X) (fs w) = true ->
  FS.resolve wd X <> [] ->
  _clean_modules wd config (Some X) w
  = (Ok tt, mkWorld (FS.remove (FS.resolve wd X) (fs w))
              (stdout w ++ ["Cleaned " ++ X]) (stderr w) (calls w)).
Proof.
  intros wd config items X c w Hm Ha HX Hd Hr.
  assert (N : no_name X = false) by (apply String.eqb_neq; exact HX).
  unfold _clean_modules. unfold bind at 1. unfold lift at 1. rewrite Hm.
  unfold bind at 1. unfold lift at 1. cbn [py_items].
  destruct (clean_loop_finds wd X items c w HX Ha) as (c' & rest & R).
  rewrite R. unfold bind at 1. unfold clean_module at 1. cbn [fst].
  rewrite filtered_out_self. unfold bind at 1. unfold _remove_dir.
  unfold bind at 1. unfold os_path_exists at 1. rewrite N. cbn [negb andb].
  unfold FS.isdir in Hd. unfold FS.exists_.
  destruct (FS.lookup (FS.resolve wd X) (fs w)) as [[x|es]|] eqn:L; try discriminate.
  unfold bind at 1. unfold shutil_rmtree, fs_do, FS.rmtree. rewrite N, L.
  destruct (FS.resolve wd X) as [|k p] eqn:P; [congruence|].
  unfold ret at 1. unfold print at 1. cbn [fs set_fs stdout stderr calls].
  apply clean_loop_absent; [exact HX|]. cbn [fs]. rewrite P.
  unfold FS.exists_. rewrite lookup_remove_same; [reflexivity | discriminate].
Qed.

(** A clean of the module [X] that returns has left nothing at [X]. *)
Lemma clean_modules_ok_gone : forall wd config items X c w w',
  py_get config "modules" PNone = Ok (PDict items) ->
  assoc X items = Some c ->
  X <> EmptyString ->
  _clean_modules wd config (Some X) w = (Ok tt, w') ->
  FS.exists_ (FS.resolve wd X) (fs w') = false.
Proof.
  intros wd config items X c w w' Hm Ha HX H.
  unfold _clean_modules in H. unfold bind at 1 in H. unfold lift at 1 in H.
  rewrite Hm in H. unfold bind at 1 in H. unfold lift at 1 in H.
  cbn [py_items] in H.
  destruct (clean_loop_finds wd X items c w HX Ha) as (c' & rest & R).
  rewrite R in H. bind_inv H. unfold clean_module in H0. cbn [fst] in H0.
  rewrite filtered_out_self in H0. bind_inv H0.
  destruct (remove_dir_ok _ _ _ _ _ HX H1) as (G & _).
  assert (G0 : FS.exists_ (FS.resolve wd X) (fs w0) = false).
  { destruct a0.
    - unfold print in H0. injection H0 as _ <-. exact G.
    - unfold ret in H0. injection H0 as _ <-. exact G. }
  rewrite (clean_loop_absent wd X rest w0 HX G0) in H.
  injection H as <-. exact G0.
Qed.




(** ** A vendoring pass and the destination of a module *)

Lemma from_path_of_eq : forall module,
  from_path_of module = Ok (source_path module).
Proof.
  intros module. unfold from_path_of, source_path, modules.
  cbn. now rewrite append_empty_r.
Qed.

Lemma source_path_named : forall module, no_name (source_path module) = false.
Proof. reflexivity. Qed.

Lemma resolve_git_modules : forall wd : FS.path,
  FS.resolve wd ".git/modules/" = (wd ++ [".git"; "modules"])%list.
Proof.
  intros wd. unfold FS.resolve.
  change (prefix "/" ".git/modules/") with false. cbv iota.
  change (PyStr.split "/" ".git/modules/") with [".git"; "modules"; EmptyString].
  cbn [FS.walk String.eqb orb].
  change (FS.walk (rev wd) [".git"; "modules"] = (wd ++ [".git"; "modules"])%list).
  rewrite walk_push; [now rewrite rev_involutive|].
  repeat constructor.
Qed.

Lemma resolve_quack_modules : forall wd : FS.path,
  FS.resolve wd modules = (wd ++ [".quack"; "modules"])%list.
Proof.
  intros wd. unfold FS.resolve, modules.
  change (prefix "/" ".quack/modules") with false. cbv iota.
  change (PyStr.split "/" ".quack/modules") with [".quack"; "modules"].
  rewrite walk_push; [now rewrite rev_involutive|].
  repeat constructor.
Qed.

(** What a pass does before the first module: afterwards no submodule
    metadata is left and the private working area exists; the rest of the
    file system is as before. *)
Lemma fetch_prologue_ok : forall E wd config w ignore_list w',
  fetch_prologue E wd config w = (Ok ignore_list, w') ->
  FS.exists_ (FS.resolve wd ".git/modules/") (fs w') = false
  /\ FS.exists_ (FS.resolve wd modules) (fs w') = true
  /\ (forall q, FS.apart q (FS.resolve wd ".git/modules/") = true ->
                FS.apart q (FS.resolve wd modules) = true ->
                FS.lookup q (fs w') = FS.lookup q (fs w)).
Proof.
  intros E wd config w ignore_list w' H. unfold fetch_prologue in H.
  bind_inv H. bind_inv H.
  assert (N1 : ".git/modules/" <> EmptyString) by discriminate.
  assert (N2 : modules <> EmptyString) by discriminate.
  destruct (remove_dir_ok wd ".git/modules/" w a w0 N1 H0) as (G1 & F1 & _).
  destruct a0.
  destruct (create_dir_ok wd modules w0 w1 N2 H1) as (G2 & F2 & _).
  assert (T : fs w' = fs w1).
  { unfold bind at 1 in H. unfold lift at 1 in H.
    destruct (py_get config "gitignore" PNone) as [g|e]; [|discriminate].
    unfold bind at 1 in H. unfold os_path_isfile at 1 in H.
    unfold bind at 1 in H.
    destruct (truthy g && _).
    - unfold bind at 1 in H. unfold read_file at 1 in H.
      change (no_name ".gitignore") with false in H. cbv iota in H.
      destruct (FS.lookup (FS.resolve wd ".gitignore") (fs w1)) as [[c|es]|];
        try discriminate.
      unfold ret at 1 in H. unfold bind, git_Repo_, ret in H.
      destruct (git_Repo E "." wd (fs w1)); [|discriminate].
      injection H as _ <-. reflexivity.
    - unfold ret at 1 in H. unfold bind, git_Repo_, ret in H.
      destruct (git_Repo E "." wd (fs w1)); [|discriminate].
      injection H as _ <-. reflexivity. }
  rewrite T. split; [|split].
  - unfold FS.exists_. rewrite F2; [exact G1|].
    rewrite resolve_quack_modules, resolve_git_modules, apart_app. reflexivity.
  - exact G2.
  - intros q A1 A2. rewrite F2 by (rewrite apart_sym; exact A2).
    apply F1. rewrite apart_sym. exact A1.
Qed.

Tactic Notation "bind_inv" hyp(H) "as" simple_intropattern(a) ident(w) ident(H1) :=
  apply bind_ok in H; destruct H as (a & w & H1 & H).

Lemma nice_call_ok : forall E wd command dir w w',
  _nice_call E wd command dir w = (Ok tt, w') ->
  exists r n', popen E command dir wd (fs w) = Ok (r, n') /\ fs w' = n'.
Proof.
  intros E wd command dir w w' H. unfold _nice_call in H.
  unfold bind at 1 in H. unfold os_getcwd, ret at 1 in H.
  unfold bind at 1 in H. unfold lift at 1 in H.
  destruct (py_format "Executing %r in %s..." _) as [line|e]; [|discriminate].
  unfold bind at 1 in H. unfold print at 1 in H.
  unfold bind at 1 in H. unfold subprocess_run at 1 in H. cbn [fs log_call] in H.
  destruct (popen E command dir wd (fs w)) as [[[[status out] err] n]|e];
    [|discriminate].
  exists (status, out, err), n. split; [reflexivity|].
  destruct (status =? 0).
  - unfold bind at 1 in H. unfold lift at 1 in H.
    destruct (py_format _ [PBytes out]); [|discriminate].
    unfold print in H. injection H as <-. reflexivity.
  - unfold bind at 1 in H. unfold lift at 1 in H.
    rewrite format_command_failed in H. discriminate.
Qed.

Lemma checkout_ok : forall E wd module sha w target w',
  checkout E wd module sha w = (Ok target, w') ->
  truthy (PyModule.tag module) = false
  /\ truthy (PyModule.hexsha module) = false
  /\ target = PStr sha /\ w' = w.
Proof.
  intros E wd module sha w target w' H.
  destruct (truthy (PyModule.tag module)) eqn:T.
  - rewrite (checkout_tag_unbound E wd module sha w T) in H. discriminate.
  - destruct (truthy (PyModule.hexsha module)) eqn:Hx.
    + rewrite (checkout_hexsha_unbound E wd module sha w T Hx) in H. discriminate.
    + rewrite (checkout_unpinned E wd module sha w T Hx) in H.
      injection H as <- <-. repeat split; reflexivity.
Qed.

Lemma py_get_modules_default : forall config items default,
  py_get config "modules" PNone = Ok (PDict items) ->
  py_get config "modules" default = Ok (PDict items).
Proof.
  intros config items default H. destruct config; try discriminate.
  cbn [py_get] in *. destruct (assoc "modules" d); [exact H | discriminate].
Qed.

(** The module [X], configured by [d], in a pass filtered on [X]; [source]
    is what the clone puts at the source path of the module. *)
Section Destination.

Variable E : Ext.
Variable wd : FS.path.
Variable config : pyval.
Variable X : string.
Variable d : list (string * pyval).
Variable source : option FS.node.

Local Abbreviation module := (PyModule.of_dict X d).
Local Abbreviation dest := (FS.resolve wd X).

Hypothesis named : X <> EmptyString.
Hypothesis clear : destination_clear wd module = true.

Lemma clear_parts :
  FS.apart dest (FS.resolve wd ".git/modules/") = true
  /\ FS.apart dest (FS.resolve wd modules) = true
  /\ FS.apart dest (FS.resolve wd ".gitignore") = true
  /\ FS.apart dest (FS.resolve wd (source_path module)) = true.
Proof.
  pose proof clear as C. unfold destination_clear, managed_paths in C.
  cbn [forallb PyModule.name PyModule.of_dict] in C.
  repeat (apply andb_true_iff in C; destruct C as [? C]).
  repeat split; assumption.
Qed.

Lemma named_no_name : no_name X = false.
Proof. apply String.eqb_neq. exact named. Qed.

(** The copy step: the destination is replaced by the copy, whatever was
    there, or left alone when the step does not run. *)
Lemma materialize_dest : forall w w',
  FS.lookup (FS.resolve wd (source_path module)) (fs w) = source ->
  materialize wd module w = (Ok tt, w') ->
  FS.lookup dest (fs w') =
  if copies module source then vendored module source else FS.lookup dest (fs w).
Proof.
  intros w w' Hs H.
  destruct clear_parts as (_ & _ & _ & As).
  pose proof named_no_name as N.
  unfold materialize in H. rewrite from_path_of_eq in H.
  unfold bind at 1 in H. unfold lift at 1 in H.
  unfold bind at 1 in H. unfold os_path_exists at 1 in H.
  rewrite source_path_named in H. cbn [negb andb] in H.
  unfold FS.exists_ in H. rewrite Hs in H.
  unfold copies.
  change (PyModule.name module) with X in H.
  destruct (truthy (PyModule.path module)
            && match source with Some _ => true | None => false end
            || negb (truthy (PyModule.path module))) eqn:C.
  - unfold vendored. destruct (truthy (PyModule.isfile module)) eqn:I.
    + bind_inv H as f wa Hf. bind_inv H as u wb Hr.
      assert (Sb : FS.lookup (FS.resolve wd (source_path module)) (fs wb) = source).
      { unfold os_path_isfile in Hf. injection Hf as <- <-.
        destruct (negb (no_name X) && FS.isfile dest (fs w)).
        - unfold os_remove, fs_do in Hr. rewrite N in Hr.
          destruct (FS.unlink dest (fs w)) as [n|e] eqn:U; [|discriminate].
          injection Hr as _ <-. cbn [fs set_fs].
          rewrite (unlink_apart _ _ _ _ As U). exact Hs.
        - unfold ret in Hr. injection Hr as _ <-. exact Hs. }
      unfold shutil_copyfile in H. rewrite source_path_named in H.
      unfold fs_do in H. rewrite N in H.
      destruct (FS.copyfile _ dest (fs wb)) as [n|e] eqn:Cp; [|discriminate].
      injection H as <-. cbn [fs set_fs].
      destruct (copyfile_same _ _ _ _ Cp) as (c & L1 & L2).
      rewrite Sb in L1. rewrite L1. exact L2.
    + bind_inv H as b wb Hr.
      destruct (remove_dir_ok wd X w b wb named Hr) as (_ & Fr & _).
      unfold shutil_copytree_ignore_git in H. rewrite source_path_named in H.
      unfold fs_do in H. rewrite N in H.
      destruct (FS.copytree _ dest (fs wb)) as [n|e] eqn:Cp; [|discriminate].
      injection H as <-. cbn [fs set_fs].
      destruct (copytree_same _ _ _ _ Cp) as (es & L1 & L2).
      rewrite (Fr _ As), Hs in L1. rewrite L1. exact L2.
  - destruct (negb match source with Some _ => true | None => false end).
    + unfold bind at 1 in H. unfold lift at 1 in H.
      destruct (py_format _ _); [|discriminate].
      unfold print in H. injection H as <-. reflexivity.
    + unfold ret in H. injection H as <-. reflexivity.
Qed.

(** The turn of a module of another name, under the filter [X]. *)
Lemma fetch_module_other : forall ignore_list k v w ignore_list' w',
  k <> X ->
  fetch_module E wd config (Some X) ignore_list (k, v) w = (Ok ignore_list', w') ->
  ignore_list' = ignore_list /\ w' = w.
Proof.
  intros ignore_list k v w ignore_list' w' Hk H.
  unfold fetch_module in H. cbn [fst snd] in H.
  bind_inv H as m wa Hc.
  destruct (from_config_ok _ _ _ _ _ Hc) as (d' & Hd & -> & ->).
  change (PyModule.name (PyModule.of_dict k d')) with k in H.
  assert (Q : String.eqb X k = false) by (apply String.eqb_neq; congruence).
  rewrite (filtered_out_other X k named Q) in H.
  unfold ret in H. split; congruence.
Qed.

Lemma fetch_loop_others : forall items ignore_list w w',
  ~ In X (map fst items) ->
  fetch_loop E wd config (Some X) ignore_list items w = (Ok tt, w') ->
  w' = w.
Proof.
  induction items as [|[k v] items IH]; intros ignore_list w w' Hn H.
  - unfold fetch_loop, ret in H. congruence.
  - cbn [fetch_loop] in H. bind_inv H as il wa Hm.
    cbn [map fst In] in Hn.
    destruct (fetch_module_other ignore_list k v w il wa) as [-> ->];
      [intros ->; apply Hn; now left | exact Hm |].
    apply (IH ignore_list w w'); [intros I; apply Hn; now right | exact H].
Qed.

End Destination.

(** ** Creating a directory *)

Lemma creatable_install : forall (p : FS.path) (leaf n : FS.node),
  FS.creatable p n = true -> exists n', FS.install p leaf n = Ok n'.
Proof.
  induction p as [|c p IH]; intros leaf n H; [discriminate H|].
  destruct n as [x|es]; [discriminate H|].
  cbn [FS.creatable] in H. cbn [FS.install].
  destruct (assoc c es) as [sub|]; [|eexists; reflexivity].
  destruct (IH leaf sub H) as (sub' & ->). eexists. reflexivity.
Qed.

Lemma creatable_none : forall (p : FS.path) (n : FS.node),
  FS.creatable p n = true -> FS.lookup p n = None.
Proof.
  induction p as [|c p IH]; intros n H; [discriminate H|].
  destruct n as [x|es]; [reflexivity|].
  cbn [FS.creatable] in H. cbn [FS.lookup].
  destruct (assoc c es) as [sub|]; [now apply IH | reflexivity].
Qed.

(** Where a directory has just been removed, one can be created. *)
Lemma creatable_after_remove : forall (p : FS.path) (n : FS.node),
  FS.exists_ p n = true -> p <> [] -> FS.creatable p (FS.remove p n) = true.
Proof.
  induction p as [|c p IH]; intros n H Hp; [congruence|].
  unfold FS.exists_ in H. destruct n as [x|es]; [discriminate H|].
  cbn [FS.lookup] in H. destruct (assoc c es) as [sub|] eqn:A; [|discriminate H].
  destruct p as [|c' p'].
  - cbn [FS.remove FS.creatable]. now rewrite assoc_del_same.
  - cbn [FS.remove]. rewrite A. cbn [FS.creatable]. rewrite assoc_set_same.
    apply IH; [exact H | discriminate].
Qed.

(** ** However a step ends *)

Lemma bind_any : forall (A B : Type) (m : M A) (k : A -> M B) w r w',
  bind m k w = (r, w') ->
  (exists e, m w = (Raise e, w') /\ r = Raise e)
  \/ (exists a w1, m w = (Ok a, w1) /\ k a w1 = (r, w')).
Proof.
  intros A B m k w r w' H. unfold bind in H.
  destruct (m w) as [[a|e] w1].
  - right. now exists a, w1.
  - left. exists e. injection H as <- <-. split; reflexivity.
Qed.

Lemma fs_do_any : forall wd op p w r w',
  fs_do wd op p w = (r, w') ->
  fs w' = fs w \/ op (FS.resolve wd p) (fs w) = Ok (fs w').
Proof.
  intros wd op p w r w' H. unfold fs_do in H.
  destruct (no_name p); [injection H as _ <-; now left|].
  destruct (op (FS.resolve wd p) (fs w)) as [n|e] eqn:O.
  - injection H as _ <-. now right.
  - injection H as _ <-. now left.
Qed.

(** The module [X], configured by [d] with the repository [url], a
    directory copy that pins neither a tag nor a commit, in a pass filtered
    on [X]. *)
Section Passes.

Variable E : Ext.
Variable wd : FS.path.
Variable config : pyval.
Variable X : string.
Variable d : list (string * pyval).
Variable url : string.

Local Abbreviation module := (PyModule.of_dict X d).
Local Abbreviation dest := (FS.resolve wd X).
Local Abbreviation checkout_dir := (modules ++ "/" ++ X).
Local Abbreviation source_dir := (FS.resolve wd (source_path module)).

Hypothesis plain : plain_name X = true.
Hypothesis task_name : PyStr.find X "modules:" = -1.
Hypothesis clear : destination_clear wd module = true.
Hypothesis repository_url : assoc "repository" d = Some (PStr url).
Hypothesis keys : forallb (fun kv => PyStr.mem (fst kv) PyModule.keywords) d = true.
Hypothesis no_tag : truthy (PyModule.tag module) = false.
Hypothesis no_hexsha : truthy (PyModule.hexsha module) = false.
Hypothesis directory : truthy (PyModule.isfile module) = false.
Hypothesis remove_quiet :
  forall n n',
    submodule_remove E X checkout_dir wd n = Ok n' -> untouched dest n n'.
Hypothesis popen_quiet :
  forall command n r n',
    popen E command None wd n = Ok (r, n') -> untouched dest n n'.

Lemma from_config_X : forall w,
  PyModule.from_config X (PDict d) w = (Ok module, w).
Proof.
  intros w. cbn [PyModule.from_config]. rewrite repository_url.
  unfold PyModule.init. rewrite keys. reflexivity.
Qed.

(** A command leaves the destination alone, however it ends. *)
Lemma nice_call_dest : forall command w r w',
  _nice_call E wd command None w = (r, w') ->
  FS.lookup dest (fs w') = FS.lookup dest (fs w).
Proof.
  intros command w r w' H. unfold _nice_call in H.
  unfold bind at 1 in H. unfold os_getcwd, ret at 1 in H.
  unfold bind at 1 in H. unfold lift at 1 in H.
  destruct (py_format "Executing %r in %s..." _) as [line|e];
    [|injection H as _ <-; reflexivity].
  unfold bind at 1 in H. unfold print at 1 in H.
  unfold bind at 1 in H. unfold subprocess_run at 1 in H. cbn [fs log_call] in H.
  destruct (popen E command None wd (fs w)) as [[[[status out] err] n]|e] eqn:P;
    [|injection H as _ <-; reflexivity].
  pose proof (popen_quiet _ _ _ _ P) as Q. unfold untouched in Q.
  destruct (status =? 0).
  - unfold bind at 1 in H. unfold lift at 1 in H.
    destruct (py_format _ [PBytes out]) as [line2|e];
      [unfold print in H|]; injection H as _ <-; exact Q.
  - unfold bind at 1 in H. unfold lift at 1 in H.
    rewrite format_command_failed in H. injection H as _ <-. exact Q.
Qed.

(** Dropping the submodule registration leaves the destination alone,
    however it ends. *)
Lemma detach_dest : forall w r w',
  detach E wd module w = (r, w') ->
  FS.lookup dest (fs w') = FS.lookup dest (fs w).
Proof.
  intros w r w' H. unfold detach in H.
  change (PyModule.name module) with X in H.
  apply bind_any in H. destruct H as [(e & H & _)|(u & wa & Hr & H)].
  - unfold sub_module_remove in H. cbn [fs log_call] in H.
    destruct (submodule_remove E X checkout_dir wd (fs w)) as [n|e'];
      [discriminate H | injection H as _ <-; reflexivity].
  - assert (Fa : FS.lookup dest (fs wa) = FS.lookup dest (fs w)).
    { unfold sub_module_remove in Hr. cbn [fs log_call] in Hr.
      destruct (submodule_remove E X checkout_dir wd (fs w)) as [n|e] eqn:R;
        [|discriminate].
      injection Hr as _ <-. cbn [fs set_fs]. exact (remove_quiet _ _ R). }
    unfold bind at 1 in H. unfold os_path_isfile at 1 in H.
    destruct (negb (no_name ".gitmodules") && _).
    + apply bind_any in H. destruct H as [(e & H & _)|(u1 & wb & H1 & H)].
      * now rewrite (nice_call_dest _ _ _ _ H).
      * now rewrite (nice_call_dest _ _ _ _ H), (nice_call_dest _ _ _ _ H1).
    + unfold ret in H. injection H as _ <-. exact Fa.
Qed.

(** Appending to the ignore file leaves the destination alone, however it
    ends. *)
Lemma ignore_dest : forall ignore_list w r w',
  ignore wd config module ignore_list w = (r, w') ->
  FS.lookup dest (fs w') = FS.lookup dest (fs w).
Proof.
  intros ignore_list w r w' H.
  assert (Ai : FS.apart (FS.resolve wd ".gitignore") dest = true).
  { pose proof clear as C. unfold destination_clear, managed_paths in C.
    cbn [forallb PyModule.name PyModule.of_dict] in C.
    repeat (apply andb_true_iff in C; destruct C as [? C]).
    now rewrite apart_sym. }
  unfold ignore in H. unfold bind at 1 in H. unfold lift at 1 in H.
  destruct (py_get config "gitignore" PNone) as [g|e];
    [|injection H as _ <-; reflexivity].
  destruct (truthy g); [|unfold ret in H; injection H as _ <-; reflexivity].
  apply bind_any in H. destruct H as [(e & H & _)|(u & wa & Ho & H)].
  - destruct (fs_do_any _ _ _ _ _ _ H) as [->|O]; [reflexivity|].
    exact (open_append_apart _ _ _ _ Ai O).
  - assert (Fa : FS.lookup dest (fs wa) = FS.lookup dest (fs w)).
    { destruct (fs_do_any _ _ _ _ _ _ Ho) as [->|O]; [reflexivity|].
      exact (open_append_apart _ _ _ _ Ai O). }
    destruct (negb (PyStr.mem (PyModule.name module) ignore_list)).
    + apply bind_any in H. destruct H as [(e & H & _)|(u1 & wb & Hw & H)].
      * destruct (fs_do_any _ _ _ _ _ _ H) as [->|O]; [exact Fa|].
        now rewrite (append_apart _ _ _ _ _ Ai O).
      * unfold ret in H. injection H as _ <-.
        destruct (fs_do_any _ _ _ _ _ _ Hw) as [->|O]; [exact Fa|].
        now rewrite (append_apart _ _ _ _ _ Ai O).
    + unfold ret in H. injection H as _ <-. exact Fa.
Qed.

(** The copy step replaces a directory at the destination, and fills a
    destination that can be created: in both cases it completes, and the
    destination is then the source tree without its [.git*] entries. *)
Lemma materialize_replaces : forall w es,
  FS.lookup source_dir (fs w) = Some (FS.Dir es) ->
  FS.isdir dest (fs w) = true \/ FS.creatable dest (fs w) = true ->
  exists w',
    materialize wd module w = (Ok tt, w')
    /\ FS.lookup dest (fs w') = Some (FS.strip_git (FS.Dir es)).
Proof.
  intros w es Hs Hd.
  pose proof (plain_name_named X plain) as named.
  assert (N : no_name X = false) by (apply String.eqb_neq; exact named).
  pose proof (resolve_plain_not_root wd X plain) as Hr.
  assert (As : FS.apart dest source_dir = true).
  { pose proof clear as C. unfold destination_clear, managed_paths in C.
    cbn [forallb PyModule.name PyModule.of_dict] in C.
    repeat (apply andb_true_iff in C; destruct C as [? C]). assumption. }
  unfold materialize. rewrite from_path_of_eq.
  unfold bind at 1. unfold lift at 1.
  unfold bind at 1. unfold os_path_exists at 1.
  rewrite source_path_named. cbn [negb andb]. unfold FS.exists_ at 1. rewrite Hs.
  assert (C : truthy (PyModule.path module) && true
              || negb (truthy (PyModule.path module)) = true)
    by (destruct (truthy (PyModule.path module)); reflexivity).
  rewrite C, directory. change (PyModule.name module) with X.
  assert (R : exists b wb,
             _remove_dir wd X w = (Ok b, wb)
             /\ FS.creatable dest (fs wb) = true
             /\ FS.lookup source_dir (fs wb) = Some (FS.Dir es)).
  { unfold _remove_dir. unfold bind at 1. unfold os_path_exists at 1.
    rewrite N. cbn [negb andb]. destruct Hd as [Hd|Hd].
    - unfold FS.isdir in Hd. unfold FS.exists_.
      destruct (FS.lookup dest (fs w)) as [[x|ds]|] eqn:L; try discriminate Hd.
      unfold bind at 1. unfold shutil_rmtree, fs_do, FS.rmtree. rewrite N, L.
      destruct dest as [|c q] eqn:Dq; [congruence|].
      unfold ret. eexists _, _. split; [reflexivity|]. cbn [fs set_fs].
      split.
      + apply creatable_after_remove; [|discriminate].
        unfold FS.exists_. now rewrite L.
      + rewrite lookup_remove_apart; [exact Hs | exact As].
    - unfold FS.exists_. rewrite (creatable_none _ _ Hd). unfold ret.
      eexists _, _. split; [reflexivity|]. split; assumption. }
  destruct R as (b & wb & Hrm & Cr & Sb).
  rewrite (bind_step _ Hrm).
  unfold shutil_copytree_ignore_git. rewrite source_path_named.
  unfold fs_do. rewrite N. unfold FS.copytree. rewrite Sb.
  destruct (creatable_install dest (FS.strip_git (FS.Dir es)) (fs wb) Cr) as (n' & I).
  rewrite I. eexists. split; [reflexivity|]. cbn [fs set_fs].
  exact (lookup_install_same _ _ _ _ I).
Qed.

(** The turn of the module [X]: once the clone has delivered a directory at
    the source path, the turn copies it, and however the turn ends after
    that, the destination is the copy. *)
Lemma turn_of_module : forall ignore_list w sha n es r w',
  create_submodule E X checkout_dir url (PyModule.branch module) wd (fs w) = Ok (sha, n) ->
  FS.lookup source_dir n = Some (FS.Dir es) ->
  FS.isdir dest n = true \/ FS.creatable dest n = true ->
  fetch_module E wd config (Some X) ignore_list (X, PDict d) w = (r, w') ->
  FS.lookup dest (fs w') = Some (FS.strip_git (FS.Dir es)).
Proof.
  intros il w sha n es r w' Hc Hs Hd H.
  unfold fetch_module in H. cbn [fst snd] in H.
  rewrite (bind_step _ (from_config_X w)) in H.
  change (PyModule.name module) with X in H. rewrite filtered_out_self in H.
  rewrite no_tag in H. cbn [andb] in H.
  assert (Ru : PyModule.repository module = PStr url).
  { cbn [PyModule.repository PyModule.of_dict]. unfold PyModule.field.
    now rewrite repository_url. }
  rewrite Ru in H.
  unfold bind at 1 in H. unfold print at 1 in H.
  unfold bind at 1 in H. unfold repo_create_submodule at 1 in H.
  cbn [fs log_call] in H. rewrite Hc in H.
  unfold bind at 1 in H. rewrite (checkout_unpinned E wd module sha _ no_tag no_hexsha) in H.
  match type of H with
  | bind (materialize wd module) _ ?w4 = _ =>
      destruct (materialize_replaces w4 es Hs Hd) as (wm & Hm & Ld)
  end.
  rewrite (bind_step _ Hm) in H. rewrite <- Ld.
  apply bind_any in H. destruct H as [(e & H & _)|(u & w7 & H7 & H)].
  - exact (detach_dest _ _ _ H).
  - rewrite <- (detach_dest _ _ _ H7).
    unfold bind at 1 in H. unfold lift at 1 in H.
    destruct (py_format "Cloned: %s (%s)" _) as [line|e];
      [|injection H as _ <-; reflexivity].
    unfold bind at 1 in H. unfold print at 1 in H.
    now rewrite (ignore_dest _ _ _ _ H).
Qed.

(** The turn of a module of another name, under the filter [X]. *)
Lemma turn_of_other : forall ignore_list k v w,
  k <> X -> well_formed v = true ->
  fetch_module E wd config (Some X) ignore_list (k, v) w = (Ok ignore_list, w).
Proof.
  intros il k v w Hk Hv. unfold fetch_module. cbn [fst snd].
  destruct v as [| | | | | |c]; try discriminate Hv.
  cbn [well_formed] in Hv. apply andb_true_iff in Hv. destruct Hv as [Hr Hks].
  unfold bind at 1. cbn [PyModule.from_config].
  destruct (assoc "repository" c); [|discriminate Hr].
  unfold PyModule.init. rewrite Hks. unfold ret at 1.
  change (PyModule.name (PyModule.of_dict k c)) with k.
  assert (Q : String.eqb X k = false) by (apply String.eqb_neq; congruence).
  now rewrite (filtered_out_other X k (plain_name_named X plain) Q).
Qed.

Lemma turn_of_other_fs : forall ignore_list k v w r w',
  k <> X ->
  fetch_module E wd config (Some X) ignore_list (k, v) w = (r, w') ->
  fs w' = fs w.
Proof.
  intros il k v w r w' Hk H. unfold fetch_module in H. cbn [fst snd] in H.
  apply bind_any in H. destruct H as [(e & H & _)|(m & wa & Hc & H)].
  - destruct v as [| | | | | |c]; cbn [PyModule.from_config] in H;
      try (injection H as _ <-; reflexivity).
    destruct (assoc "repository" c).
    + unfold PyModule.init in H. destruct (forallb _ c); [discriminate H|].
      injection H as _ <-. reflexivity.
    + unfold bind, sys_stderr_write, sys_exit, raise in H.
      injection H as _ <-. reflexivity.
  - destruct (from_config_ok _ _ _ _ _ Hc) as (d' & Hd & -> & ->).
    change (PyModule.name (PyModule.of_dict k d')) with k in H.
    assert (Q : String.eqb X k = false) by (apply String.eqb_neq; congruence).
    rewrite (filtered_out_other X k (plain_name_named X plain) Q) in H.
    unfold ret in H. now injection H as _ <-.
Qed.

Lemma loop_of_others_fs : forall items ignore_list w r w',
  ~ In X (map fst items) ->
  fetch_loop E wd config (Some X) ignore_list items w = (r, w') ->
  fs w' = fs w.
Proof.
  induction items as [|[k v] items IH]; intros il w r w' Hn H.
  - unfold fetch_loop, ret in H. now injection H as _ <-.
  - cbn [fetch_loop] in H. cbn [map fst In] in Hn.
    assert (Hk : k <> X) by (intros ->; apply Hn; now left).
    apply bind_any in H. destruct H as [(e & H & _)|(il' & wa & Hm & H)].
    + exact (turn_of_other_fs _ _ _ _ _ _ Hk H).
    + rewrite (IH il' wa r w'); [|intros I; apply Hn; now right | exact H].
      exact (turn_of_other_fs _ _ _ _ _ _ Hk Hm).
Qed.

Lemma loop_with_module : forall items ignore_list w sha n es r w',
  NoDup (map fst items) ->
  In (X, PDict d) items ->
  forallb (fun item => well_formed (snd item)) items = true ->
  create_submodule E X checkout_dir url (PyModule.branch module) wd (fs w) = Ok (sha, n) ->
  FS.lookup source_dir n = Some (FS.Dir es) ->
  FS.isdir dest n = true \/ FS.creatable dest n = true ->
  fetch_loop E wd config (Some X) ignore_list items w = (r, w') ->
  FS.lookup dest (fs w') = Some (FS.strip_git (FS.Dir es)).
Proof.
  induction items as [|[k v] items IH];
    intros il w sha n es r w' Hnd Hin Hwf Hc Hs Hd H; [contradiction|].
  cbn [map fst] in Hnd. inversion Hnd as [|? ? Hk Hnd']; subst.
  cbn [forallb snd] in Hwf. apply andb_true_iff in Hwf. destruct Hwf as [Hv Hwf].
  cbn [fetch_loop] in H.
  destruct (string_dec k X) as [->|Hne].
  - assert (v = PDict d).
    { destruct Hin as [Q|Q]; [congruence|].
      exfalso. apply Hk. apply (in_map fst) in Q. exact Q. }
    subst v.
    apply bind_any in H. destruct H as [(e & H & _)|(il' & wa & Hm & H)].
    + exact (turn_of_module _ _ _ _ _ _ _ Hc Hs Hd H).
    + rewrite (loop_of_others_fs items il' wa r w' Hk H).
      exact (turn_of_module _ _ _ _ _ _ _ Hc Hs Hd Hm).
  - rewrite (bind_step _ (turn_of_other il k v w Hne Hv)) in H.
    apply (IH il w sha n es r w' Hnd'); try assumption.
    destruct Hin as [Q|Q]; [congruence | exact Q].
Qed.

(** A pass filtered on [X], from its preparation on. *)
Lemma pass_with_module : forall items w ignore_list wp sha n es r w',
  py_get config "modules" PNone = Ok (PDict items) ->
  NoDup (map fst items) ->
  In (X, PDict d) items ->
  forallb (fun item => well_formed (snd item)) items = true ->
  fetch_prologue E wd config w = (Ok ignore_list, wp) ->
  create_submodule E X checkout_dir url (PyModule.branch module) wd (fs wp) = Ok (sha, n) ->
  FS.lookup source_dir n = Some (FS.Dir es) ->
  FS.isdir dest n = true \/ FS.creatable dest n = true ->
  _fetch_modules E wd config (Some X) w = (r, w') ->
  FS.lookup dest (fs w') = Some (FS.strip_git (FS.Dir es)).
Proof.
  intros items w il wp sha n es r w' Hm Hnd Hin Hwf Hp Hc Hs Hd H.
  unfold _fetch_modules in H. unfold bind at 1 in H. unfold lift at 1 in H.
  rewrite Hm in H.
  assert (T : truthy (PDict items) = true) by (destruct items; [contradiction | reflexivity]).
  rewrite T in H. cbn [negb] in H.
  rewrite (bind_step _ Hp) in H.
  unfold _iter_modules in H. unfold bind at 1 2 in H. unfold lift at 1 in H.
  rewrite (py_get_modules_default config items (PDict []) Hm) in H.
  unfold lift at 1 in H. cbn [py_items] in H.
  exact (loop_with_module items il wp sha n es r w' Hnd Hin Hwf Hc Hs Hd H).
Qed.


End Passes.

(** The collaborators of the small world leave the destination of [lib]
    alone. *)
Lemma toy_remove : forall n n',
  submodule_remove Toy.ext "lib" (modules ++ "/" ++ "lib") Toy.wd n = Ok n' ->
  untouched (FS.resolve Toy.wd "lib") n n'.
Proof.
  intros n n' H. unfold Toy.ext in H. cbn [submodule_remove] in H.
  assert (A : FS.apart (FS.resolve Toy.wd (modules ++ "/" ++ "lib"))
                (FS.resolve Toy.wd "lib") = true) by reflexivity.
  assert (B : FS.apart (FS.resolve Toy.wd ".gitmodules") (FS.resolve Toy.wd "lib") = true)
    by reflexivity.
  destruct (FS.rmtree _ n) as [n1|e] eqn:R; [|discriminate H].
  unfold untouched. rewrite (lookup_write_file_apart _ _ _ _ _ B H).
  exact (rmtree_apart _ _ _ _ A R).
Qed.

Lemma toy_popen : forall command n r n',
  popen Toy.ext command None Toy.wd n = Ok (r, n') ->
  untouched (FS.resolve Toy.wd "lib") n n'.
Proof.
  intros command n r n' H. unfold Toy.ext in H. cbn [popen] in H.
  unfold untouched.
  destruct (PyStr.has_char " " command); [discriminate H|].
  destruct (String.eqb command "false"); injection H as _ <-; reflexivity.
Qed.


(* ================================================================== *)
(** * Further properties of the program *)

(** ** Strings: searching for one character, slices of a concatenation *)

Lemma length_app : forall a b : string,
  String.length (a ++ b) = (String.length a + String.length b)%nat.
Proof.
  induction a as [|c a IH]; intros b; simpl; [reflexivity | now rewrite IH].
Qed.

Lemma len_app : forall a b : string, PyStr.len (a ++ b) = PyStr.len a + PyStr.len b.
Proof. intros a b. unfold PyStr.len. rewrite length_app. lia. Qed.

Lemma len_nonneg : forall a : string, 0 <= PyStr.len a.
Proof. intros a. unfold PyStr.len. lia. Qed.

Lemma len_cons : forall (c : ascii) (a : string),
  PyStr.len (String c a) = PyStr.len a + 1.
Proof. intros c a. unfold PyStr.len. simpl String.length. lia. Qed.

Lemma len_zero : forall a : string, PyStr.len a = 0 -> a = EmptyString.
Proof. intros [|c a] H; [reflexivity | rewrite len_cons in H; pose proof (len_nonneg a); lia]. Qed.

Lemma app_assoc_string : forall a b c : string, (a ++ b) ++ c = a ++ (b ++ c).
Proof.
  induction a as [|x a IH]; intros b c; simpl; [reflexivity | now rewrite IH].
Qed.

Lemma has_char_app : forall (c : ascii) (a b : string),
  PyStr.has_char c (a ++ b) = PyStr.has_char c a || PyStr.has_char c b.
Proof.
  intros c. induction a as [|x a IH]; intros b; simpl;
    [reflexivity | now rewrite IH, orb_assoc].
Qed.

Lemma prefix_char : forall (c b : ascii) (s : string),
  prefix (String c EmptyString) (String b s) = Ascii.eqb c b.
Proof.
  intros c b s. simpl. destruct (ascii_dec c b) as [->|N].
  - rewrite Ascii.eqb_refl. apply prefix_empty.
  - symmetry. now apply Ascii.eqb_neq.
Qed.

Lemma find_char_skip : forall (c : ascii) (a s : string) (i : Z),
  PyStr.has_char c a = false ->
  PyStr.find_from (String c EmptyString) (a ++ s) i
  = PyStr.find_from (String c EmptyString) s (i + PyStr.len a).
Proof.
  intros c. induction a as [|b a IH]; intros s i H.
  - simpl. f_equal. unfold PyStr.len. simpl. lia.
  - simpl in H. apply orb_false_iff in H. destruct H as [H1 H2].
    change (String b a ++ s) with (String b (a ++ s)).
    cbn [PyStr.find_from]. rewrite prefix_char, H1, (IH s (i + 1) H2).
    f_equal. rewrite len_cons. lia.
Qed.

Lemma find_char_here : forall (c : ascii) (s : string) (i : Z),
  PyStr.find_from (String c EmptyString) (String c s) i = i.
Proof.
  intros c s i. cbn [PyStr.find_from]. now rewrite prefix_char, Ascii.eqb_refl.
Qed.

Lemma find_char_absent : forall (c : ascii) (s : string) (i : Z),
  PyStr.has_char c s = false ->
  PyStr.find_from (String c EmptyString) s i = -1.
Proof.
  intros c. induction s as [|b s IH]; intros i H.
  - reflexivity.
  - simpl in H. apply orb_false_iff in H. destruct H as [H1 H2].
    cbn [PyStr.find_from]. rewrite prefix_char, H1. now apply IH.
Qed.

Lemma rfind_char_absent : forall (c : ascii) (s : string) (i last : Z),
  PyStr.has_char c s = false ->
  PyStr.rfind_from (String c EmptyString) s i last = last.
Proof.
  intros c. induction s as [|b s IH]; intros i last H.
  - reflexivity.
  - simpl in H. apply orb_false_iff in H. destruct H as [H1 H2].
    cbn [PyStr.rfind_from]. rewrite prefix_char, H1. now apply IH.
Qed.

Lemma rfind_char_last : forall (c : ascii) (a s : string) (i last : Z),
  PyStr.rfind_from (String c EmptyString) (a ++ String c s) i last
  = PyStr.rfind_from (String c EmptyString) s (i + PyStr.len a + 1) (i + PyStr.len a).
Proof.
  intros c. induction a as [|b a IH]; intros s i last.
  - simpl append. cbn [PyStr.rfind_from]. rewrite prefix_char, Ascii.eqb_refl.
    unfold PyStr.len. simpl. f_equal; lia.
  - change (String b a ++ String c s) with (String b (a ++ String c s)).
    cbn [PyStr.rfind_from]. rewrite IH, len_cons. f_equal; lia.
Qed.

Lemma drop_app : forall a b : string, PyStr.drop (String.length a) (a ++ b) = b.
Proof. induction a as [|c a IH]; intros b; simpl; [reflexivity | apply IH]. Qed.

Lemma take_app : forall a b : string, PyStr.take (String.length a) (a ++ b) = a.
Proof.
  induction a as [|c a IH]; intros b; simpl.
  - destruct b; reflexivity.
  - now rewrite IH.
Qed.

Lemma clamp_inside : forall n i : Z, 0 <= i <= n -> PyStr.clamp n i = i.
Proof.
  intros n i H. unfold PyStr.clamp.
  assert (L : (i <? 0) = false) by (apply Z.ltb_ge; lia).
  rewrite L. lia.
Qed.

(** [(a + b + c)[len(a) : len(a) + len(b)]] is [b]. *)
Lemma slice_middle : forall a b c : string,
  PyStr.slice (a ++ b ++ c) (PyStr.len a) (PyStr.len a + PyStr.len b) = b.
Proof.
  intros a b c. unfold PyStr.slice.
  pose proof (len_nonneg a). pose proof (len_nonneg b). pose proof (len_nonneg c).
  rewrite !clamp_inside by (rewrite !len_app; lia).
  replace (PyStr.len a + PyStr.len b - PyStr.len a) with (PyStr.len b) by lia.
  unfold PyStr.len. rewrite !Nat2Z.id. rewrite drop_app. apply take_app.
Qed.

Lemma slice_prefix : forall a b : string,
  PyStr.slice (a ++ b) 0 (PyStr.len a) = a.
Proof.
  intros a b. exact (slice_middle EmptyString a b).
Qed.

Lemma slice_suffix : forall a b : string,
  PyStr.slice (a ++ b) (PyStr.len a) (PyStr.len (a ++ b)) = b.
Proof.
  intros a b. rewrite len_app.
  pose proof (slice_middle a b EmptyString) as H.
  now rewrite append_empty_r in H.
Qed.

(** ** The reference of a nested invocation *)

Lemma reference_indexes : forall d f p : string,
  PyStr.has_char ":" d = false ->
  PyStr.has_char ":" f = false ->
  PyStr.has_char "/" f = false ->
  PyStr.has_char "/" p = false ->
  PyStr.rfind (d ++ "/" ++ f ++ ":" ++ p) "/" = PyStr.len d
  /\ PyStr.find (d ++ "/" ++ f ++ ":" ++ p) ":" = PyStr.len d + 1 + PyStr.len f.
Proof.
  intros d f p Hd Hf Hs Hp. split.
  - unfold PyStr.rfind.
    change (d ++ "/" ++ f ++ ":" ++ p) with (d ++ String "/" (f ++ String ":" p)).
    rewrite rfind_char_last, rfind_char_absent; [lia|].
    rewrite has_char_app, Hs. cbn [PyStr.has_char orb].
    change (Ascii.eqb "/" ":") with false. exact Hp.
  - unfold PyStr.find.
    change (d ++ "/" ++ f ++ ":" ++ p) with (d ++ (String "/" f ++ String ":" p)).
    rewrite <- app_assoc_string, find_char_skip.
    + rewrite find_char_here, len_app, len_cons. lia.
    + rewrite has_char_app, Hd. cbn [PyStr.has_char orb].
      change (Ascii.eqb ":" "/") with false. exact Hf.
Qed.

(** X1: a reference of the form [<dir>/<file>:<profile>] is taken apart at
    its last [/] and its first [:]: the nested run is rooted at [<dir>], the
    configuration file name is [<file>] and the profile is [<profile>]; an
    empty profile gives no [-p] option at all. *)
Theorem nested_reference_parts :
  forall here d f p : string,
    d <> EmptyString ->
    PyStr.has_char ":" d = false ->
    PyStr.has_char ":" f = false ->
    PyStr.has_char "/" f = false ->
    PyStr.has_char "/" p = false ->
    nested_module here (d ++ "/" ++ f ++ ":" ++ p) = d
    /\ nested_command (d ++ "/" ++ f ++ ":" ++ p)
       = ("quack" :: (if String.eqb p EmptyString then [] else ["-p"; p])
            ++ ["-y"; f])%list.
Proof.
  intros here d f p Hne Hd Hf Hs Hp.
  destruct (reference_indexes d f p Hd Hf Hs Hp) as [R F].
  pose proof (len_nonneg d) as Ld. pose proof (len_nonneg f) as Lf.
  pose proof (len_nonneg p) as Lp.
  assert (Ld' : 0 < PyStr.len d).
  { destruct (Z.eq_dec (PyStr.len d) 0) as [Z|Z]; [|lia].
    apply len_zero in Z. contradiction. }
  remember (d ++ "/" ++ f ++ ":" ++ p) as q eqn:Hq.
  assert (Lq : PyStr.len q = PyStr.len d + 1 + PyStr.len f + 1 + PyStr.len p).
  { subst q. change (d ++ "/" ++ f ++ ":" ++ p)
      with (d ++ String "/" (f ++ String ":" p)).
    rewrite len_app, len_cons, len_app, len_cons. lia. }
  split.
  - unfold nested_module. rewrite R.
    assert (G : (PyStr.len d >? 0) = true) by (apply Z.gtb_lt; lia).
    rewrite G. unfold PyStr.slice_to. subst q. apply slice_prefix.
  - unfold nested_command. rewrite R, F.
    assert (G : (PyStr.len d + 1 + PyStr.len f >? 0) = true) by (apply Z.gtb_lt; lia).
    rewrite G.
    assert (Sf : PyStr.slice q (PyStr.len d + 1) (PyStr.len d + 1 + PyStr.len f) = f).
    { subst q.
      change (d ++ "/" ++ f ++ ":" ++ p) with (d ++ ("/" ++ (f ++ (":" ++ p)))).
      rewrite <- app_assoc_string.
      replace (PyStr.len d + 1) with (PyStr.len (d ++ "/"))
        by (rewrite len_app; reflexivity).
      apply slice_middle. }
    assert (Sp : PyStr.slice q (PyStr.len d + 1 + PyStr.len f + 1) (PyStr.len q) = p).
    { pose proof (slice_suffix (d ++ "/" ++ f ++ ":") p) as S.
      replace ((d ++ "/" ++ f ++ ":") ++ p) with q in S.
      - rewrite <- S. f_equal.
        change (d ++ "/" ++ f ++ ":") with (d ++ String "/" (f ++ ":")).
        rewrite len_app, len_cons, len_app. change (PyStr.len ":") with 1. lia.
      - subst q. rewrite !app_assoc_string. reflexivity. }
    rewrite Sf, Sp.
    destruct (String.eqb p EmptyString) eqn:E.
    + apply String.eqb_eq in E.
      assert (Lp0 : PyStr.len p = 0) by (rewrite E; reflexivity).
      assert (G2 : (PyStr.len q >? PyStr.len d + 1 + PyStr.len f + 1) = false)
        by (rewrite Z.gtb_ltb; apply Z.ltb_ge; lia).
      rewrite G2. reflexivity.
    + assert (Lp' : 0 < PyStr.len p).
      { destruct (Z.eq_dec (PyStr.len p) 0) as [Z|Z]; [|lia].
        apply len_zero in Z. rewrite Z in E. discriminate E. }
      assert (G2 : (PyStr.len q >? PyStr.len d + 1 + PyStr.len f + 1) = true)
        by (apply Z.gtb_lt; lia).
      rewrite G2. reflexivity.
Qed.

Lemma nested_reference_parts_witness :
  nested_module "/proj" ("vendor/sub" ++ "/" ++ "deps.yaml" ++ ":" ++ "update") = "vendor/sub"
  /\ nested_command ("vendor/sub" ++ "/" ++ "deps.yaml" ++ ":" ++ "update")
     = ("quack" :: (if String.eqb "update" EmptyString then [] else ["-p"; "update"])
          ++ ["-y"; "deps.yaml"])%list.
Proof.
  apply (nested_reference_parts "/proj" "vendor/sub" "deps.yaml" "update");
    [discriminate | reflexivity | reflexivity | reflexivity | reflexivity].
Defined.

(** X2: a reference without [:] is passed whole as the profile, and no
    configuration file name is passed; the empty reference gives the bare
    command. *)
Theorem nested_reference_without_colon :
  forall q : string,
    PyStr.has_char ":" q = false ->
    nested_command q
    = if String.eqb q EmptyString then ["quack"] else ["quack"; "-p"; q].
Proof.
  intros q H. unfold nested_command.
  assert (F : PyStr.find q ":" = -1) by (apply find_char_absent; exact H).
  rewrite F. change (-1 + 1) with 0. change (-1 >? 0) with false. cbv iota.
  destruct (String.eqb q EmptyString) eqn:E.
  - apply String.eqb_eq in E. subst q. reflexivity.
  - assert (L : 0 < PyStr.len q).
    { pose proof (len_nonneg q). destruct (Z.eq_dec (PyStr.len q) 0) as [Z|Z]; [|lia].
      apply len_zero in Z. rewrite Z in E. discriminate E. }
    assert (G : (PyStr.len q >? 0) = true) by (apply Z.gtb_lt; lia).
    rewrite G. cbn [app].
    pose proof (slice_prefix q EmptyString) as S. rewrite append_empty_r in S.
    now rewrite S.
Qed.

Lemma nested_reference_without_colon_witness :
  nested_command "sub/quack"
  = if String.eqb "sub/quack" EmptyString then ["quack"] else ["quack"; "-p"; "sub/quack"].
Proof.
  apply (nested_reference_without_colon "sub/quack"). reflexivity.
Defined.

(** ** The process runner *)

Lemma nice_call_inv : forall E wd command dir w w',
  _nice_call E wd command dir w = (Ok tt, w') ->
  exists out err n,
    popen E command dir wd (fs w) = Ok (0, out, err, n)
    /\ fs w' = n /\ stderr w' = stderr w
    /\ calls w' = (calls w ++ [Popen command dir])%list.
Proof.
  intros E wd command dir w w' H. unfold _nice_call in H.
  unfold bind at 1 in H. unfold os_getcwd, ret at 1 in H.
  unfold bind at 1 in H. unfold lift at 1 in H.
  destruct (py_format "Executing %r in %s..." _) as [line|e]; [|discriminate].
  unfold bind at 1 in H. unfold print at 1 in H.
  unfold bind at 1 in H. unfold subprocess_run at 1 in H. cbn [fs log_call] in H.
  destruct (popen E command dir wd (fs w)) as [[[[status out] err] n]|e];
    [|discriminate].
  destruct (status =? 0) eqn:S.
  - apply Z.eqb_eq in S. subst status.
    unfold bind at 1 in H. unfold lift at 1 in H.
    destruct (py_format _ [PBytes out]); [|discriminate].
    unfold print in H. injection H as <-.
    exists out, err, n. repeat split; reflexivity.
  - unfold bind at 1 in H. unfold lift at 1 in H.
    rewrite format_command_failed in H. discriminate.
Qed.

(** X3: [_nice_call] returns normally exactly when the command could be
    started and has exited with status 0: any other status, and a command
    that cannot be started, ends the call with an exception. *)
Theorem nice_call_returns_iff_status_zero :
  forall E wd command dir w,
    (exists w', _nice_call E wd command dir w = (Ok tt, w'))
    <-> (exists out err n, popen E command dir wd (fs w) = Ok (0, out, err, n)).
Proof.
  intros E wd command dir w. split.
  - intros [w' H]. destruct (nice_call_inv E wd command dir w w' H)
      as (out & err & n & P & _). now exists out, err, n.
  - intros (out & err & n & P).
    destruct (nice_call_zero E wd command dir w out err n P) as (w' & H & _).
    now exists w'.
Qed.

(** ** Nested invocations: what a run leaves *)

Lemma create_dir_quiet : forall wd p w w',
  _create_dir wd p w = (Ok tt, w') ->
  calls w' = calls w /\ stderr w' = stderr w /\ stdout w' = stdout w.
Proof.
  intros wd p w w' H. unfold _create_dir in H.
  unfold bind at 1 in H. unfold os_path_exists at 1 in H.
  destruct (negb (negb (no_name p) && FS.exists_ (FS.resolve wd p) (fs w))).
  - unfold os_makedirs, fs_do in H. destruct (no_name p); [discriminate|].
    destruct (FS.makedirs _ _); [|discriminate].
    injection H as <-. repeat split; reflexivity.
  - unfold ret in H. injection H as <-. repeat split; reflexivity.
Qed.

Lemma git_suffix_named : forall module : string, module ++ "/.git" <> EmptyString.
Proof. intros [|c m]; discriminate. Qed.

Lemma nested_run_ok : forall E wd q w r w',
  _run_nested_quack E wd ("quack", PStr q) w = (Ok r, w') ->
  r = PBool true
  /\ calls w' = (calls w ++
                 [GitRepoInit (nested_module ("/" ++ PyStr.join "/" wd) q);
                  Popen (PyStr.join " " (nested_command q))
                    (Some (nested_module ("/" ++ PyStr.join "/" wd) q))])%list
  /\ FS.exists_ (FS.resolve wd (nested_module ("/" ++ PyStr.join "/" wd) q ++ "/.git"))
       (fs w') = false
  /\ stderr w' = stderr w.
Proof.
  intros E wd q w r w' H. unfold _run_nested_quack in H.
  cbn [fst snd] in H. change (String.eqb "quack" "quack") with true in H.
  cbn [negb] in H. unfold bind at 1 in H. unfold os_getcwd, ret at 1 in H.
  set (module := nested_module ("/" ++ PyStr.join "/" wd) q) in *.
  bind_inv H as u1 w1 H1. bind_inv H as u2 w2 H2. bind_inv H as u3 w3 H3.
  bind_inv H as u4 w4 H4. bind_inv H as b w5 H5.
  unfold ret in H. injection H as <- <-.
  destruct u3, u4.
  assert (C1 : calls w1 = calls w /\ stderr w1 = stderr w)
    by (unfold print in H1; injection H1 as _ <-; split; reflexivity).
  assert (C2 : calls w2 = (calls w1 ++ [GitRepoInit module])%list
               /\ stderr w2 = stderr w1).
  { unfold git_Repo_init_ in H2.
    destruct (git_Repo_init E module wd (fs w1)); [|discriminate].
    injection H2 as _ <-. split; reflexivity. }
  destruct (create_dir_quiet _ _ _ _ H3) as (C3 & S3 & _).
  destruct (nice_call_inv _ _ _ _ _ _ H4) as (out & err & n & _ & _ & S4 & C4).
  destruct (remove_dir_ok _ _ _ _ _ (git_suffix_named module) H5)
    as (G & _ & _ & _ & _ & S5 & C5).
  destruct C1 as [C1 S1]. destruct C2 as [C2 S2].
  split; [reflexivity|]. split; [|split].
  - rewrite C5, C4, C3, C2, C1, <- app_assoc. reflexivity.
  - exact G.
  - rewrite S5, S4, S3, S2, S1. reflexivity.
Qed.

(** X4: whenever the dispatcher returns for a [quack] dependency, it has
    initialised version control in the directory of the reference, launched
    exactly one process, rooted there, with the command line built from the
    reference, and nothing is left at [<directory>/.git]. *)
Theorem nested_run_postcondition :
  forall E wd q w r w',
    _run_nested_quack E wd ("quack", PStr q) w = (Ok r, w') ->
    r = PBool true
    /\ calls w' = (calls w ++
                   [GitRepoInit (nested_module ("/" ++ PyStr.join "/" wd) q);
                    Popen (PyStr.join " " (nested_command q))
                      (Some (nested_module ("/" ++ PyStr.join "/" wd) q))])%list
    /\ FS.exists_ (FS.resolve wd (nested_module ("/" ++ PyStr.join "/" wd) q ++ "/.git"))
         (fs w') = false
    /\ stderr w' = stderr w.
Proof. exact nested_run_ok. Qed.

Lemma nested_run_postcondition_witness :
  PBool true = PBool true
  /\ calls (snd (_run_nested_quack Toy.ext Toy.wd ("quack", PStr ":") Toy.world))
     = (calls Toy.world ++
        [GitRepoInit (nested_module ("/" ++ PyStr.join "/" Toy.wd) ":");
         Popen (PyStr.join " " (nested_command ":"))
           (Some (nested_module ("/" ++ PyStr.join "/" Toy.wd) ":"))])%list
  /\ FS.exists_
       (FS.resolve Toy.wd
          (nested_module ("/" ++ PyStr.join "/" Toy.wd) ":" ++ "/.git"))
       (fs (snd (_run_nested_quack Toy.ext Toy.wd ("quack", PStr ":") Toy.world)))
     = false
  /\ stderr (snd (_run_nested_quack Toy.ext Toy.wd ("quack", PStr ":") Toy.world))
     = stderr Toy.world.
Proof.
  apply (nested_run_postcondition Toy.ext Toy.wd ":" Toy.world
           (PBool true)).
  vm_compute. reflexivity.
Defined.

(** ** The current directory as a path *)

Lemma split_app_sep : forall (sep : ascii) (a b : string),
  PyStr.has_char sep a = false ->
  PyStr.split sep (a ++ String sep b) = a :: PyStr.split sep b.
Proof.
  intros sep. induction a as [|c a IH]; intros b H.
  - simpl. now rewrite Ascii.eqb_refl.
  - simpl in H. apply orb_false_iff in H. destruct H as [H1 H2].
    change (String c a ++ String sep b) with (String c (a ++ String sep b)).
    cbn [PyStr.split]. rewrite Ascii.eqb_sym, H1, (IH b H2). reflexivity.
Qed.

Lemma split_join_sep : forall (cs : list string) (c t : string),
  forallb plain_component (c :: cs) = true ->
  PyStr.split "/" (PyStr.join "/" (c :: cs) ++ String "/" t)
  = ((c :: cs) ++ PyStr.split "/" t)%list.
Proof.
  induction cs as [|c2 cs IH]; intros c t H.
  - cbn [forallb] in H. rewrite andb_true_r in H.
    unfold plain_component in H.
    apply andb_true_iff in H. destruct H as [H _].
    apply andb_true_iff in H. destruct H as [H _].
    apply negb_true_iff in H.
    unfold PyStr.join. cbn [String.concat]. now rewrite split_app_sep.
  - cbn [forallb] in H. apply andb_true_iff in H. destruct H as [Hc H].
    unfold plain_component in Hc.
    apply andb_true_iff in Hc. destruct Hc as [Hc _].
    apply andb_true_iff in Hc. destruct Hc as [Hc _].
    apply negb_true_iff in Hc.
    unfold PyStr.join in *.
    change (String.concat "/" (c :: c2 :: cs))
      with (c ++ String "/" (String.concat "/" (c2 :: cs))).
    rewrite app_assoc_string.
    change (String "/" (String.concat "/" (c2 :: cs)) ++ String "/" t)
      with (String "/" (String.concat "/" (c2 :: cs) ++ String "/" t)).
    rewrite split_app_sep by exact Hc.
    rewrite (IH c2 t H). reflexivity.
Qed.


(** [os.getcwd() + '/.git'] names the [.git] of the current directory. *)
Lemma resolve_getcwd_git : forall wd : FS.path,
  forallb plain_component wd = true ->
  FS.resolve wd (("/" ++ PyStr.join "/" wd) ++ "/.git") = (wd ++ [".git"])%list.
Proof.
  intros wd H. unfold FS.resolve.
  change (("/" ++ PyStr.join "/" wd) ++ "/.git")
    with (String "/" (PyStr.join "/" wd ++ String "/" ".git")).
  rewrite prefix_char, Ascii.eqb_refl.
  cbn [PyStr.split]. rewrite Ascii.eqb_refl.
  cbn [FS.walk String.eqb orb].
  destruct wd as [|c cs].
  - reflexivity.
  - rewrite (split_join_sep cs c ".git" H).
    change (PyStr.split "/" ".git") with [".git"].
    rewrite walk_push; [reflexivity|].
    apply Forall_app. split; [now apply plain_components_walk|].
    repeat constructor.
Qed.

(** X5: a reference without a directory part (no [/] after its first
    character) roots the nested run in the current directory, and the
    clean-up after the nested process removes [.git] there: when the
    dispatcher returns, the project's own version-control metadata is gone. *)
Theorem nested_run_in_place_removes_project_git :
  forall E wd q w r w',
    forallb plain_component wd = true ->
    (PyStr.rfind q "/" >? 0) = false ->
    _run_nested_quack E wd ("quack", PStr q) w = (Ok r, w') ->
    FS.exists_ (wd ++ [".git"])%list (fs w') = false
    /\ In (Popen (PyStr.join " " (nested_command q)) (Some ("/" ++ PyStr.join "/" wd)))
          (calls w').
Proof.
  intros E wd q w r w' Hwd Hq H.
  destruct (nested_run_ok E wd q w r w' H) as (_ & C & G & _).
  unfold nested_module in C, G. rewrite Hq in C, G.
  rewrite (resolve_getcwd_git wd Hwd) in G. split; [exact G|].
  rewrite C. apply in_or_app. right. right. left. reflexivity.
Qed.

Lemma nested_run_in_place_removes_project_git_witness :
  FS.exists_ (Toy.wd ++ [".git"])%list
    (fs (snd (_run_nested_quack Toy.ext Toy.wd ("quack", PStr EmptyString)
                Toy.world))) = false
  /\ In (Popen (PyStr.join " " (nested_command EmptyString))
           (Some ("/" ++ PyStr.join "/" Toy.wd)))
        (calls (snd (_run_nested_quack Toy.ext Toy.wd ("quack", PStr EmptyString)
                       Toy.world))).
Proof.
  apply (nested_run_in_place_removes_project_git Toy.ext Toy.wd EmptyString
           Toy.world (PBool true)).
  - reflexivity.
  - reflexivity.
  - vm_compute. reflexivity.
Defined.

(** ** Tasks *)

(** X6: for a task that is no [modules] form, the leading [-] changes
    nothing: the negated task does what the plain one does. *)
Theorem negation_only_matters_for_modules :
  forall E wd config (c : ascii) (t : string) w,
    Ascii.eqb c "-" = false ->
    modules_form (String c t) = false ->
    run_command E wd config (String "-" (String c t)) w
    = run_command E wd config (String c t) w.
Proof.
  intros E wd config c t w Hc Hm. unfold modules_form in Hm.
  unfold run_command. change (Ascii.eqb "-" "-") with true. rewrite Hc. cbv iota.
  rewrite slice_from_1, Hm. cbn [andb]. reflexivity.
Qed.

Lemma negation_only_matters_for_modules_witness :
  run_command Toy.ext Toy.wd Toy.config (String "-" (String "c" "md:make")) Toy.world
  = run_command Toy.ext Toy.wd Toy.config (String "c" "md:make") Toy.world.
Proof.
  apply (negation_only_matters_for_modules Toy.ext Toy.wd Toy.config "c" "md:make"
           Toy.world); reflexivity.
Defined.

Lemma inert_character : forall c : ascii, inert (String c EmptyString) = true.
Proof.
  intros c. destruct c as [[] [] [] [] [] [] [] []]; vm_compute; reflexivity.
Qed.

Lemma length_list_ascii : forall s : string,
  length (list_ascii_of_string s) = String.length s.
Proof.
  induction s as [|c s IH]; simpl; [reflexivity | now rewrite IH].
Qed.

(** X7: when [tasks] of a profile is a text instead of a list, the loop
    draws its characters one by one; each is an inert task.  The run counts
    one task per character and does nothing else. *)
Theorem tasks_given_as_text_run_per_character :
  forall E wd config profile (s : string) w stats0 w0,
    py_get profile "tasks" (PList []) = Ok (PStr s) ->
    s <> EmptyString ->
    run_dependencies E wd profile w = (Ok stats0, w0) ->
    _run_tasks E wd config profile w
    = (Ok (mkStats (tasks stats0 + PyStr.len s) (dependencies stats0)), w0).
Proof.
  intros E wd config profile s w stats0 w0 Ht Hs Hd.
  unfold _run_tasks. rewrite (bind_step _ Hd).
  unfold bind at 1. unfold lift at 1. rewrite Ht.
  assert (T : truthy (PStr s) = true).
  { cbn [truthy]. apply String.eqb_neq in Hs. now rewrite Hs. }
  rewrite T. cbn [negb]. unfold bind at 1. unfold lift at 1. cbn [py_iter].
  rewrite tasks_loop_inert.
  - rewrite length_map, length_list_ascii. reflexivity.
  - apply Forall_forall. intros x Hx. apply in_map_iff in Hx.
    destruct Hx as (c & <- & _). exists (String c EmptyString).
    split; [reflexivity | apply inert_character].
Qed.

Lemma tasks_given_as_text_run_per_character_witness :
  _run_tasks Toy.ext Toy.wd Toy.config (PDict [("tasks", PStr "modules")]) Toy.world
  = (Ok (mkStats (tasks (mkStats 0 0) + PyStr.len "modules") (dependencies (mkStats 0 0))),
     Toy.world).
Proof.
  apply (tasks_given_as_text_run_per_character Toy.ext Toy.wd Toy.config
           (PDict [("tasks", PStr "modules")]) "modules" Toy.world (mkStats 0 0) Toy.world);
    [reflexivity | discriminate | reflexivity].
Defined.

Lemma find_from_range : forall (sub s : string) (i : Z),
  PyStr.find_from sub s i = -1 \/ i <= PyStr.find_from sub s i.
Proof.
  intros sub. induction s as [|c s IH]; intros i; cbn [PyStr.find_from].
  - destruct (prefix sub EmptyString); [right; lia | left; reflexivity].
  - destruct (prefix sub (String c s)); [right; lia|].
    destruct (IH (i + 1)) as [H|H]; [now left | right; lia].
Qed.

(** [s.find(sub) == 0] says that [s] starts with [sub]. *)
Lemma find_zero_prefix : forall s sub : string,
  (PyStr.find s sub =? 0) = prefix sub s.
Proof.
  intros s sub. unfold PyStr.find. destruct s as [|c s]; cbn [PyStr.find_from].
  - destruct (prefix sub EmptyString); reflexivity.
  - destruct (prefix sub (String c s)); [reflexivity|].
    destruct (find_from_range sub s (0 + 1)) as [H|H].
    + now rewrite H.
    + apply Z.eqb_neq. lia.
Qed.

Lemma replace_cmd_prefix : forall c : string,
  PyStr.find c "cmd:" = -1 ->
  PyStr.replace ("cmd:" ++ c) "cmd:" EmptyString = c.
Proof.
  intros c H. unfold PyStr.replace.
  change ("cmd:" ++ c) with (String "c" (String "m" (String "d" (String ":" c)))).
  cbn [PyStr.replace_from].
  assert (P : prefix "cmd:" (String "c" (String "m" (String "d" (String ":" c)))) = true).
  { cbn. apply prefix_empty. }
  rewrite P. cbn [String.length Nat.pred PyStr.replace_from append].
  apply (replace_absent "cmd:" EmptyString c 0); [lia | exact H].
Qed.

Lemma run_command_cmd_form : forall E wd config (c : string) w,
  PyStr.find c "cmd:" = -1 ->
  run_command E wd config ("cmd:" ++ c) w
  = match _nice_call E wd c None w with
    | (Ok _, w') => (Ok tt, w')
    | (Raise e, w') => (Raise e, w')
    end.
Proof.
  intros E wd config c w H.
  change ("cmd:" ++ c) with (String "c" ("md:" ++ c)).
  unfold run_command. change (Ascii.eqb "c" "-") with false. cbv iota.
  change (String "c" ("md:" ++ c)) with ("cmd:" ++ c).
  rewrite !find_zero_prefix.
  assert (P1 : prefix "modules:" ("cmd:" ++ c) = false) by reflexivity.
  assert (P2 : prefix "quack:" ("cmd:" ++ c) = false) by reflexivity.
  assert (P3 : prefix "cmd:" ("cmd:" ++ c) = true) by (cbn; apply prefix_empty).
  assert (P4 : String.eqb "modules" ("cmd:" ++ c) = false) by reflexivity.
  rewrite P1, P2, P3, P4. cbn [orb andb].
  rewrite (replace_cmd_prefix c H). unfold bind.
  destruct (_nice_call E wd c None w) as [[[]|e] w']; reflexivity.
Qed.

(** X8: a task list of [cmd:] tasks whose commands all exit with status 0
    launches exactly these commands, in the order of the list, each in the
    current directory, and counts them. *)
Theorem command_tasks_run_in_order :
  forall E wd config (cs : list string) stats w,
    Forall (fun c => PyStr.find c "cmd:" = -1) cs ->
    (forall c n, In c cs -> exists out err n', popen E c None wd n = Ok (0, out, err, n')) ->
    exists w',
      tasks_loop E wd config (map (fun c => PStr ("cmd:" ++ c)) cs) stats w
      = (Ok (mkStats (tasks stats + Z.of_nat (length cs)) (dependencies stats)), w')
      /\ calls w' = (calls w ++ map (fun c => Popen c None) cs)%list
      /\ stderr w' = stderr w.
Proof.
  intros E wd config cs. induction cs as [|c cs IH]; intros stats w Hc Hp.
  - exists w. cbn. unfold ret. rewrite app_nil_r. split; [|split; reflexivity].
    destruct stats as [t k]. cbn. do 2 f_equal. f_equal. lia.
  - inversion Hc as [|? ? Hc1 Hc2]; subst.
    destruct (Hp c (fs w) (or_introl eq_refl)) as (out & err & n' & P).
    destruct (nice_call_zero E wd c None w out err n' P) as (w1 & N & _ & S1 & C1).
    destruct (IH (mkStats (tasks stats + 1) (dependencies stats)) w1 Hc2) as (w' & L & C & S).
    { intros c0 n0 I. apply Hp. now right. }
    exists w'. cbn [map tasks_loop run_task]. unfold bind at 1.
    rewrite (run_command_cmd_form E wd config c w Hc1), N, L.
    cbn [tasks dependencies length]. split; [|split].
    + do 3 f_equal. lia.
    + rewrite C, C1. cbn [map]. now rewrite <- app_assoc.
    + now rewrite S, S1.
Qed.

Lemma toy_commands_succeed : forall c n,
  In c ["make"; "true"] ->
  exists out err n', popen Toy.ext c None Toy.wd n = Ok (0, out, err, n').
Proof.
  intros c n [<-|[<-|[]]]; do 3 eexists; reflexivity.
Qed.

Lemma command_tasks_run_in_order_witness :
  exists w',
    tasks_loop Toy.ext Toy.wd Toy.config
      (map (fun c => PStr ("cmd:" ++ c)) ["make"; "true"]) (mkStats 0 0) Toy.world
    = (Ok (mkStats (tasks (mkStats 0 0) + Z.of_nat (length ["make"; "true"]))
             (dependencies (mkStats 0 0))), w')
    /\ calls w' = (calls Toy.world ++ map (fun c => Popen c None) ["make"; "true"])%list
    /\ stderr w' = stderr Toy.world.
Proof.
  apply (command_tasks_run_in_order Toy.ext Toy.wd Toy.config ["make"; "true"]
           (mkStats 0 0) Toy.world).
  - repeat constructor.
  - exact toy_commands_succeed.
Defined.

(** X9: the first task that raises ends the run with that exception, in the
    state the failing task left; the tasks after it are not started and the
    counters are lost. *)
Theorem first_failing_task_ends_the_run :
  forall E wd config pre c rest stats stats1 w w1 e w2,
    tasks_loop E wd config pre stats w = (Ok stats1, w1) ->
    run_task E wd config c w1 = (Raise e, w2) ->
    tasks_loop E wd config (pre ++ c :: rest) stats w = (Raise e, w2).
Proof.
  intros E wd config pre c rest stats stats1 w w1 e w2 Hp Hc.
  rewrite tasks_loop_app, Hp. cbn [tasks_loop]. unfold bind. now rewrite Hc.
Qed.

Lemma first_failing_task_ends_the_run_witness :
  tasks_loop Toy.ext Toy.wd Toy.config
    ([PStr "noop"] ++ PStr "cmd:false" :: [PStr "modules"]) (mkStats 0 0) Toy.world
  = (Raise TypeError,
     snd (run_task Toy.ext Toy.wd Toy.config (PStr "cmd:false") Toy.world)).
Proof.
  apply (first_failing_task_ends_the_run Toy.ext Toy.wd Toy.config
           [PStr "noop"] (PStr "cmd:false") [PStr "modules"]
           (mkStats 0 0) (mkStats 1 0) Toy.world Toy.world TypeError
           (snd (run_task Toy.ext Toy.wd Toy.config (PStr "cmd:false") Toy.world)));
    reflexivity.
Defined.

(** ** The module filter *)

Lemma fetch_loop_empty_filter : forall E wd config items ignore_list w,
  fetch_loop E wd config (Some EmptyString) ignore_list items w
  = fetch_loop E wd config None ignore_list items w.
Proof.
  intros E wd config. induction items as [|item items IH]; intros ignore_list w.
  - reflexivity.
  - cbn [fetch_loop]. unfold bind.
    change (fetch_module E wd config (Some EmptyString) ignore_list item w)
      with (fetch_module E wd config None ignore_list item w).
    destruct (fetch_module E wd config None ignore_list item w) as [[il|e] w1];
      [apply IH | reflexivity].
Qed.

Lemma clean_loop_empty_filter : forall wd items w,
  clean_loop wd (Some EmptyString) items w = clean_loop wd None items w.
Proof.
  intros wd. induction items as [|item items IH]; intros w.
  - reflexivity.
  - cbn [clean_loop]. unfold bind.
    change (clean_module wd (Some EmptyString) item w)
      with (clean_module wd None item w).
    destruct (clean_module wd None item w) as [[u|e] w1]; [apply IH | reflexivity].
Qed.

(** X10: an empty module name is no filter.  The tasks [modules:] and
    [-modules:], with nothing after the colon, fetch and clean every module,
    as [modules] and [-modules] do. *)
Theorem empty_module_name_selects_all :
  forall E wd config w,
    _fetch_modules E wd config (Some EmptyString) w = _fetch_modules E wd config None w
    /\ _clean_modules wd config (Some EmptyString) w = _clean_modules wd config None w
    /\ run_command E wd config "modules:" w = run_command E wd config "modules" w
    /\ run_command E wd config "-modules:" w = run_command E wd config "-modules" w.
Proof.
  intros E wd config w.
  assert (F : _fetch_modules E wd config (Some EmptyString) w
              = _fetch_modules E wd config None w).
  { unfold _fetch_modules, bind.
    destruct (lift (py_get config "modules" PNone) w) as [[ml|e] w1]; [|reflexivity].
    destruct (negb (truthy ml)); [reflexivity|].
    destruct (fetch_prologue E wd config w1) as [[il|e] w2]; [|reflexivity].
    destruct (_iter_modules config w2) as [[items|e] w3]; [|reflexivity].
    apply fetch_loop_empty_filter. }
  assert (C : _clean_modules wd config (Some EmptyString) w
              = _clean_modules wd config None w).
  { unfold _clean_modules, bind.
    destruct (lift (py_get config "modules" PNone) w) as [[ml|e] w1]; [|reflexivity].
    destruct (lift (py_items ml) w1) as [[items|e] w2]; [|reflexivity].
    apply clean_loop_empty_filter. }
  split; [exact F|]. split; [exact C|]. split.
  - change (run_command E wd config "modules:" w)
      with (_fetch_modules E wd config (Some EmptyString) w).
    change (run_command E wd config "modules" w)
      with (_fetch_modules E wd config None w).
    exact F.
  - change (run_command E wd config "-modules:" w)
      with (_clean_modules wd config (Some EmptyString) w).
    change (run_command E wd config "-modules" w)
      with (_clean_modules wd config None w).
    exact C.
Qed.

(** ** [main] *)

(** X11: a profile the configuration does not define is no error: [main]
    makes sure [.quack] exists, reports that there are no tasks and that 0
    tasks completed with 0 dependencies, and returns. *)
Theorem main_with_undefined_profile :
  forall E wd (k : string) c ps prompted w w1,
    c <> [] ->
    py_get (PDict c) "profiles" (PDict []) = Ok (PDict ps) ->
    assoc k ps = None ->
    _create_dir wd ".quack" w = (Ok tt, w1) ->
    main E wd (Some k) (PDict c) prompted w
    = (Ok tt, mkWorld (fs w1)
                (stdout w1 ++ ["No tasks found."; "0 task(s) completed with 0 dependencies."])
                (stderr w1) (calls w1)).
Proof.
  intros E wd k c ps prompted w w1 Hc Hp Hk Hd.
  unfold main. rewrite (bind_step _ Hd).
  assert (T : truthy (PDict c) = true) by (destruct c; [contradiction | reflexivity]).
  rewrite T. cbv beta iota zeta. rewrite T. cbn [negb].
  unfold bind at 1. unfold lift at 1. rewrite Hp.
  unfold bind at 1. unfold lift at 1. cbn [py_get]. rewrite Hk.
  unfold bind at 1.
  assert (R : _run_tasks E wd (PDict c) (PDict []) w1
              = (Ok (mkStats 0 0),
                 mkWorld (fs w1) (stdout w1 ++ ["No tasks found."]) (stderr w1) (calls w1)))
    by reflexivity.
  rewrite R. cbn [tasks dependencies]. unfold bind, lift, print. cbn.
  rewrite <- app_assoc. reflexivity.
Qed.

Lemma main_with_undefined_profile_witness :
  main Toy.ext Toy.wd (Some "deploy")
    (PDict [("name", PStr "demo");
            ("profiles", PDict [("init", PDict [("tasks", PList [PStr "modules"])])])])
    PNone Toy.world
  = (Ok tt,
     mkWorld (fs (snd (_create_dir Toy.wd ".quack" Toy.world)))
       (stdout (snd (_create_dir Toy.wd ".quack" Toy.world))
        ++ ["No tasks found."; "0 task(s) completed with 0 dependencies."])
       (stderr (snd (_create_dir Toy.wd ".quack" Toy.world)))
       (calls (snd (_create_dir Toy.wd ".quack" Toy.world)))).
Proof.
  apply (main_with_undefined_profile Toy.ext Toy.wd "deploy"
           [("name", PStr "demo");
            ("profiles", PDict [("init", PDict [("tasks", PList [PStr "modules"])])])]
           [("init", PDict [("tasks", PList [PStr "modules"])])]
           PNone Toy.world (snd (_create_dir Toy.wd ".quack" Toy.world)));
    [discriminate | reflexivity | reflexivity | reflexivity].
Defined.

(** ** Module descriptions that are not well formed *)

(** X12: a module description without [repository] ends a vendoring pass
    with exit status 1 and the message on standard error as soon as the loop
    reaches it, whatever the filter: the description is checked when the
    module is drawn, before its name is compared with the filter. *)
Theorem module_without_repository_aborts_pass :
  forall E wd config specific_module pre name d post ignore_list w w1,
    assoc "repository" d = None ->
    fetch_loop E wd config specific_module ignore_list pre w = (Ok tt, w1) ->
    fetch_loop E wd config specific_module ignore_list (pre ++ (name, PDict d) :: post) w
    = (Raise (SystemExit 1),
       mkWorld (fs w1) (stdout w1)
         (stderr w1 ++ [("Module does not specify a 'repository'" ++ PyStr.nl)%string])
         (calls w1)).
Proof.
  intros E wd config specific_module pre name d post.
  induction pre as [|item pre IH]; intros ignore_list w w1 Hr Hp.
  - unfold fetch_loop at 1, ret in Hp. injection Hp as <-.
    cbn [app fetch_loop]. unfold bind at 1. unfold fetch_module. cbn [fst snd].
    unfold bind at 1. cbn [PyModule.from_config]. rewrite Hr. reflexivity.
  - cbn [fetch_loop] in Hp. bind_inv Hp as il wa Hm.
    cbn [app fetch_loop]. rewrite (bind_step _ Hm). now apply IH.
Qed.

Lemma module_without_repository_aborts_pass_witness :
  fetch_loop Toy.ext Toy.wd Toy.config (Some "lib") []
    ([] ++ ("docs", PDict [("path", PStr "doc")]) :: [("lib", Toy.lib)]) Toy.world
  = (Raise (SystemExit 1),
     mkWorld (fs Toy.world) (stdout Toy.world)
       (stderr Toy.world ++ [("Module does not specify a 'repository'" ++ PyStr.nl)%string])
       (calls Toy.world)).
Proof.
  apply (module_without_repository_aborts_pass Toy.ext Toy.wd Toy.config (Some "lib")
           [] "docs" [("path", PStr "doc")] [("lib", Toy.lib)] [] Toy.world Toy.world);
    reflexivity.
Defined.

Lemma forallb_fails : forall (A : Type) (f : A -> bool) (l : list A) (x : A),
  In x l -> f x = false -> forallb f l = false.
Proof.
  intros A f l x. induction l as [|y l IH]; intros I H; [contradiction|].
  cbn [forallb]. destruct I as [->|I].
  - now rewrite H.
  - rewrite (IH I H). apply andb_false_r.
Qed.

(** X13: a module description with a key that is no parameter of [Module]
    (a misspelt [branch], say) raises [TypeError] when the module is drawn,
    before anything is done for it, whatever the filter. *)
Theorem module_with_unknown_key_raises_TypeError :
  forall E wd config specific_module name d r k v rest ignore_list w,
    assoc "repository" d = Some r ->
    In (k, v) d ->
    PyStr.mem k PyModule.keywords = false ->
    fetch_loop E wd config specific_module ignore_list ((name, PDict d) :: rest) w
    = (Raise TypeError, w).
Proof.
  intros E wd config specific_module name d r k v rest ignore_list w Hr Hi Hk.
  cbn [fetch_loop]. unfold bind at 1. unfold fetch_module. cbn [fst snd].
  unfold bind at 1. cbn [PyModule.from_config]. rewrite Hr.
  unfold PyModule.init.
  rewrite (forallb_fails _ (fun kv => PyStr.mem (fst kv) PyModule.keywords) d (k, v) Hi Hk).
  reflexivity.
Qed.

Lemma module_with_unknown_key_raises_TypeError_witness :
  fetch_loop Toy.ext Toy.wd Toy.config None []
    (("lib", PDict [("repository", PStr Toy.remote_url); ("brnach", PStr "main")]) :: [])
    Toy.world
  = (Raise TypeError, Toy.world).
Proof.
  apply (module_with_unknown_key_raises_TypeError Toy.ext Toy.wd Toy.config None "lib"
           [("repository", PStr Toy.remote_url); ("brnach", PStr "main")]
           (PStr Toy.remote_url) "brnach" (PStr "main") [] [] Toy.world).
  - reflexivity.
  - right. left. reflexivity.
  - reflexivity.
Defined.

(** ** Cleaning *)

(** Unlinking never makes a name appear. *)
Lemma lookup_remove_none : forall p q n,
  FS.lookup q n = None -> FS.lookup q (FS.remove p n) = None.
Proof.
  induction p as [|c p IH]; intros q n H; [exact H|].
  destruct n as [x|es]; [exact H|].
  destruct q as [|b q]; [discriminate|].
  cbn [FS.remove]. cbn [FS.lookup] in H. destruct p as [|c' p'].
  - cbn [FS.lookup]. destruct (String.eqb b c) eqn:Q.
    + apply String.eqb_eq in Q. subst b. now rewrite assoc_del_same.
    + now rewrite (assoc_del_other _ c b es Q).
  - destruct (assoc c es) as [sub|] eqn:A; [|exact H].
    cbn [FS.lookup]. destruct (String.eqb b c) eqn:Q.
    + apply String.eqb_eq in Q. subst b. rewrite assoc_set_same.
      rewrite A in H. now apply IH.
    + now rewrite (assoc_set_other _ c b (FS.remove (c' :: p') sub) es Q).
Qed.

(** One turn of the loop of [_clean_modules] that returns. *)
Lemma clean_module_ok : forall wd specific_module k v w w',
  clean_module wd specific_module (k, v) w = (Ok tt, w') ->
  (forall q, FS.exists_ q (fs w) = false -> FS.exists_ q (fs w') = false)
  /\ (k <> EmptyString -> filtered_out specific_module k = false ->
      FS.exists_ (FS.resolve wd k) (fs w') = false)
  /\ stderr w' = stderr w /\ calls w' = calls w.
Proof.
  intros wd specific_module k v w w' H. unfold clean_module in H. cbn [fst] in H.
  destruct (filtered_out specific_module k) eqn:F.
  - unfold ret in H. injection H as <-.
    split; [auto|]. split; [discriminate | split; reflexivity].
  - destruct (String.eqb k EmptyString) eqn:K.
    + apply String.eqb_eq in K. subst k.
      replace w' with w by (cbv in H; congruence).
      split; [auto|]. split; [congruence | split; reflexivity].
    + apply String.eqb_neq in K. bind_inv H as b w1 H1.
      destruct (remove_dir_ok wd k w b w1 K H1) as (G & _ & B0 & B1 & _ & S2 & S3).
      assert (T : fs w' = fs w1 /\ stderr w' = stderr w1 /\ calls w' = calls w1).
      { destruct b.
        - unfold print in H. injection H as <-. repeat split; reflexivity.
        - unfold ret in H. injection H as <-. repeat split; reflexivity. }
      destruct T as (T1 & T2 & T3). rewrite T1, T2, T3.
      split; [|split; [intros _ _; exact G | split; assumption]].
      intros q Hq. destruct b.
      * destruct (B1 eq_refl) as (_ & ->). cbn [fs set_fs].
        unfold FS.exists_ in *.
        destruct (FS.lookup q (fs w)) eqn:L; [discriminate|].
        now rewrite (lookup_remove_none _ _ _ L).
      * now rewrite (B0 eq_refl).
Qed.

Lemma clean_loop_ok : forall wd specific_module items w w',
  clean_loop wd specific_module items w = (Ok tt, w') ->
  (forall q, FS.exists_ q (fs w) = false -> FS.exists_ q (fs w') = false)
  /\ (forall k, In k (map fst items) -> k <> EmptyString ->
                filtered_out specific_module k = false ->
                FS.exists_ (FS.resolve wd k) (fs w') = false)
  /\ stderr w' = stderr w /\ calls w' = calls w.
Proof.
  intros wd specific_module. induction items as [|[k v] items IH]; intros w w' H.
  - unfold clean_loop, ret in H. injection H as <-.
    split; [auto|]. split; [contradiction | split; reflexivity].
  - cbn [clean_loop] in H. bind_inv H as u w1 H1. destruct u.
    destruct (clean_module_ok _ _ _ _ _ _ H1) as (A1 & A2 & A3 & A4).
    destruct (IH _ _ H) as (B1 & B2 & B3 & B4).
    split; [auto|]. split; [|split; congruence].
    intros k' [<-|I] K F; [apply B1; now apply A2 | now apply B2].
Qed.

(** X14: for a configuration whose modules to clean (every module, or the
    one of the filter) have plain names: when [_clean_modules] returns,
    nothing is left at the name of any of them, no name that was free
    before is taken, and it has launched nothing and written nothing to
    standard error. *)
Theorem clean_leaves_no_selected_module :
  forall wd config items specific_module w w',
    py_get config "modules" PNone = Ok (PDict items) ->
    (forall k, In k (map fst items) -> filtered_out specific_module k = false ->
               plain_name k = true) ->
    _clean_modules wd config specific_module w = (Ok tt, w') ->
    (forall k, In k (map fst items) ->
               filtered_out specific_module k = false ->
               FS.exists_ (FS.resolve wd k) (fs w') = false)
    /\ (forall q, FS.exists_ q (fs w) = false -> FS.exists_ q (fs w') = false)
    /\ stderr w' = stderr w /\ calls w' = calls w.
Proof.
  intros wd config items specific_module w w' Hm Hp H.
  unfold _clean_modules in H. unfold bind at 1 in H. unfold lift at 1 in H.
  rewrite Hm in H. unfold bind at 1 in H. unfold lift at 1 in H.
  cbn [py_items] in H.
  destruct (clean_loop_ok _ _ _ _ _ H) as (A & B & C & D).
  split; [|repeat split; assumption].
  intros k I F. apply B; [exact I | | exact F].
  apply plain_name_named. now apply Hp.
Qed.

Lemma clean_leaves_no_selected_module_witness :
  (forall k, In k (map fst [("lib", Toy.lib)]) ->
             filtered_out None k = false ->
             FS.exists_ (FS.resolve Toy.wd k)
               (fs (snd (_clean_modules Toy.wd Toy.config None Toy.stale_world))) = false)
  /\ (forall q, FS.exists_ q (fs Toy.stale_world) = false ->
                FS.exists_ q
                  (fs (snd (_clean_modules Toy.wd Toy.config None Toy.stale_world))) = false)
  /\ stderr (snd (_clean_modules Toy.wd Toy.config None Toy.stale_world))
     = stderr Toy.stale_world
  /\ calls (snd (_clean_modules Toy.wd Toy.config None Toy.stale_world))
     = calls Toy.stale_world.
Proof.
  apply (clean_leaves_no_selected_module Toy.wd Toy.config [("lib", Toy.lib)] None
           Toy.stale_world (snd (_clean_modules Toy.wd Toy.config None Toy.stale_world))).
  - reflexivity.
  - intros k [<-|[]] _. reflexivity.
  - reflexivity.
Defined.

(** ** A filter that names no module *)

Lemma clean_loop_unknown : forall wd X items w,
  X <> EmptyString -> ~ In X (map fst items) ->
  clean_loop wd (Some X) items w = (Ok tt, w).
Proof.
  intros wd X items w HX. induction items as [|[k v] items IH]; intros I.
  - reflexivity.
  - cbn [clean_loop]. unfold bind at 1. unfold clean_module at 1. cbn [fst].
    assert (Q : String.eqb X k = false).
    { apply String.eqb_neq. intros ->. apply I. now left. }
    rewrite (filtered_out_other X k HX Q). unfold ret at 1.
    apply IH. intros J. apply I. now right.
Qed.

(** What a pass prints and launches before the first module. *)
Lemma fetch_prologue_quiet : forall E wd config w ignore_list w',
  fetch_prologue E wd config w = (Ok ignore_list, w') ->
  stdout w' = stdout w /\ stderr w' = stderr w
  /\ calls w' = (calls w ++ [GitRepo "."])%list.
Proof.
  intros E wd config w ignore_list w' H. unfold fetch_prologue in H.
  bind_inv H as b w0 H0. bind_inv H as u w1 H1. destruct u.
  assert (N1 : ".git/modules/" <> EmptyString) by discriminate.
  assert (N2 : modules <> EmptyString) by discriminate.
  destruct (remove_dir_ok wd ".git/modules/" w b w0 N1 H0) as (_ & _ & _ & _ & A1 & A2 & A3).
  destruct (create_dir_ok wd modules w0 w1 N2 H1) as (_ & _ & _ & B1 & B2 & B3).
  rewrite <- A1, <- A2, <- A3, <- B1, <- B2, <- B3.
  unfold bind at 1 in H. unfold lift at 1 in H.
  destruct (py_get config "gitignore" PNone) as [g|e]; [|discriminate].
  unfold bind at 1 in H. unfold os_path_isfile at 1 in H.
  unfold bind at 1 in H.
  destruct (truthy g && _).
  - unfold bind at 1 in H. unfold read_file at 1 in H.
    change (no_name ".gitignore") with false in H. cbv iota in H.
    destruct (FS.lookup (FS.resolve wd ".gitignore") (fs w1)) as [[c|es]|];
      try discriminate.
    unfold ret at 1 in H. unfold bind, git_Repo_, ret in H.
    destruct (git_Repo E "." wd (fs w1)); [|discriminate].
    injection H as _ <-. repeat split; reflexivity.
  - unfold ret at 1 in H. unfold bind, git_Repo_, ret in H.
    destruct (git_Repo E "." wd (fs w1)); [|discriminate].
    injection H as _ <-. repeat split; reflexivity.
Qed.

(** X15: a fetch filtered on a name that no module of the configuration
    has still runs the preparation of a pass (the submodule metadata is
    removed, the working area created, the repository opened) and then does
    nothing more: when it returns, the state is the one the preparation
    left, nothing was printed and no submodule was created. *)
Theorem fetch_of_unknown_module_only_prepares :
  forall E wd config items X w w',
    py_get config "modules" PNone = Ok (PDict items) ->
    items <> [] ->
    X <> EmptyString ->
    ~ In X (map fst items) ->
    _fetch_modules E wd config (Some X) w = (Ok tt, w') ->
    (exists ignore_list, fetch_prologue E wd config w = (Ok ignore_list, w'))
    /\ stdout w' = stdout w
    /\ calls w' = (calls w ++ [GitRepo "."])%list.
Proof.
  intros E wd config items X w w' Hm Hne HX Hi H.
  unfold _fetch_modules in H. unfold bind at 1 in H. unfold lift at 1 in H.
  rewrite Hm in H.
  assert (T : truthy (PDict items) = true) by (destruct items; [contradiction | reflexivity]).
  rewrite T in H. cbn [negb] in H.
  bind_inv H as il w1 Hp. bind_inv H as its w2 Hit.
  assert (I : its = items /\ w2 = w1).
  { unfold _iter_modules in Hit. unfold bind at 1 in Hit. unfold lift at 1 in Hit.
    destruct config as [| | | | | |c]; try discriminate.
    cbn [py_get] in Hm, Hit. destruct (assoc "modules" c) as [v|]; [|discriminate].
    injection Hm as ->. unfold lift in Hit. cbn [py_items] in Hit. split; congruence. }
  destruct I as [-> ->].
  rewrite (fetch_loop_others E wd config X HX items il w1 w' Hi H) in *.
  destruct (fetch_prologue_quiet _ _ _ _ _ _ Hp) as (S1 & _ & S3).
  split; [now exists il | split; assumption].
Qed.

Lemma fetch_of_unknown_module_only_prepares_witness :
  (exists ignore_list,
      fetch_prologue Toy.ext Toy.wd Toy.config Toy.world
      = (Ok ignore_list, snd (_fetch_modules Toy.ext Toy.wd Toy.config (Some "nolib") Toy.world)))
  /\ stdout (snd (_fetch_modules Toy.ext Toy.wd Toy.config (Some "nolib") Toy.world))
     = stdout Toy.world
  /\ calls (snd (_fetch_modules Toy.ext Toy.wd Toy.config (Some "nolib") Toy.world))
     = (calls Toy.world ++ [GitRepo "."])%list.
Proof.
  apply (fetch_of_unknown_module_only_prepares Toy.ext Toy.wd Toy.config
           [("lib", Toy.lib)] "nolib" Toy.world
           (snd (_fetch_modules Toy.ext Toy.wd Toy.config (Some "nolib") Toy.world))).
  - reflexivity.
  - discriminate.
  - discriminate.
  - intros [I|[]]. discriminate I.
  - vm_compute. reflexivity.
Defined.

(** X16: the task [-modules:<X>] for a name [X] that no module of the
    configuration has completes without touching anything: the file system,
    both output streams and the list of launched calls are as before. *)
Theorem clean_of_unknown_module_does_nothing :
  forall E wd config items X w,
    py_get config "modules" PNone = Ok (PDict items) ->
    X <> EmptyString ->
    PyStr.find X "modules:" = -1 ->
    ~ In X (map fst items) ->
    run_task E wd config (PStr ("-modules:" ++ X)) w = (Ok tt, w).
Proof.
  intros E wd config items X w Hm HX Hf Hi.
  cbn [run_task]. rewrite (run_command_clean_form E wd config X w Hf).
  unfold _clean_modules. unfold bind at 1. unfold lift at 1. rewrite Hm.
  unfold bind at 1. unfold lift at 1. cbn [py_items].
  now apply clean_loop_unknown.
Qed.

Lemma clean_of_unknown_module_does_nothing_witness :
  run_task Toy.ext Toy.wd Toy.config (PStr ("-modules:" ++ "nolib")) Toy.stale_world
  = (Ok tt, Toy.stale_world).
Proof.
  apply (clean_of_unknown_module_does_nothing Toy.ext Toy.wd Toy.config
           [("lib", Toy.lib)] "nolib" Toy.stale_world).
  - reflexivity.
  - discriminate.
  - reflexivity.
  - intros [I|[]]. discriminate I.
Defined.

(** ** The two directory helpers *)

(** X17: [_remove_dir] on a plain name returns whether something was
    there; when it returns, nothing is at the name any more, what was there
    was a directory, every path apart from the name holds what it held, no
    free name has been taken, and nothing was printed or launched. *)
Theorem remove_dir_postcondition :
  forall wd p w b w',
    plain_name p = true ->
    _remove_dir wd p w = (Ok b, w') ->
    b = FS.exists_ (FS.resolve wd p) (fs w)
    /\ b = FS.isdir (FS.resolve wd p) (fs w)
    /\ FS.exists_ (FS.resolve wd p) (fs w') = false
    /\ (forall q, FS.apart (FS.resolve wd p) q = true ->
                  FS.lookup q (fs w') = FS.lookup q (fs w))
    /\ (forall q, FS.exists_ q (fs w) = false -> FS.exists_ q (fs w') = false)
    /\ stdout w' = stdout w /\ stderr w' = stderr w /\ calls w' = calls w.
Proof.
  intros wd p w b w' Hpl H.
  pose proof (plain_name_named p Hpl) as Hp.
  destruct (remove_dir_ok wd p w b w' Hp H) as (G & F & B0 & B1 & S1 & S2 & S3).
  destruct b.
  - destruct (B1 eq_refl) as (D & ->). cbn [fs set_fs].
    split; [|split; [now rewrite D|]].
    + unfold FS.isdir in D. unfold FS.exists_.
      now destruct (FS.lookup (FS.resolve wd p) (fs w)).
    + split; [exact G|]. split; [exact F|].
      split; [|repeat split; assumption].
      intros q Hq. unfold FS.exists_ in *.
      destruct (FS.lookup q (fs w)) eqn:L; [discriminate|].
      now rewrite (lookup_remove_none _ _ _ L).
  - rewrite (B0 eq_refl) in *.
    split; [now rewrite G|]. split.
    + unfold FS.isdir. unfold FS.exists_ in G.
      now destruct (FS.lookup (FS.resolve wd p) (fs w)).
    + split; [exact G|]. split; [exact F|]. split; [auto|].
      repeat split; reflexivity.
Qed.

Lemma remove_dir_postcondition_witness :
  true = FS.exists_ (FS.resolve Toy.wd "lib") (fs Toy.stale_world)
  /\ true = FS.isdir (FS.resolve Toy.wd "lib") (fs Toy.stale_world)
  /\ FS.exists_ (FS.resolve Toy.wd "lib")
       (fs (snd (_remove_dir Toy.wd "lib" Toy.stale_world))) = false
  /\ (forall q, FS.apart (FS.resolve Toy.wd "lib") q = true ->
                FS.lookup q (fs (snd (_remove_dir Toy.wd "lib" Toy.stale_world)))
                = FS.lookup q (fs Toy.stale_world))
  /\ (forall q, FS.exists_ q (fs Toy.stale_world) = false ->
                FS.exists_ q (fs (snd (_remove_dir Toy.wd "lib" Toy.stale_world))) = false)
  /\ stdout (snd (_remove_dir Toy.wd "lib" Toy.stale_world)) = stdout Toy.stale_world
  /\ stderr (snd (_remove_dir Toy.wd "lib" Toy.stale_world)) = stderr Toy.stale_world
  /\ calls (snd (_remove_dir Toy.wd "lib" Toy.stale_world)) = calls Toy.stale_world.
Proof.
  apply (remove_dir_postcondition Toy.wd "lib" Toy.stale_world true
           (snd (_remove_dir Toy.wd "lib" Toy.stale_world)));
    reflexivity.
Defined.

Lemma set_fs_same : forall w, set_fs w (fs w) = w.
Proof. now destruct w. Qed.

(** X18: when [_create_dir] returns for a plain name, something is at the
    name, everything apart from it is as before, a second call changes
    nothing, and a call on a name that is already taken (by a directory or
    by a regular file) changes nothing either. *)
Theorem create_dir_postcondition :
  forall wd p w w',
    plain_name p = true ->
    _create_dir wd p w = (Ok tt, w') ->
    FS.exists_ (FS.resolve wd p) (fs w') = true
    /\ (forall q, FS.apart (FS.resolve wd p) q = true ->
                  FS.lookup q (fs w') = FS.lookup q (fs w))
    /\ (FS.exists_ (FS.resolve wd p) (fs w) = true -> w' = w)
    /\ _create_dir wd p w' = (Ok tt, w')
    /\ stdout w' = stdout w /\ stderr w' = stderr w /\ calls w' = calls w.
Proof.
  intros wd p w w' Hpl H.
  pose proof (plain_name_named p Hpl) as Hp.
  destruct (create_dir_ok wd p w w' Hp H) as (G & F & B & S1 & S2 & S3).
  split; [exact G|]. split; [exact F|]. split; [exact B|].
  split; [|repeat split; assumption].
  unfold _create_dir. unfold bind at 1. unfold os_path_exists at 1.
  assert (N : no_name p = false) by (apply String.eqb_neq; exact Hp).
  rewrite N, G. reflexivity.
Qed.

Lemma create_dir_postcondition_witness :
  FS.exists_ (FS.resolve Toy.wd ".quack/modules")
    (fs (snd (_create_dir Toy.wd ".quack/modules" Toy.world))) = true
  /\ (forall q, FS.apart (FS.resolve Toy.wd ".quack/modules") q = true ->
                FS.lookup q (fs (snd (_create_dir Toy.wd ".quack/modules" Toy.world)))
                = FS.lookup q (fs Toy.world))
  /\ (FS.exists_ (FS.resolve Toy.wd ".quack/modules") (fs Toy.world) = true ->
      snd (_create_dir Toy.wd ".quack/modules" Toy.world) = Toy.world)
  /\ _create_dir Toy.wd ".quack/modules" (snd (_create_dir Toy.wd ".quack/modules" Toy.world))
     = (Ok tt, snd (_create_dir Toy.wd ".quack/modules" Toy.world))
  /\ stdout (snd (_create_dir Toy.wd ".quack/modules" Toy.world)) = stdout Toy.world
  /\ stderr (snd (_create_dir Toy.wd ".quack/modules" Toy.world)) = stderr Toy.world
  /\ calls (snd (_create_dir Toy.wd ".quack/modules" Toy.world)) = calls Toy.world.
Proof.
  apply (create_dir_postcondition Toy.wd ".quack/modules" Toy.world
           (snd (_create_dir Toy.wd ".quack/modules" Toy.world)));
    reflexivity.
Defined.

(** ** The copy step of a module *)

Lemma fs_do_ok : forall wd op p w u w',
  fs_do wd op p w = (Ok u, w') ->
  p <> EmptyString
  /\ exists n, op (FS.resolve wd p) (fs w) = Ok n /\ w' = set_fs w n.
Proof.
  intros wd op p w u w' H. unfold fs_do in H.
  destruct (no_name p) eqn:N; [discriminate|].
  split; [now apply String.eqb_neq|].
  destruct (op (FS.resolve wd p) (fs w)) as [n|e]; [|discriminate].
  exists n. split; [reflexivity | congruence].
Qed.

Lemma format_skipped : forall v : pyval,
  py_format "%s folder does not exists. Skipped." [v]
  = Ok (py_str v ++ " folder does not exists. Skipped.").
Proof. reflexivity. Qed.

(** X19: for a module with a plain name, whose [path] is empty or a plain
    name: the copy step, when it completes, has written only at the
    destination of the module.  Whatever lies apart from the module's name
    is as before, and nothing is launched or written to standard error.
    When the copy runs nothing is printed; when the module names a path
    that the checkout does not have, nothing is copied at all: the file
    system is as before (a destination left by an earlier run stays) and
    the skip is reported on standard output. *)
Theorem copy_step_writes_only_destination :
  forall wd module p w w',
    plain_name (PyModule.name module) = true ->
    PyModule.path module = PStr p ->
    p = EmptyString \/ plain_name p = true ->
    materialize wd module w = (Ok tt, w') ->
    (forall q, FS.apart (FS.resolve wd (PyModule.name module)) q = true ->
               FS.lookup q (fs w') = FS.lookup q (fs w))
    /\ stderr w' = stderr w /\ calls w' = calls w
    /\ (if copies module (FS.lookup (FS.resolve wd (source_path module)) (fs w))
        then stdout w' = stdout w
        else fs w' = fs w
             /\ stdout w' = (stdout w ++ [(p ++ " folder does not exists. Skipped.")%string])%list).
Proof.
  intros wd module p w w' _ Hpath _ H.
  unfold materialize in H. rewrite from_path_of_eq in H.
  unfold bind at 1 in H. unfold lift at 1 in H.
  unfold bind at 1 in H. unfold os_path_exists at 1 in H.
  rewrite source_path_named in H. cbn [negb andb] in H.
  unfold FS.exists_ in H. unfold copies.
  set (source := FS.lookup (FS.resolve wd (source_path module)) (fs w)) in *.
  destruct (truthy (PyModule.path module)
            && match source with Some _ => true | None => false end
            || negb (truthy (PyModule.path module))) eqn:C.
  - destruct (truthy (PyModule.isfile module)).
    + bind_inv H as f wa Hf. bind_inv H as u wb Hr.
      unfold os_path_isfile in Hf. injection Hf as <- <-.
      unfold shutil_copyfile in H. rewrite source_path_named in H.
      destruct (fs_do_ok _ _ _ _ _ _ H) as (N & n & Cp & ->).
      cbn [fs set_fs stdout stderr calls].
      assert (R : (forall q, FS.apart (FS.resolve wd (PyModule.name module)) q = true ->
                             FS.lookup q (fs wb) = FS.lookup q (fs w))
                  /\ stdout wb = stdout w /\ stderr wb = stderr w /\ calls wb = calls w).
      { destruct (negb (no_name (PyModule.name module)) && _).
        - destruct (fs_do_ok _ _ _ _ _ _ Hr) as (_ & n0 & U & ->).
          cbn [fs set_fs stdout stderr calls].
          split; [|repeat split; reflexivity].
          intros q A. exact (unlink_apart _ _ _ _ A U).
        - unfold ret in Hr. injection Hr as _ <-.
          split; [auto | repeat split; reflexivity]. }
      destruct R as (R1 & R2 & R3 & R4).
      split; [|repeat split; assumption].
      intros q A. rewrite (copyfile_apart _ _ _ _ _ A Cp). now apply R1.
    + bind_inv H as b wb Hr.
      unfold shutil_copytree_ignore_git in H. rewrite source_path_named in H.
      destruct (fs_do_ok _ _ _ _ _ _ H) as (N & n & Cp & ->).
      cbn [fs set_fs stdout stderr calls].
      destruct (remove_dir_ok wd _ w b wb N Hr) as (_ & Fr & _ & _ & S1 & S2 & S3).
      split; [|repeat split; assumption].
      intros q A. rewrite (copytree_apart _ _ _ _ _ A Cp). now apply Fr.
  - assert (T : truthy (PyModule.path module) = true
                /\ match source with Some _ => true | None => false end = false).
    { destruct (truthy (PyModule.path module)); [|discriminate C].
      destruct source; [discriminate C | split; reflexivity]. }
    destruct T as [_ T]. rewrite T in H. cbn [negb] in H.
    unfold bind at 1 in H. unfold lift at 1 in H.
    rewrite format_skipped, Hpath in H. unfold print in H. injection H as <-.
    cbn [fs stdout stderr calls]. repeat split; reflexivity.
Qed.


Lemma copy_step_writes_only_destination_witness :
  (forall q,
      FS.apart (FS.resolve Toy.wd
                  (PyModule.name (PyModule.of_dict "lib" [("repository", PStr Toy.remote_url)])))
        q = true ->
      FS.lookup q
        (fs (snd (materialize Toy.wd
                    (PyModule.of_dict "lib" [("repository", PStr Toy.remote_url)])
                    (mkWorld (Toy.cloned Toy.stale_world) [] [] []))))
      = FS.lookup q (fs (mkWorld (Toy.cloned Toy.stale_world) [] [] [])))
  /\ stderr (snd (materialize Toy.wd
                    (PyModule.of_dict "lib" [("repository", PStr Toy.remote_url)])
                    (mkWorld (Toy.cloned Toy.stale_world) [] [] [])))
     = stderr (mkWorld (Toy.cloned Toy.stale_world) [] [] [])
  /\ calls (snd (materialize Toy.wd
                   (PyModule.of_dict "lib" [("repository", PStr Toy.remote_url)])
                   (mkWorld (Toy.cloned Toy.stale_world) [] [] [])))
     = calls (mkWorld (Toy.cloned Toy.stale_world) [] [] [])
  /\ (if copies (PyModule.of_dict "lib" [("repository", PStr Toy.remote_url)])
           (FS.lookup
              (FS.resolve Toy.wd
                 (source_path (PyModule.of_dict "lib" [("repository", PStr Toy.remote_url)])))
              (fs (mkWorld (Toy.cloned Toy.stale_world) [] [] [])))
      then stdout (snd (materialize Toy.wd
                          (PyModule.of_dict "lib" [("repository", PStr Toy.remote_url)])
                          (mkWorld (Toy.cloned Toy.stale_world) [] [] [])))
           = stdout (mkWorld (Toy.cloned Toy.stale_world) [] [] [])
      else fs (snd (materialize Toy.wd
                      (PyModule.of_dict "lib" [("repository", PStr Toy.remote_url)])
                      (mkWorld (Toy.cloned Toy.stale_world) [] [] [])))
           = fs (mkWorld (Toy.cloned Toy.stale_world) [] [] [])
           /\ stdout (snd (materialize Toy.wd
                             (PyModule.of_dict "lib" [("repository", PStr Toy.remote_url)])
                             (mkWorld (Toy.cloned Toy.stale_world) [] [] [])))
              = (stdout (mkWorld (Toy.cloned Toy.stale_world) [] [] [])
                 ++ [(EmptyString ++ " folder does not exists. Skipped.")%string])%list).
Proof.
  apply (copy_step_writes_only_destination Toy.wd
           (PyModule.of_dict "lib" [("repository", PStr Toy.remote_url)]) EmptyString
           (mkWorld (Toy.cloned Toy.stale_world) [] [] [])
           (snd (materialize Toy.wd
                   (PyModule.of_dict "lib" [("repository", PStr Toy.remote_url)])
                   (mkWorld (Toy.cloned Toy.stale_world) [] [] [])))).
  - reflexivity.
  - reflexivity.
  - left. reflexivity.
  - vm_compute. reflexivity.
Defined.

(** ** What a copied tree holds *)

Lemma assoc_strip_git : forall (k : string) (es : list (string * FS.node)),
  assoc k
    ((fix go (l : list (string * FS.node)) : list (string * FS.node) :=
        match l with
        | [] => []
        | (k, v) :: t =>
            if prefix ".git" k then go t else (k, FS.strip_git v) :: go t
        end) es)
  = if git_entry k then None else option_map FS.strip_git (assoc k es).
Proof.
  intros k es. induction es as [|[k' v] es IH].
  - cbn [assoc option_map]. now destruct (git_entry k).
  - cbn [assoc]. destruct (prefix ".git" k') eqn:P.
    + rewrite IH. destruct (String.eqb k k') eqn:Q; [|reflexivity].
      apply String.eqb_eq in Q. subst k'. unfold git_entry. now rewrite P.
    + cbn [assoc]. destruct (String.eqb k k') eqn:Q; [|exact IH].
      apply String.eqb_eq in Q. subst k'. unfold git_entry. now rewrite P.
Qed.

(** A path into a tree copied with [ignore_patterns('.git*')]: nothing
    when one of its components starts with [.git], else what the source
    holds there, copied the same way. *)
Lemma lookup_strip_git : forall (q : FS.path) (n : FS.node),
  FS.lookup q (FS.strip_git n)
  = if existsb git_entry q then None else option_map FS.strip_git (FS.lookup q n).
Proof.
  induction q as [|c q IH]; intros n.
  - reflexivity.
  - destruct n as [x|es].
    + cbn [FS.strip_git FS.lookup existsb option_map].
      now destruct (git_entry c || existsb git_entry q).
    + cbn [FS.strip_git FS.lookup existsb]. rewrite assoc_strip_git.
      destruct (git_entry c); [reflexivity|]. cbn [orb].
      destruct (assoc c es) as [sub|]; cbn [option_map].
      * apply IH.
      * now destruct (existsb git_entry q).
Qed.

(** X20: when the copy step of a module that is no single file finds a
    directory at the source, the destination afterwards is a directory that
    holds the source tree without every entry, at any depth, whose name
    starts with [.git]: a path below the destination with such a component
    names nothing, and any other path names what the source holds there. *)
Theorem vendored_tree_is_source_without_git :
  forall wd X d es w w',
    X <> EmptyString ->
    destination_clear wd (PyModule.of_dict X d) = true ->
    truthy (PyModule.isfile (PyModule.of_dict X d)) = false ->
    FS.lookup (FS.resolve wd (source_path (PyModule.of_dict X d))) (fs w) = Some (FS.Dir es) ->
    materialize wd (PyModule.of_dict X d) w = (Ok tt, w') ->
    FS.isdir (FS.resolve wd X) (fs w') = true
    /\ forall q,
        FS.lookup (FS.resolve wd X ++ q)%list (fs w')
        = if existsb git_entry q then None
          else option_map FS.strip_git
                 (FS.lookup (FS.resolve wd (source_path (PyModule.of_dict X d)) ++ q)%list
                    (fs w)).
Proof.
  intros wd X d es w w' HX Hc Hi Hs H.
  pose proof (materialize_dest wd X d (Some (FS.Dir es)) HX Hc w w' Hs H) as L.
  assert (C : copies (PyModule.of_dict X d) (Some (FS.Dir es)) = true).
  { unfold copies. now destruct (truthy (PyModule.path (PyModule.of_dict X d))). }
  rewrite C in L. unfold vendored in L. rewrite Hi in L.
  split.
  - unfold FS.isdir. rewrite L. reflexivity.
  - intros q. rewrite !lookup_app, L, Hs. apply lookup_strip_git.
Qed.

Lemma vendored_tree_is_source_without_git_witness :
  FS.isdir (FS.resolve Toy.wd "lib")
    (fs (snd (materialize Toy.wd (PyModule.of_dict "lib" [("repository", PStr Toy.remote_url)])
                (snd (repo_create_submodule Toy.ext Toy.wd "lib" ".quack/modules/lib"
                        Toy.remote_url (PStr "master") Toy.stale_world))))) = true
  /\ forall q,
      FS.lookup (FS.resolve Toy.wd "lib" ++ q)%list
        (fs (snd (materialize Toy.wd
                    (PyModule.of_dict "lib" [("repository", PStr Toy.remote_url)])
                    (snd (repo_create_submodule Toy.ext Toy.wd "lib" ".quack/modules/lib"
                            Toy.remote_url (PStr "master") Toy.stale_world)))))
      = if existsb git_entry q then None
        else option_map FS.strip_git
               (FS.lookup
                  (FS.resolve Toy.wd
                     (source_path (PyModule.of_dict "lib" [("repository", PStr Toy.remote_url)]))
                   ++ q)%list
                  (fs (snd (repo_create_submodule Toy.ext Toy.wd "lib" ".quack/modules/lib"
                              Toy.remote_url (PStr "master") Toy.stale_world)))).
Proof.
  apply (vendored_tree_is_source_without_git Toy.wd "lib"
           [("repository", PStr Toy.remote_url)]
           [(".git", FS.Dir [("HEAD", FS.File "ref: refs/heads/main")]);
            (".gitignore", FS.File "*.pyc");
            ("README", FS.File "hello");
            ("src", FS.Dir [("a.py", FS.File "print(1)");
                            (".gitkeep", FS.File EmptyString)])]
           (snd (repo_create_submodule Toy.ext Toy.wd "lib" ".quack/modules/lib"
                   Toy.remote_url (PStr "master") Toy.stale_world))
           (snd (materialize Toy.wd (PyModule.of_dict "lib" [("repository", PStr Toy.remote_url)])
                   (snd (repo_create_submodule Toy.ext Toy.wd "lib" ".quack/modules/lib"
                           Toy.remote_url (PStr "master") Toy.stale_world))))).
  - discriminate.
  - reflexivity.
  - reflexivity.
  - vm_compute. reflexivity.
  - vm_compute. reflexivity.
Defined.

(** ** The ignore file *)


(** [(a + sep + b).split(sep) == a.split(sep) + b.split(sep)] *)
Lemma split_app : forall (sep : ascii) (a b : string),
  PyStr.split sep (a ++ String sep b) = (PyStr.split sep a ++ PyStr.split sep b)%list.
Proof.
  intros sep. induction a as [|c a IH]; intros b.
  - cbn [append PyStr.split]. now rewrite Ascii.eqb_refl.
  - change (String c a ++ String sep b) with (String c (a ++ String sep b)).
    cbn [PyStr.split]. rewrite IH.
    destruct (Ascii.eqb c sep); [reflexivity|].
    pose proof (split_not_nil sep a) as N.
    destruct (PyStr.split sep a) as [|h t]; [congruence | reflexivity].
Qed.

Lemma mem_app : forall (x : string) (l1 l2 : list string),
  PyStr.mem x (l1 ++ l2)%list = PyStr.mem x l1 || PyStr.mem x l2.
Proof. intros x l1 l2. unfold PyStr.mem. apply existsb_app. Qed.

Lemma mem_self : forall (x : string) (l : list string),
  PyStr.mem x (l ++ [x])%list = true.
Proof.
  intros x l. rewrite mem_app. unfold PyStr.mem at 2. cbn [existsb].
  rewrite String.eqb_refl. apply orb_true_r.
Qed.

(** X21: with [gitignore] set, the last step of a turn keeps the list of
    the pass and the ignore file in step.  If every name of the list is a
    line of the file before, then afterwards the module's name is in the
    list, every name of the list is still a line of the file, and running
    the step again writes nothing (the name is not appended twice); only the
    ignore file is written; and a name that was in the list already leaves
    an existing ignore file as it was. *)
Theorem ignore_step_keeps_list_and_file_in_step :
  forall wd config g module ignore_list w ignore_list' w',
    py_get config "gitignore" PNone = Ok g ->
    truthy g = true ->
    PyStr.has_char PyStr.newline (PyModule.name module) = false ->
    (forall x, PyStr.mem x ignore_list = true ->
               PyStr.mem x (ignored_lines wd (fs w)) = true) ->
    ignore wd config module ignore_list w = (Ok ignore_list', w') ->
    PyStr.mem (PyModule.name module) ignore_list' = true
    /\ (forall x, PyStr.mem x ignore_list' = true ->
                  PyStr.mem x (ignored_lines wd (fs w')) = true)
    /\ ignore wd config module ignore_list' w' = (Ok ignore_list', w')
    /\ (forall q, FS.apart (FS.resolve wd ".gitignore") q = true ->
                  FS.lookup q (fs w') = FS.lookup q (fs w))
    /\ (PyStr.mem (PyModule.name module) ignore_list = true ->
        FS.isfile (FS.resolve wd ".gitignore") (fs w) = true -> w' = w)
    /\ stdout w' = stdout w /\ stderr w' = stderr w /\ calls w' = calls w.
Proof.
  intros wd config g module il w il' w' Hg Tg Hn Inv H.
  assert (Again : forall l v, PyStr.mem (PyModule.name module) l = true ->
            (exists c, FS.lookup (FS.resolve wd ".gitignore") (fs v) = Some (FS.File c)) ->
            ignore wd config module l v = (Ok l, v)).
  { intros l v M (c & L). unfold ignore. unfold bind at 1. unfold lift at 1.
    rewrite Hg, Tg. unfold bind at 1. unfold open_append, fs_do.
    change (no_name ".gitignore") with false. cbv iota.
    unfold FS.open_append. rewrite L, M, set_fs_same. reflexivity. }
  unfold ignore in H. unfold bind at 1 in H. unfold lift at 1 in H.
  rewrite Hg, Tg in H. bind_inv H as u wa Ho.
  destruct (fs_do_ok _ _ _ _ _ _ Ho) as (_ & n & O & ->).
  assert (Fa : exists c, FS.lookup (FS.resolve wd ".gitignore") n = Some (FS.File c)
               /\ (forall x, PyStr.mem x il = true ->
                             PyStr.mem x (PyStr.split PyStr.newline c) = true)
               /\ (FS.isfile (FS.resolve wd ".gitignore") (fs w) = true -> n = fs w)).
  { unfold FS.open_append in O. unfold ignored_lines in Inv. unfold FS.isfile.
    destruct (FS.lookup (FS.resolve wd ".gitignore") (fs w)) as [[c|es]|] eqn:L;
      try discriminate.
    - injection O as <-. exists c. split; [exact L | split; [exact Inv | reflexivity]].
    - exists EmptyString. split; [exact (lookup_write_file_same _ _ _ _ O)|].
      split; [|discriminate]. intros x M. specialize (Inv x M). discriminate Inv. }
  destruct Fa as (c & L & Inv' & Same).
  assert (Fr : forall q, FS.apart (FS.resolve wd ".gitignore") q = true ->
                         FS.lookup q n = FS.lookup q (fs w)).
  { intros q A. exact (open_append_apart _ _ _ _ A O). }
  destruct (PyStr.mem (PyModule.name module) il) eqn:M; cbn [negb] in H.
  - unfold ret in H. injection H as <- <-. cbn [fs set_fs stdout stderr calls].
    split; [exact M|]. split.
    { intros x Mx. unfold ignored_lines. rewrite L. now apply Inv'. }
    split; [apply Again; [exact M | now exists c]|].
    split; [exact Fr|]. split; [|repeat split; reflexivity].
    intros _ F. rewrite (Same F). apply set_fs_same.
  - bind_inv H as u1 wb Hw. unfold ret in H. injection H as <- <-.
    unfold file_write in Hw.
    destruct (fs_do_ok _ _ _ _ _ _ Hw) as (_ & n' & W & ->).
    cbn [fs set_fs stdout stderr calls] in *.
    unfold FS.append in W. rewrite L in W.
    pose proof (lookup_write_file_same _ _ _ _ W) as L'.
    split; [apply mem_self|]. split.
    { intros x Mx. unfold ignored_lines. rewrite L'.
      change (PyStr.nl ++ PyModule.name module)
        with (String PyStr.newline (PyModule.name module)).
      rewrite split_app, (split_no_sep _ _ Hn), mem_app.
      rewrite mem_app in Mx. apply orb_true_iff in Mx. destruct Mx as [Mx|Mx].
      - rewrite (Inv' x Mx). reflexivity.
      - rewrite Mx. apply orb_true_r. }
    split; [apply Again; [apply mem_self | eexists; exact L']|].
    split; [|split; [discriminate | repeat split; reflexivity]].
    intros q A. rewrite (lookup_write_file_apart _ _ _ _ _ A W). now apply Fr.
Qed.

Lemma ignore_step_keeps_list_and_file_in_step_witness :
  PyStr.mem (PyModule.name (PyModule.of_dict "lib" [])) ["lib"] = true
  /\ (forall x, PyStr.mem x ["lib"] = true ->
                PyStr.mem x
                  (ignored_lines Toy.wd
                     (fs (snd (ignore Toy.wd (PDict [("gitignore", PBool true)])
                                 (PyModule.of_dict "lib" []) [] Toy.world)))) = true)
  /\ ignore Toy.wd (PDict [("gitignore", PBool true)]) (PyModule.of_dict "lib" []) ["lib"]
       (snd (ignore Toy.wd (PDict [("gitignore", PBool true)])
               (PyModule.of_dict "lib" []) [] Toy.world))
     = (Ok ["lib"],
        snd (ignore Toy.wd (PDict [("gitignore", PBool true)])
               (PyModule.of_dict "lib" []) [] Toy.world))
  /\ (forall q, FS.apart (FS.resolve Toy.wd ".gitignore") q = true ->
                FS.lookup q
                  (fs (snd (ignore Toy.wd (PDict [("gitignore", PBool true)])
                              (PyModule.of_dict "lib" []) [] Toy.world)))
                = FS.lookup q (fs Toy.world))
  /\ (PyStr.mem (PyModule.name (PyModule.of_dict "lib" [])) [] = true ->
      FS.isfile (FS.resolve Toy.wd ".gitignore") (fs Toy.world) = true ->
      snd (ignore Toy.wd (PDict [("gitignore", PBool true)])
             (PyModule.of_dict "lib" []) [] Toy.world) = Toy.world)
  /\ stdout (snd (ignore Toy.wd (PDict [("gitignore", PBool true)])
                    (PyModule.of_dict "lib" []) [] Toy.world)) = stdout Toy.world
  /\ stderr (snd (ignore Toy.wd (PDict [("gitignore", PBool true)])
                    (PyModule.of_dict "lib" []) [] Toy.world)) = stderr Toy.world
  /\ calls (snd (ignore Toy.wd (PDict [("gitignore", PBool true)])
                   (PyModule.of_dict "lib" []) [] Toy.world)) = calls Toy.world.
Proof.
  apply (ignore_step_keeps_list_and_file_in_step Toy.wd
           (PDict [("gitignore", PBool true)]) (PBool true)
           (PyModule.of_dict "lib" []) [] Toy.world ["lib"]
           (snd (ignore Toy.wd (PDict [("gitignore", PBool true)])
                   (PyModule.of_dict "lib" []) [] Toy.world))).
  - reflexivity.
  - reflexivity.
  - reflexivity.
  - intros x M. discriminate M.
  - reflexivity.
Defined.

(** ** A turn of the vendoring loop that clones *)


Lemma toy_remove_leaves_gitmodules : forall name path n n',
  submodule_remove Toy.ext name path Toy.wd n = Ok n' ->
  FS.isfile (FS.resolve Toy.wd ".gitmodules") n' = true.
Proof.
  intros name path n n' H. unfold Toy.ext in H. cbn [submodule_remove] in H.
  destruct (FS.rmtree _ n) as [n1|e]; [|discriminate H].
  unfold FS.isfile. now rewrite (lookup_write_file_same _ _ _ _ H).
Qed.


(** ** The summary line of [main] *)

Lemma format_summary : forall a b : Z,
  py_format "%s task(s) completed with %s dependencies." [PInt a; PInt b]
  = Ok (PyStr.of_Z a ++ " task(s) completed with " ++ PyStr.of_Z b ++ " dependencies.").
Proof.
  intros a b. cbn. rewrite ?append_empty_r. reflexivity.
Qed.

(** What [_run_tasks] returns for a profile with a mapping of dependencies
    and a list of tasks. *)
Lemma run_tasks_stats : forall E wd config profile items commands w stats w',
  py_get profile "dependencies" (PDict []) = Ok (PDict items) ->
  py_get profile "tasks" (PList []) = Ok (PList commands) ->
  _run_tasks E wd config profile w = (Ok stats, w') ->
  tasks stats = Z.of_nat (length commands)
  /\ dependencies stats = Z.of_nat (length items).
Proof.
  intros E wd config profile items commands w stats w' Hd Ht H.
  unfold _run_tasks in H. bind_inv H as s0 w0 H0.
  destruct (run_dependencies_count _ _ _ _ _ _ _ Hd H0) as (A & B).
  unfold bind at 1 in H. unfold lift at 1 in H. rewrite Ht in H.
  destruct commands as [|c commands].
  - cbn [truthy negb] in H. unfold bind, print, ret in H. injection H as <- _.
    split; assumption.
  - cbn [truthy negb] in H. unfold bind at 1 in H. unfold lift at 1 in H.
    cbn [py_iter] in H.
    destruct (tasks_loop_count _ _ _ _ _ _ _ _ H) as (C & D).
    split; [rewrite C, A; reflexivity | rewrite D, B; reflexivity].
Qed.

(** X23: when [main] completes for a configuration and a profile of it
    that has a mapping of dependencies and a list of tasks, the last line on
    standard output is the summary, with the number of tasks of the profile
    and the number of its dependencies. *)
Theorem main_reports_the_counts :
  forall E wd k c ps p items commands prompted w w',
    c <> [] ->
    py_get (PDict c) "profiles" (PDict []) = Ok (PDict ps) ->
    assoc k ps = Some p ->
    py_get p "dependencies" (PDict []) = Ok (PDict items) ->
    py_get p "tasks" (PList []) = Ok (PList commands) ->
    main E wd (Some k) (PDict c) prompted w = (Ok tt, w') ->
    last (stdout w') EmptyString
    = (PyStr.of_Z (Z.of_nat (length commands)) ++ " task(s) completed with "
       ++ PyStr.of_Z (Z.of_nat (length items)) ++ " dependencies.")%string.
Proof.
  intros E wd k c ps p items commands prompted w w' Hc Hp Hk Hd Ht H.
  unfold main in H. bind_inv H as u w1 H1.
  assert (T : truthy (PDict c) = true) by (destruct c; [contradiction | reflexivity]).
  rewrite T in H. cbv beta iota zeta in H. rewrite T in H. cbn [negb] in H.
  unfold bind at 1 in H. unfold lift at 1 in H. rewrite Hp in H.
  unfold bind at 1 in H. unfold lift at 1 in H. cbn [py_get] in H. rewrite Hk in H.
  bind_inv H as stats w2 H2.
  destruct (run_tasks_stats _ _ _ _ _ _ _ _ _ Hd Ht H2) as (A & B).
  unfold bind at 1 in H. unfold lift at 1 in H.
  rewrite format_summary, A, B in H. unfold print in H. injection H as <-.
  cbn [stdout]. apply last_last.
Qed.

Lemma main_reports_the_counts_witness :
  last (stdout (snd (main Toy.ext Toy.wd (Some "ci")
                       (PDict [("name", PStr "demo");
                               ("profiles",
                                PDict [("ci",
                                        PDict [("dependencies", PDict [("make", PStr "all")]);
                                               ("tasks", PList [PStr "cmd:make"; PStr "lint"])])])])
                       PNone Toy.world)))
    EmptyString
  = (PyStr.of_Z (Z.of_nat (length [PStr "cmd:make"; PStr "lint"]))
     ++ " task(s) completed with "
     ++ PyStr.of_Z (Z.of_nat (length [("make", PStr "all")])) ++ " dependencies.")%string.
Proof.
  apply (main_reports_the_counts Toy.ext Toy.wd "ci"
           [("name", PStr "demo");
            ("profiles",
             PDict [("ci",
                     PDict [("dependencies", PDict [("make", PStr "all")]);
                            ("tasks", PList [PStr "cmd:make"; PStr "lint"])])])]
           [("ci", PDict [("dependencies", PDict [("make", PStr "all")]);
                          ("tasks", PList [PStr "cmd:make"; PStr "lint"])])]
           (PDict [("dependencies", PDict [("make", PStr "all")]);
                   ("tasks", PList [PStr "cmd:make"; PStr "lint"])])
           [("make", PStr "all")] [PStr "cmd:make"; PStr "lint"] PNone Toy.world
           (snd (main Toy.ext Toy.wd (Some "ci")
                   (PDict [("name", PStr "demo");
                           ("profiles",
                            PDict [("ci",
                                    PDict [("dependencies", PDict [("make", PStr "all")]);
                                           ("tasks", PList [PStr "cmd:make"; PStr "lint"])])])])
                   PNone Toy.world))).
  - discriminate.
  - reflexivity.
  - reflexivity.
  - reflexivity.
  - reflexivity.
  - vm_compute. reflexivity.
Defined.

(** ** The preparation of a pass *)

Lemma mem_In : forall (x : string) (l : list string),
  PyStr.mem x l = true <-> In x l.
Proof.
  intros x l. unfold PyStr.mem. rewrite existsb_exists. split.
  - intros (y & I & Q). apply String.eqb_eq in Q. now subst y.
  - intros I. exists x. split; [exact I | apply String.eqb_refl].
Qed.

Lemma mem_distinct : forall (x : string) (l : list string),
  PyStr.mem x (PyStr.distinct l) = PyStr.mem x l.
Proof.
  intros x l. unfold PyStr.distinct.
  destruct (PyStr.mem x l) eqn:M.
  - apply mem_In. apply nodup_In. now apply mem_In.
  - destruct (PyStr.mem x (nodup string_dec l)) eqn:N; [|reflexivity].
    apply mem_In, nodup_In, mem_In in N. congruence.
Qed.

Lemma fetch_prologue_list : forall E wd config g w ignore_list w',
  py_get config "gitignore" PNone = Ok g ->
  fetch_prologue E wd config w = (Ok ignore_list, w') ->
  NoDup ignore_list
  /\ (forall x, PyStr.mem x ignore_list
                = truthy g && PyStr.mem x (read_lines wd (fs w')))
  /\ git_Repo E "." wd (fs w') = Ok tt.
Proof.
  intros E wd config g w ignore_list w' Hg H. unfold fetch_prologue in H.
  bind_inv H as b w0 H0. bind_inv H as u w1 H1. destruct u.
  unfold bind at 1 in H. unfold lift at 1 in H. rewrite Hg in H.
  unfold bind at 1 in H. unfold os_path_isfile at 1 in H.
  unfold bind at 1 in H. change (no_name ".gitignore") with false in H.
  cbn [negb] in H. rewrite andb_true_l in H.
  unfold read_lines. unfold FS.isfile in H.
  destruct (truthy g); cbn [andb] in H.
  - destruct (FS.lookup (FS.resolve wd ".gitignore") (fs w1)) as [[c|es]|] eqn:L.
    + unfold bind at 1 in H. unfold read_file at 1 in H.
      change (no_name ".gitignore") with false in H. cbv iota in H.
      rewrite L in H. unfold ret at 1 in H. unfold bind, git_Repo_, ret in H.
      destruct (git_Repo E "." wd (fs w1)) as [[]|e] eqn:G; [|discriminate].
      injection H as <- <-. cbn [fs log_call]. rewrite L.
      split; [apply NoDup_nodup|]. split; [|exact G].
      intros x. now rewrite mem_distinct.
    + unfold ret at 1 in H. unfold bind, git_Repo_, ret in H.
      destruct (git_Repo E "." wd (fs w1)) as [[]|e] eqn:G; [|discriminate].
      injection H as <- <-. cbn [fs log_call]. rewrite L.
      split; [constructor|]. split; [reflexivity | exact G].
    + unfold ret at 1 in H. unfold bind, git_Repo_, ret in H.
      destruct (git_Repo E "." wd (fs w1)) as [[]|e] eqn:G; [|discriminate].
      injection H as <- <-. cbn [fs log_call]. rewrite L.
      split; [constructor|]. split; [reflexivity | exact G].
  - unfold ret at 1 in H. unfold bind, git_Repo_, ret in H.
    destruct (git_Repo E "." wd (fs w1)) as [[]|e] eqn:G; [|discriminate].
    injection H as <- <-. cbn [fs log_call].
    split; [constructor|]. split; [reflexivity | exact G].
Qed.

(** X24: the preparation of a vendoring pass (lines 131-138), where no
    regular file is in the place of [.git/modules].  When it completes, the
    submodule metadata under [.git/modules] is gone, the working area
    [.quack/modules] exists, everything apart from these two is as before,
    and the project was accepted as a git repository.  The list the pass
    starts with has no name twice; with [gitignore] set its names are the
    lines of the ignore file as read in text mode (none when the file is
    missing), and it is empty otherwise. *)
Theorem pass_preparation :
  forall E wd config g w ignore_list w',
    py_get config "gitignore" PNone = Ok g ->
    FS.isfile (FS.resolve wd ".git/modules/") (fs w) = false ->
    fetch_prologue E wd config w = (Ok ignore_list, w') ->
    FS.exists_ (FS.resolve wd ".git/modules/") (fs w') = false
    /\ FS.exists_ (FS.resolve wd modules) (fs w') = true
    /\ (forall q, FS.apart q (FS.resolve wd ".git/modules/") = true ->
                  FS.apart q (FS.resolve wd modules) = true ->
                  FS.lookup q (fs w') = FS.lookup q (fs w))
    /\ git_Repo E "." wd (fs w') = Ok tt
    /\ NoDup ignore_list
    /\ (forall x, PyStr.mem x ignore_list
                  = truthy g && PyStr.mem x (read_lines wd (fs w'))).
Proof.
  intros E wd config g w ignore_list w' Hg _ H.
  destruct (fetch_prologue_ok _ _ _ _ _ _ H) as (A & B & C).
  destruct (fetch_prologue_list _ _ _ _ _ _ _ Hg H) as (N & D & G).
  repeat split; assumption.
Qed.

Lemma pass_preparation_witness :
  FS.exists_ (FS.resolve Toy.wd ".git/modules/")
    (fs (snd (fetch_prologue Toy.ext Toy.wd ToyIgnore.config ToyIgnore.world))) = false
  /\ FS.exists_ (FS.resolve Toy.wd modules)
       (fs (snd (fetch_prologue Toy.ext Toy.wd ToyIgnore.config ToyIgnore.world))) = true
  /\ (forall q, FS.apart q (FS.resolve Toy.wd ".git/modules/") = true ->
                FS.apart q (FS.resolve Toy.wd modules) = true ->
                FS.lookup q
                  (fs (snd (fetch_prologue Toy.ext Toy.wd ToyIgnore.config ToyIgnore.world)))
                = FS.lookup q (fs ToyIgnore.world))
  /\ git_Repo Toy.ext "." Toy.wd
       (fs (snd (fetch_prologue Toy.ext Toy.wd ToyIgnore.config ToyIgnore.world))) = Ok tt
  /\ NoDup ["lib"; "build"]
  /\ (forall x, PyStr.mem x ["lib"; "build"]
                = truthy (PBool true)
                  && PyStr.mem x
                       (read_lines Toy.wd
                          (fs (snd (fetch_prologue Toy.ext Toy.wd ToyIgnore.config
                                      ToyIgnore.world))))).
Proof.
  apply (pass_preparation Toy.ext Toy.wd ToyIgnore.config (PBool true) ToyIgnore.world
           ["lib"; "build"]
           (snd (fetch_prologue Toy.ext Toy.wd ToyIgnore.config ToyIgnore.world)));
    reflexivity.
Defined.
